(** * Will / witness approval state machine of the intkey REST front end

    Shallow embedding of the HTTP handlers of
    [sawtooth_intkey/client_cli/intkey_cli.py] (register_pubkey, show_user,
    list_need_approve, approve_public_key, create_will, show_will,
    show_will_list, witness_sign) together with the Python operations on
    decoded JSON values that these handlers rely on. *)

From Stdlib Require Import ZArith String List Bool Ascii Lia.
From stdpp Require Import base strings gmap.

Local Open Scope string_scope.
Local Open Scope list_scope.

(** ** Decoded JSON values

    [request.json()] and [client.show] hand the handlers ordinary Python
    values: [None], booleans, numbers, strings, lists and dicts.  A dict is
    kept as an association list in insertion order with unique keys.  Only
    integer numbers are represented. *)

#[warnings="-register-all"]
Inductive json : Type :=
| JNull
| JBool (b : bool)
| JNum (n : Z)
| JStr (s : string)
| JArr (items : list json)
| JObj (fields : list (string * json)).

Inductive exn : Type :=
| KeyError
| TypeError
| AttributeError
| ValueError
| IntkeyClientException.

Inductive result (A : Type) : Type :=
| Ok (a : A)
| Raise (e : exn).

Arguments Ok {A} a.
Arguments Raise {A} e.

Module Py.

(** [d.get(k)] on the association list of a dict. *)
Fixpoint dict_get {A : Type} (k : string) (d : list (string * A)) : option A :=
  match d with
  | [] => None
  | (k', v) :: d' => if String.eqb k k' then Some v else dict_get k d'
  end.

(** [d[k] = v]: an existing key keeps its position, a new one goes last. *)
Fixpoint dict_set {A : Type} (k : string) (v : A) (d : list (string * A))
  : list (string * A) :=
  match d with
  | [] => [(k, v)]
  | (k', v') :: d' =>
      if String.eqb k k' then (k', v) :: d' else (k', v') :: dict_set k v d'
  end.

Definition dict_has {A : Type} (k : string) (d : list (string * A)) : bool :=
  match dict_get k d with Some _ => true | None => false end.

(** Python's [==] on decoded JSON: [True == 1], lists compare element by
    element, dicts compare key by key whatever the order. *)
Fixpoint eq (a b : json) {struct a} : bool :=
  match a, b with
  | JNull, JNull => true
  | JBool x, JBool y => Bool.eqb x y
  | JBool x, JNum n => Z.eqb (Z.b2z x) n
  | JNum n, JBool y => Z.eqb n (Z.b2z y)
  | JNum n, JNum m => Z.eqb n m
  | JStr s, JStr t => String.eqb s t
  | JArr l, JArr m =>
      (fix items (l m : list json) {struct l} : bool :=
         match l, m with
         | [], [] => true
         | x :: l', y :: m' => eq x y && items l' m'
         | _, _ => false
         end) l m
  | JObj f, JObj g =>
      Nat.eqb (length f) (length g) &&
      (fix fields (f : list (string * json)) {struct f} : bool :=
         match f with
         | [] => true
         | (k, v) :: f' =>
             match dict_get k g with
             | Some w => eq v w
             | None => false
             end && fields f'
         end) f
  | _, _ => false
  end.

(** [sub in s] on strings. *)
Fixpoint str_contains (sub s : string) : bool :=
  String.prefix sub s ||
  match s with
  | EmptyString => false
  | String _ s' => str_contains sub s'
  end.

Definition list_contains (x : json) (l : list json) : bool :=
  existsb (fun e => eq x e) l.

(** [x in c]. *)
Definition contains (x c : json) : result bool :=
  match c with
  | JArr l => Ok (list_contains x l)
  | JObj d =>
      match x with
      | JStr k => Ok (dict_has k d)
      | JArr _ | JObj _ => Raise TypeError
      | _ => Ok false
      end
  | JStr s =>
      match x with
      | JStr t => Ok (str_contains t s)
      | _ => Raise TypeError
      end
  | _ => Raise TypeError
  end.

(** [c[k]] for a string subscript. *)
Definition getitem (c : json) (k : string) : result json :=
  match c with
  | JObj d =>
      match dict_get k d with
      | Some v => Ok v
      | None => Raise KeyError
      end
  | _ => Raise TypeError
  end.

(** [c[k] = v] for a string subscript; the result is the mutated object. *)
Definition setitem (c : json) (k : string) (v : json) : result json :=
  match c with
  | JObj d => Ok (JObj (dict_set k v d))
  | _ => Raise TypeError
  end.

(** [len(c)].  A string is a sequence of characters, one [ascii] each. *)
Definition len (c : json) : result nat :=
  match c with
  | JArr l => Ok (length l)
  | JObj d => Ok (length d)
  | JStr s => Ok (String.length s)
  | _ => Raise TypeError
  end.

(** The sequence [for x in c] walks through: the items of a list, the keys
    of a dict, the characters of a string (one [ascii] each). *)
Definition iter (c : json) : result (list json) :=
  match c with
  | JArr l => Ok l
  | JObj d => Ok (map (fun kv => JStr (fst kv)) d)
  | JStr s =>
      Ok (map (fun ch => JStr (String ch EmptyString)) (list_ascii_of_string s))
  | _ => Raise TypeError
  end.

(** [c.append(x)]; the result is the mutated list. *)
Definition append (c x : json) : result json :=
  match c with
  | JArr l => Ok (JArr (l ++ [x]))
  | _ => Raise AttributeError
  end.

Fixpoint remove_first (x : json) (l : list json) : option (list json) :=
  match l with
  | [] => None
  | e :: l' =>
      if eq e x then Some l'
      else match remove_first x l' with
           | Some r => Some (e :: r)
           | None => None
           end
  end.

(** [c.remove(x)]; the result is the mutated list. *)
Definition remove (c x : json) : result json :=
  match c with
  | JArr l =>
      match remove_first x l with
      | Some r => Ok (JArr r)
      | None => Raise ValueError
      end
  | _ => Raise AttributeError
  end.

(** [prefix + x] where [prefix] is a string literal. *)
Definition str_add (prefix : string) (x : json) : result string :=
  match x with
  | JStr s => Ok (prefix +:+ s)
  | _ => Raise TypeError
  end.

End Py.

(** ** The ledger client and the handler monad *)

(** A handler runs against the ledger state and either returns or raises;
    writes made before a raise stay in the ledger. *)
Definition M (A : Type) : Type :=
  gmap string json -> gmap string json * result A.

Definition ret {A : Type} (a : A) : M A := fun s => (s, Ok a).

Definition raise {A : Type} (e : exn) : M A := fun s => (s, Raise e).

Definition bind {A B : Type} (m : M A) (k : A -> M B) : M B :=
  fun s =>
    match m s with
    | (s', Ok a) => k a s'
    | (s', Raise e) => (s', Raise e)
    end.

Definition lift {A : Type} (r : result A) : M A := fun s => (s, r).

Notation "'let*' x ':=' m 'in' k" := (bind m (fun x => k))
  (at level 10, x name, m at level 100, k at level 200).
Notation "m ';;' k" := (bind m (fun _ => k))
  (at level 100, k at level 200, right associativity).

(** [try: m except IntkeyClientException: h].  Any other exception goes
    through. *)
Definition try_client {A : Type} (m : M A) (h : M A) : M A :=
  fun s =>
    match m s with
    | (s', Raise IntkeyClientException) => h s'
    | other => other
    end.

(** [try: m except: h] with a bare [except]. *)
Definition try_any {A : Type} (m : M A) (h : M A) : M A :=
  fun s =>
    match m s with
    | (s', Raise _) => h s'
    | other => other
    end.

(** [for x in l: acc = f(acc, x)]. *)
Fixpoint for_each {A B : Type} (f : B -> A -> M B) (l : list A) (acc : B) : M B :=
  match l with
  | [] => ret acc
  | x :: l' => let* acc' := f acc x in for_each f l' acc'
  end.

(** Modelled from the spec: [IntkeyClient] (module [intkey_client], of which
    only the import is present).  The spec gives its contract:
    [show(name) -> value], failing with a not-found condition when the key
    was never written, and [set(name, value, wait) -> receipt]; keys are
    strings.  The not-found condition is the exception that the handlers'
    [except IntkeyClientException] clauses catch.  Each value is serialized
    on its way to the ledger, so the ledger shares no object with a
    handler.  [wait] only bounds how long a write blocks and is left out;
    a write is visible to the reads that follow it. *)
Definition client_show (name : json) : M json :=
  fun s =>
    match name with
    | JStr k =>
        match s !! k with
        | Some v => (s, Ok v)
        | None => (s, Raise IntkeyClientException)
        end
    | _ => (s, Raise TypeError)
    end.

(** Modelled from the spec: [IntkeyClient.set], see [client_show]. *)
Definition client_set (name : json) (value : json) : M unit :=
  fun s =>
    match name with
    | JStr k => (<[k := value]> s, Ok tt)
    | _ => (s, Raise TypeError)
    end.

(** ** Constants *)

Definition WILL_PREFIX : string := "WILL_".
Definition WILL_LIST_PREFIX : string := "WILL_LIST_".
Definition KEY_NEED_REVIEW : string := "KEY_NEED_REVIEW".

(** ** Requests and responses *)

Record request : Type := {
  method : string;
  query : list (string * string);
  json_body : json
}.

Record response : Type := {
  status_code : Z;
  envelope : json
}.

(** [request.url.query.get(name, None)]. *)
Definition query_get (req : request) (name : string) : option string :=
  Py.dict_get name (query req).

(** [_wrap_response(request, data, status)]: the envelope carries [data]
    unless it is [None]. *)
Definition wrap_response (data : json) (status : Z) : response :=
  {| status_code := status;
     envelope := match data with
                 | JNull => JObj []
                 | _ => JObj [("data", data)]
                 end |}.

Definition missing_public_key : json :=
  JObj [("success", JBool false); ("error", JStr "Missing public_key")].

Definition processing : json := JObj [("processing", JBool true)].

(** [get_value(args, pubkey)]. *)
Definition get_value (pubkey : json) : M json := client_show pubkey.

(** ** Registry handlers *)

Definition register_pubkey (req : request) : M response :=
  if negb (String.eqb (method req) "POST") then ret (wrap_response JNull 200)
  else
    let body := json_body req in
    let* has_key := lift (Py.contains (JStr "public_key") body) in
    if negb has_key then ret (wrap_response missing_public_key 400)
    else
      let* has_status := lift (Py.contains (JStr "status") body) in
      let* body :=
        (if negb has_status
         then lift (Py.setitem body "status" (JStr "need_review"))
         else ret body) in
      let* pubkey := lift (Py.getitem body "public_key") in
      (* Save to pending list *)
      let* list_pending :=
        try_client (get_value (JStr KEY_NEED_REVIEW))
                   (client_set (JStr KEY_NEED_REVIEW) (JArr []) ;; ret JNull) in
      let list_pending :=
        match list_pending with JNull => JArr [] | other => other end in
      let* listed := lift (Py.contains pubkey list_pending) in
      let* list_pending :=
        (if negb listed then lift (Py.append list_pending pubkey)
         else ret list_pending) in
      client_set (JStr KEY_NEED_REVIEW) list_pending ;;
      (* Save user *)
      client_set pubkey body ;;
      ret (wrap_response processing 200).

Definition show_user (req : request) : M response :=
  if negb (String.eqb (method req) "GET") then ret (wrap_response JNull 200)
  else
    match query_get req "public_key" with
    | None => ret (wrap_response missing_public_key 400)
    | Some pubkey =>
        let* body := get_value (JStr pubkey) in
        ret (wrap_response body 200)
    end.

Definition list_need_approve (req : request) : M response :=
  if negb (String.eqb (method req) "GET") then ret (wrap_response JNull 200)
  else
    let* pending_list := get_value (JStr KEY_NEED_REVIEW) in
    let* entries := lift (Py.iter pending_list) in
    let* users :=
      for_each (fun users pubkey =>
                  let* user := get_value pubkey in
                  ret (users ++ [user]))
               entries [] in
    ret (wrap_response (JArr users) 200).

Definition approve_public_key (req : request) : M response :=
  if negb (String.eqb (method req) "GET") then ret (wrap_response JNull 200)
  else
    match query_get req "public_key" with
    | None => ret (wrap_response missing_public_key 400)
    | Some pubkey =>
        let* body := get_value (JStr pubkey) in
        let* body := lift (Py.setitem body "status" (JStr "approved")) in
        client_set (JStr pubkey) body ;;
        let* pending_list := get_value (JStr KEY_NEED_REVIEW) in
        let* listed := lift (Py.contains (JStr pubkey) pending_list) in
        let* pending_list :=
          (if listed then lift (Py.remove pending_list (JStr pubkey))
           else ret pending_list) in
        client_set (JStr KEY_NEED_REVIEW) pending_list ;;
        ret (wrap_response body 200)
    end.

(** ** Will handlers *)

(** One turn of the loop over [body['witnesses']] in [create_will]. *)
Definition index_witness (pubkey : json) (_ : unit) (wn : json) : M unit :=
  let* wn_pubkey := lift (Py.getitem wn "public_key") in
  let* name := lift (Py.str_add WILL_LIST_PREFIX wn_pubkey) in
  let* will_list := try_client (get_value (JStr name)) (ret (JArr [])) in
  let* listed := lift (Py.contains pubkey will_list) in
  if negb listed then
    let* will_list := lift (Py.append will_list pubkey) in
    (* Save will list for user *)
    client_set (JStr name) will_list
  else ret tt.

Definition create_will (req : request) : M response :=
  if negb (String.eqb (method req) "POST") then ret (wrap_response JNull 200)
  else
    let body := json_body req in
    let* has_key := lift (Py.contains (JStr "public_key") body) in
    if negb has_key then ret (wrap_response missing_public_key 400)
    else
      let* pubkey := lift (Py.getitem body "public_key") in
      (* Check witnesses *)
      let* has_witnesses := lift (Py.contains (JStr "witnesses") body) in
      let* no_witness :=
        (if negb has_witnesses then ret true
         else
           let* witnesses := lift (Py.getitem body "witnesses") in
           let* n := lift (Py.len witnesses) in
           ret (Nat.eqb n 0)) in
      let* body :=
        (if no_witness then lift (Py.setitem body "status" (JStr "valid"))
         else
           let* witnesses := lift (Py.getitem body "witnesses") in
           let* entries := lift (Py.iter witnesses) in
           for_each (index_witness pubkey) entries tt ;;
           ret body) in
      let* name := lift (Py.str_add WILL_PREFIX pubkey) in
      client_set (JStr name) body ;;
      ret (wrap_response processing 200).

Definition show_will (req : request) : M response :=
  if negb (String.eqb (method req) "GET") then ret (wrap_response JNull 200)
  else
    match query_get req "public_key" with
    | None => ret (wrap_response missing_public_key 400)
    | Some pubkey =>
        let* body := get_value (JStr (WILL_PREFIX +:+ pubkey)) in
        ret (wrap_response body 200)
    end.

Definition show_will_list (req : request) : M response :=
  if negb (String.eqb (method req) "GET") then ret (wrap_response JNull 200)
  else
    match query_get req "public_key" with
    | None => ret (wrap_response missing_public_key 400)
    | Some pubkey =>
        let* will_list_pubkey :=
          try_client (get_value (JStr (WILL_LIST_PREFIX +:+ pubkey)))
                     (ret (JArr [])) in
        let* entries := lift (Py.iter will_list_pubkey) in
        let* will_list :=
          for_each (fun will_list will_pubkey =>
                      try_any
                        (let* name := lift (Py.str_add WILL_PREFIX will_pubkey) in
                         let* will := get_value (JStr name) in
                         let* testator_key := lift (Py.getitem will "public_key") in
                         let* testator := get_value testator_key in
                         let* will := lift (Py.setitem will "testator" testator) in
                         ret (will_list ++ [will]))
                        (ret will_list))
                   entries [] in
        ret (wrap_response (JArr will_list) 200)
    end.

(** The locals of the loop in [witness_sign]: [found_witness], [sign_count]
    and the entries visited so far, as the assignments [wn["status"] =
    'signed'] left them. *)
Record sign_state : Type := {
  found_witness : bool;
  sign_count : nat;
  visited : list json
}.

(** One turn of the loop over [witnesses] in [witness_sign]. *)
Definition sign_entry (witness : string) (st : sign_state) (wn : json)
  : result sign_state :=
  match Py.contains (JStr "status") wn with
  | Raise e => Raise e
  | Ok has_status =>
      match (if has_status
             then match Py.getitem wn "status" with
                  | Ok v => Ok (Py.eq v (JStr "signed"))
                  | Raise e => Raise e
                  end
             else Ok false) with
      | Raise e => Raise e
      | Ok signed =>
          let count := if signed then S (sign_count st) else sign_count st in
          match Py.getitem wn "public_key" with
          | Raise e => Raise e
          | Ok pk =>
              if Py.eq pk (JStr witness) then
                match Py.setitem wn "status" (JStr "signed") with
                | Raise e => Raise e
                | Ok wn' =>
                    Ok {| found_witness := true;
                          sign_count := S count;
                          visited := visited st ++ [wn'] |}
                end
              else
                Ok {| found_witness := found_witness st;
                      sign_count := count;
                      visited := visited st ++ [wn] |}
          end
      end
  end.

Fixpoint sign_loop (witness : string) (entries : list json) (st : sign_state)
  : result sign_state :=
  match entries with
  | [] => Ok st
  | wn :: rest =>
      match sign_entry witness st wn with
      | Ok st' => sign_loop witness rest st'
      | Raise e => Raise e
      end
  end.

Definition witness_not_found : json :=
  JObj [("success", JBool false);
        ("error", JStr "Witness is not found in this will")].

Definition missing_sign_params : json :=
  JObj [("success", JBool false);
        ("error", JStr "Missing public_key and/or witness param")].

Definition witness_sign (req : request) : M response :=
  if negb (String.eqb (method req) "GET") then ret (wrap_response JNull 200)
  else
    match query_get req "public_key", query_get req "witness" with
    | Some pubkey, Some witness =>
        let* body := get_value (JStr (WILL_PREFIX +:+ pubkey)) in
        let* witnesses := lift (Py.getitem body "witnesses") in
        let* entries := lift (Py.iter witnesses) in
        let* st :=
          lift (sign_loop witness entries
                  {| found_witness := false; sign_count := 0; visited := [] |}) in
        (* the entries are the objects inside [body]: the assignments of the
           loop show through [body['witnesses']] *)
        let* body :=
          (match witnesses with
           | JArr _ => lift (Py.setitem body "witnesses" (JArr (visited st)))
           | _ => ret body
           end) in
        (* Not found witness *)
        if negb (found_witness st) then ret (wrap_response witness_not_found 400)
        else
          (* All witnesses signed into will => VALID *)
          let* witnesses := lift (Py.getitem body "witnesses") in
          let* n := lift (Py.len witnesses) in
          let* body :=
            (if Nat.eqb (sign_count st) n
             then lift (Py.setitem body "status" (JStr "valid"))
             else ret body) in
          client_set (JStr (WILL_PREFIX +:+ pubkey)) body ;;
          ret (wrap_response body 200)
    | _, _ => ret (wrap_response missing_sign_params 400)
    end.

(** ** The operations of the specification as requests *)

Definition GET (q : list (string * string)) : request :=
  {| method := "GET"; query := q; json_body := JNull |}.

Definition POST (body : json) : request :=
  {| method := "POST"; query := []; json_body := body |}.

Definition Register (body : json) : M response := register_pubkey (POST body).
Definition ShowUser (k : string) : M response :=
  show_user (GET [("public_key", k)]).
Definition ListPending : M response := list_need_approve (GET []).
Definition Approve (k : string) : M response :=
  approve_public_key (GET [("public_key", k)]).
Definition CreateWill (body : json) : M response := create_will (POST body).
Definition ShowWill (t : string) : M response :=
  show_will (GET [("public_key", t)]).
Definition ListForWitness (w : string) : M response :=
  show_will_list (GET [("public_key", w)]).
Definition Sign (t w : string) : M response :=
  witness_sign (GET [("public_key", t); ("witness", w)]).

(** The request body of [CreateWill(testator, witnesses)] with nothing but
    the two fields. *)
Definition will_request (t : string) (ws : list json) : json :=
  JObj [("public_key", JStr t); ("witnesses", JArr ws)].

Definition witness_entry (w : string) : json := JObj [("public_key", JStr w)].

(** ** Predicates used in the statements *)

(** What [create_will] hands to its final [client.set]: the request body,
    with [status] set to ['valid'] when ['witnesses'] is absent or has
    length zero. *)
Definition stored_will (d : list (string * json)) : json :=
  match Py.dict_get "witnesses" d with
  | None => JObj (Py.dict_set "status" (JStr "valid") d)
  | Some w =>
      match Py.len w with
      | Ok 0 => JObj (Py.dict_set "status" (JStr "valid") d)
      | _ => JObj d
      end
  end.

(** A witness entry that [create_will] can index: a dict whose
    [public_key] is a string, the index stored for it (if any) being a
    list. *)
Definition index_ready (s : gmap string json) (wn : json) : Prop :=
  exists o w,
    wn = JObj o /\ Py.dict_get "public_key" o = Some (JStr w) /\
    (s !! (WILL_LIST_PREFIX +:+ w) = None \/
     exists l, s !! (WILL_LIST_PREFIX +:+ w) = Some (JArr l)).

Definition witnesses_ready (s : gmap string json) (d : list (string * json))
  : Prop :=
  Py.dict_get "witnesses" d = None \/
  exists ws,
    Py.dict_get "witnesses" d = Some (JArr ws) /\ Forall (index_ready s) ws.

(** [s1] differs from [s] only at keys that now hold a list. *)
Definition lists_kept (s s1 : gmap string json) : Prop :=
  forall key, s1 !! key = s !! key \/ exists l, s1 !! key = Some (JArr l).

(** A witness entry as [witness_sign] needs it: a dict with a
    [public_key]. *)
Definition entry_ok (wn : json) : Prop :=
  exists o pk, wn = JObj o /\ Py.dict_get "public_key" o = Some pk.

(** The entry carries [status == 'signed']. *)
Definition entry_signed (wn : json) : bool :=
  match wn with
  | JObj o =>
      match Py.dict_get "status" o with
      | Some v => Py.eq v (JStr "signed")
      | None => false
      end
  | _ => false
  end.

(** The entry's [public_key] equals [w]. *)
Definition entry_names (w : string) (wn : json) : bool :=
  match wn with
  | JObj o =>
      match Py.dict_get "public_key" o with
      | Some pk => Py.eq pk (JStr w)
      | None => false
      end
  | _ => false
  end.

(** [w] is among the witnesses entries. *)
Definition listed (w : string) (ws : list json) : Prop :=
  exists o, In (JObj o) ws /\ Py.dict_get "public_key" o = Some (JStr w).

(** The entry after the loop of [witness_sign] for witness [w] went over it. *)
Definition mark_signed (w : string) (wn : json) : json :=
  match wn with
  | JObj o =>
      if entry_names w wn then JObj (Py.dict_set "status" (JStr "signed") o)
      else wn
  | _ => wn
  end.

Definition count_signed (ws : list json) : nat :=
  length (List.filter entry_signed ws).

Definition count_named (w : string) (ws : list json) : nat :=
  length (List.filter (entry_names w) ws).

(** The will that [witness_sign] writes back for witness [w], from the
    stored will [d] with entries [ws]. *)
Definition after_sign (w : string) (d : list (string * json)) (ws : list json)
  : json :=
  let d1 := Py.dict_set "witnesses" (JArr (map (mark_signed w) ws)) d in
  if Nat.eqb (count_signed ws + count_named w ws) (length ws)
  then JObj (Py.dict_set "status" (JStr "valid") d1)
  else JObj d1.

(** No entry of the list is [==] to an earlier one: what the guard
    [if pubkey not in list_pending] of [register_pubkey] maintains. *)
Fixpoint distinct (l : list json) : bool :=
  match l with
  | [] => true
  | x :: r => negb (existsb (fun y => Py.eq y x) r) && distinct r
  end.

(** How many entries equal the string [k]. *)
Definition occurrences (k : string) (l : list json) : nat :=
  length (List.filter (fun e => Py.eq e (JStr k)) l).

(** The value stored at [KEY_NEED_REVIEW], when it is a list, has no
    duplicates. *)
Definition pending_ok (s : gmap string json) : Prop :=
  forall l, s !! KEY_NEED_REVIEW = Some (JArr l) -> distinct l = true.

(** A request to one of the two handlers that write [KEY_NEED_REVIEW]. *)
Inductive registry_call : Type :=
| CallRegister (req : request)
| CallApprove (req : request).

Definition call (c : registry_call) : M response :=
  match c with
  | CallRegister req => register_pubkey req
  | CallApprove req => approve_public_key req
  end.

(** The ledger after a sequence of such requests, whatever each of them
    answered. *)
Fixpoint run (cs : list registry_call) (s : gmap string json) : gmap string json :=
  match cs with
  | [] => s
  | c :: cs' => run cs' (fst (call c s))
  end.

(** [k] is an entry of the list stored at [KEY_NEED_REVIEW]. *)
Definition in_pending (k : string) (s : gmap string json) : Prop :=
  exists l, s !! KEY_NEED_REVIEW = Some (JArr l) /\ In (JStr k) l.

(** The pending list is absent or empty. *)
Definition fresh_registry (s : gmap string json) : Prop :=
  s !! KEY_NEED_REVIEW = None \/ s !! KEY_NEED_REVIEW = Some (JArr []).

(** ** Predicates for further properties of the handlers *)

(** The value stored at [KEY_NEED_REVIEW] is absent or a list. *)
Definition registry_ready (s : gmap string json) : Prop :=
  s !! KEY_NEED_REVIEW = None \/
  exists l, s !! KEY_NEED_REVIEW = Some (JArr l).

(** The entries of the pending list, none when there is no list. *)
Definition pending_list_of (s : gmap string json) : list json :=
  match s !! KEY_NEED_REVIEW with
  | Some (JArr l) => l
  | _ => []
  end.

(** The profile [register_pubkey] stores: the request body, with
    [status = 'need_review'] when it carries no [status]. *)
Definition registered_profile (d : list (string * json))
  : list (string * json) :=
  if Py.dict_has "status" d then d
  else Py.dict_set "status" (JStr "need_review") d.

(** [if x not in l: l.append(x)]. *)
Definition enqueue (x : json) (l : list json) : list json :=
  if Py.list_contains x l then l else l ++ [x].

(** The listed entry [e] is a key under which the ledger holds [v]. *)
Definition resolves (s : gmap string json) (e v : json) : Prop :=
  exists k, e = JStr k /\ s !! k = Some v.

(** [if k in l: l.remove(k)]. *)
Definition dequeue (k : string) (l : list json) : list json :=
  match Py.remove_first (JStr k) l with
  | Some r => r
  | None => l
  end.

(** The witness entry [wn] names a witness whose index lists testator [t]. *)
Definition indexed (t : string) (s : gmap string json) (wn : json) : Prop :=
  exists o w l,
    wn = JObj o /\ Py.dict_get "public_key" o = Some (JStr w) /\
    s !! (WILL_LIST_PREFIX +:+ w) = Some (JArr l) /\ In (JStr t) l.

(** [s1] differs from [s] at witness-index keys only. *)
Definition index_writes_only (s s1 : gmap string json) : Prop :=
  forall key,
    s1 !! key = s !! key \/ exists w, key = WILL_LIST_PREFIX +:+ w.

(** What the loop of [show_will_list] makes of one index entry: the will
    of the listed testator with the testator's record attached as
    [testator], or nothing when a lookup on the way fails. *)
Definition will_view (s : gmap string json) (e : json) : option json :=
  match e with
  | JStr k =>
      match s !! (WILL_PREFIX +:+ k) with
      | Some (JObj will) =>
          match Py.dict_get "public_key" will with
          | Some (JStr pk) =>
              match s !! pk with
              | Some testator =>
                  Some (JObj (Py.dict_set "testator" testator will))
              | None => None
              end
          | _ => None
          end
      | _ => None
      end
  | _ => None
  end.

(** The wills that [show_will_list] returns for the index entries [l]. *)
Fixpoint will_views (s : gmap string json) (l : list json) : list json :=
  match l with
  | [] => []
  | e :: l' =>
      match will_view s e with
      | Some v => v :: will_views s l'
      | None => will_views s l'
      end
  end.

(** ** The routes of [start_rest_api] *)

Inductive handler : Type :=
| H_register_pubkey
| H_show_user
| H_list_need_approve
| H_approve_public_key
| H_create_will
| H_show_will
| H_show_will_list
| H_witness_sign
| H_generate_key.

(** [app.router.add_route('*', path, handler)], in the order of the
    source. *)
Definition routes : list (string * handler) :=
  [("/register", H_register_pubkey);
   ("/user", H_show_user);
   ("/admin/list", H_list_need_approve);
   ("/admin/approve", H_approve_public_key);
   ("/will/create", H_create_will);
   ("/will", H_show_will);
   ("/will/list", H_show_will_list);
   ("/will/witness_sign", H_witness_sign);
   ("/generate_key", H_generate_key)].

(** The ledger after handler [h] served [req].  [generate_key] runs the
    key generator and reads the two key files; it makes no client call, so
    the ledger stays as it is (its answer is not modelled). *)
Definition ledger_after (h : handler) (req : request) (s : gmap string json)
  : gmap string json :=
  match h with
  | H_register_pubkey => fst (register_pubkey req s)
  | H_show_user => fst (show_user req s)
  | H_list_need_approve => fst (list_need_approve req s)
  | H_approve_public_key => fst (approve_public_key req s)
  | H_create_will => fst (create_will req s)
  | H_show_will => fst (show_will req s)
  | H_show_will_list => fst (show_will_list req s)
  | H_witness_sign => fst (witness_sign req s)
  | H_generate_key => s
  end.

(** The ledger after a sequence of requests, each sent to a path; a path
    without a route reaches no handler. *)
Fixpoint serve_all (calls : list (string * request)) (s : gmap string json)
  : gmap string json :=
  match calls with
  | [] => s
  | (path, req) :: calls' =>
      match Py.dict_get path routes with
      | Some h => serve_all calls' (ledger_after h req s)
      | None => serve_all calls' s
      end
  end.

(** [s1] differs from [s] at keys of the form ['WILL_' + x] only. *)
Definition will_keys_only (s s1 : gmap string json) : Prop :=
  forall j, (forall x, j <> WILL_PREFIX +:+ x) -> s1 !! j = s !! j.

(** ** Signing in sequence *)

(** The ledger after the witnesses [sigs] called [Sign] for testator [t],
    one after the other. *)
Fixpoint sign_seq (t : string) (sigs : list string) (s : gmap string json)
  : gmap string json :=
  match sigs with
  | [] => s
  | w :: sigs' => sign_seq t sigs' (fst (Sign t w s))
  end.

(** The entry names one of the keys [S]. *)
Definition key_in (S : list string) (wn : json) : bool :=
  existsb (fun w => entry_names w wn) S.

(** The stored entries [ws'] after the witnesses [S] signed, against the
    entries [ws] the will was created with. *)
Definition signed_by (S : list string) (wn wn' : json) : Prop :=
  (forall w, entry_names w wn' = entry_names w wn) /\
  entry_signed wn' = key_in S wn.

(** The state of testator [t]'s will after the witnesses [S] signed. *)
Definition will_after (t : string) (d : list (string * json)) (ws : list json)
    (S : list string) (s : gmap string json) : Prop :=
  exists d' ws',
    s !! (WILL_PREFIX +:+ t) = Some (JObj d') /\
    Py.dict_get "witnesses" d' = Some (JArr ws') /\
    Forall entry_ok ws' /\
    Forall2 (signed_by S) ws ws' /\
    (S <> [] -> forallb (key_in S) ws = true ->
     Py.dict_get "status" d' = Some (JStr "valid")) /\
    (forallb (key_in S) ws = false ->
     Py.dict_get "status" d' = Py.dict_get "status" d).

(** ** Predicates on sequences of registry requests *)

(** The request [c] is a registration whose body is a dict carrying
    [public_key = k]. *)
Definition registers (k : string) (c : registry_call) : Prop :=
  match c with
  | CallRegister req =>
      method req = "POST" /\
      exists d, json_body req = JObj d /\
                Py.dict_get "public_key" d = Some (JStr k)
  | CallApprove _ => False
  end.

(** The ledger holds a record (a dict) at [k] and a list at
    [KEY_NEED_REVIEW]. *)
Definition registered (k : string) (s : gmap string json) : Prop :=
  (exists d, s !! k = Some (JObj d)) /\
  exists l, s !! KEY_NEED_REVIEW = Some (JArr l).

(** [s1] differs from [s] by a list written at [KEY_NEED_REVIEW] and by
    dicts written at other keys. *)
Definition registry_step (s s1 : gmap string json) : Prop :=
  forall j,
    s1 !! j = s !! j \/
    (j = KEY_NEED_REVIEW /\ exists l, s1 !! j = Some (JArr l)) \/
    (j <> KEY_NEED_REVIEW /\ exists d, s1 !! j = Some (JObj d)).

(** [s1] differs from [s] only at keys that held nothing or a list and now
    hold a list. *)
Definition lists_grown (s s1 : gmap string json) : Prop :=
  forall key,
    s1 !! key = s !! key \/
    (exists l, s1 !! key = Some (JArr l)) /\
    (s !! key = None \/ exists l0, s !! key = Some (JArr l0)).

(** ** Facts about the Python operations *)

Section PyFacts.

Context {A : Type}.
Implicit Types (d : list (string * A)) (k : string) (v : A).

Lemma dict_get_set_eq k v d : Py.dict_get k (Py.dict_set k v d) = Some v.
Proof.
  induction d as [|[k' v'] d IH]; simpl.
  - now rewrite String.eqb_refl.
  - destruct (String.eqb k k') eqn:E; simpl; rewrite E; auto.
Qed.

Lemma dict_get_set_ne k k' v d :
  k <> k' -> Py.dict_get k (Py.dict_set k' v d) = Py.dict_get k d.
Proof.
  intros Hne. induction d as [|[k0 v0] d IH]; simpl.
  - destruct (String.eqb k k') eqn:E; auto.
    apply String.eqb_eq in E. contradiction.
  - destruct (String.eqb k' k0) eqn:E; simpl.
    + apply String.eqb_eq in E. subst k0.
      destruct (String.eqb k k') eqn:E'; auto.
      apply String.eqb_eq in E'. contradiction.
    + destruct (String.eqb k k0); auto.
Qed.

Lemma dict_has_get k d v : Py.dict_get k d = Some v -> Py.dict_has k d = true.
Proof. unfold Py.dict_has. now intros ->. Qed.

Lemma dict_has_none k d : Py.dict_get k d = None -> Py.dict_has k d = false.
Proof. unfold Py.dict_has. now intros ->. Qed.

End PyFacts.

Lemma py_eq_str_l k e : Py.eq (JStr k) e = true -> e = JStr k.
Proof.
  destruct e; simpl; try discriminate.
  intros H. apply String.eqb_eq in H. now subst.
Qed.

Lemma py_eq_str_r k e : Py.eq e (JStr k) = true -> e = JStr k.
Proof.
  destruct e; simpl; try discriminate.
  intros H. apply String.eqb_eq in H. now subst.
Qed.

Lemma py_eq_str_refl k : Py.eq (JStr k) (JStr k) = true.
Proof. simpl. apply String.eqb_refl. Qed.

(** ** [create_will] *)

Lemma show_will_inserted t will s :
  ShowWill t (<[WILL_PREFIX +:+ t := will]> s) =
  (<[WILL_PREFIX +:+ t := will]> s, Ok (wrap_response will 200)).
Proof.
  unfold ShowWill, show_will, bind, ret, get_value, client_show. simpl.
  now rewrite lookup_insert_eq.
Qed.

(** Whenever [create_will] returns the [processing] acknowledgement, its
    last write put [stored_will] at the will key. *)
Lemma create_will_written d t s s' r :
  Py.dict_get "public_key" d = Some (JStr t) ->
  CreateWill (JObj d) s = (s', Ok r) ->
  r = wrap_response processing 200 /\
  exists s1, s' = <[WILL_PREFIX +:+ t := stored_will d]> s1.
Proof.
  intros Hpk. unfold CreateWill, create_will, stored_will, bind, lift, ret. simpl.
  rewrite (dict_has_get _ _ _ Hpk). simpl. rewrite Hpk.
  unfold Py.dict_has.
  destruct (Py.dict_get "witnesses" d) as [w|] eqn:Hw; simpl.
  - destruct (Py.len w) as [n|e] eqn:Hn; simpl; [|discriminate].
    destruct n as [|n]; simpl.
    + intros H; inversion H; subst. eauto.
    + destruct (Py.iter w) as [entries|e]; simpl; [|discriminate].
      destruct (for_each (index_witness (JStr t)) entries tt s) as [s1 [[]|e]];
        simpl; [|discriminate].
      intros H; inversion H; subst. eauto.
  - intros H; inversion H; subst. eauto.
Qed.

Lemma index_ready_kept s s1 wn :
  lists_kept s s1 -> index_ready s wn -> index_ready s1 wn.
Proof.
  intros Hk (o & w & -> & Hpk & Hs). exists o, w. repeat split; auto.
  destruct (Hk (WILL_LIST_PREFIX +:+ w)) as [E | [l E]].
  - rewrite E. exact Hs.
  - right. eauto.
Qed.

Lemma lists_kept_refl s : lists_kept s s.
Proof. intros key. now left. Qed.

Lemma lists_kept_insert s key l : lists_kept s (<[key := JArr l]> s).
Proof.
  intros key'. destruct (decide (key = key')) as [<- | Hne].
  - right. exists l. apply lookup_insert_eq.
  - left. now apply lookup_insert_ne.
Qed.

Lemma index_witness_completes pubkey s wn :
  index_ready s wn ->
  exists s1, index_witness pubkey tt wn s = (s1, Ok tt) /\ lists_kept s s1.
Proof.
  intros (o & w & -> & Hpk & Hs).
  unfold index_witness, bind, lift, ret, try_client, get_value, client_show,
    client_set. simpl. rewrite Hpk. simpl.
  destruct Hs as [Hs | [l Hs]]; rewrite Hs; simpl.
  - eexists. split; [reflexivity | apply lists_kept_insert].
  - destruct (Py.list_contains pubkey l); simpl.
    + eexists. split; [reflexivity | apply lists_kept_refl].
    + eexists. split; [reflexivity | apply lists_kept_insert].
Qed.

Lemma index_loop_completes pubkey ws : forall s,
  Forall (index_ready s) ws ->
  exists s1, for_each (index_witness pubkey) ws tt s = (s1, Ok tt).
Proof.
  induction ws as [|wn ws IH]; intros s Hall; simpl.
  - now exists s.
  - inversion Hall as [|? ? Hwn Hws]; subst.
    destruct (index_witness_completes pubkey s wn Hwn) as (s1 & E & Hk).
    unfold bind. rewrite E.
    apply IH. eapply Forall_impl; [exact Hws|].
    intros a. now apply index_ready_kept.
Qed.

(** On a request whose witnesses can be indexed the handler runs to its end. *)
Lemma create_will_completes d t s :
  Py.dict_get "public_key" d = Some (JStr t) ->
  witnesses_ready s d ->
  exists s1,
    CreateWill (JObj d) s =
      (<[WILL_PREFIX +:+ t := stored_will d]> s1,
       Ok (wrap_response processing 200)).
Proof.
  intros Hpk Hw. unfold CreateWill, create_will, stored_will, bind, lift, ret.
  simpl. rewrite (dict_has_get _ _ _ Hpk). simpl. rewrite Hpk.
  unfold Py.dict_has.
  destruct Hw as [Hw | (ws & Hw & Hall)]; rewrite Hw; simpl.
  - now exists s.
  - destruct ws as [|wn ws]; simpl.
    + now exists s.
    + destruct (index_loop_completes (JStr t) (wn :: ws) s Hall) as (s1 & E).
      simpl in E. rewrite E. simpl. now exists s1.
Qed.

(** C7: a will created with an absent or empty witness list is persisted
    with status ['valid'], and [Show] then returns it with that status. *)
Theorem create_will_without_witnesses_is_valid
    (s : gmap string json) (t : string) (d : list (string * json)) :
  Py.dict_get "public_key" d = Some (JStr t) ->
  Py.dict_get "witnesses" d = None \/
  Py.dict_get "witnesses" d = Some (JArr []) ->
  CreateWill (JObj d) s =
    (<[WILL_PREFIX +:+ t := JObj (Py.dict_set "status" (JStr "valid") d)]> s,
     Ok (wrap_response processing 200)) /\
  ShowWill t
    (<[WILL_PREFIX +:+ t := JObj (Py.dict_set "status" (JStr "valid") d)]> s) =
    (<[WILL_PREFIX +:+ t := JObj (Py.dict_set "status" (JStr "valid") d)]> s,
     Ok (wrap_response (JObj (Py.dict_set "status" (JStr "valid") d)) 200)) /\
  Py.getitem (JObj (Py.dict_set "status" (JStr "valid") d)) "status" =
    Ok (JStr "valid").
Proof.
  intros Hpk Hw. split; [|split].
  - unfold CreateWill, create_will, bind, lift, ret. simpl.
    rewrite (dict_has_get _ _ _ Hpk). simpl. rewrite Hpk.
    unfold Py.dict_has. destruct Hw as [Hw | Hw]; rewrite Hw; reflexivity.
  - apply show_will_inserted.
  - simpl. now rewrite dict_get_set_eq.
Qed.

Lemma create_will_without_witnesses_is_valid_witness :
  CreateWill (will_request "alice" []) ∅ =
    (<["WILL_alice" :=
         JObj [("public_key", JStr "alice"); ("witnesses", JArr []);
               ("status", JStr "valid")]]> ∅,
     Ok (wrap_response processing 200)).
Proof.
  exact (proj1 (create_will_without_witnesses_is_valid
                  ∅ "alice"
                  [("public_key", JStr "alice"); ("witnesses", JArr [])]
                  eq_refl (or_intror eq_refl))).
Defined.

(** C3, as stated, fails: after [CreateWill("alice", [{"public_key":"bob"}])]
    the will that [Show("alice")] returns has no [status] field at all. *)
Lemma create_will_status_pending_counterexample :
  exists s',
    CreateWill (will_request "alice" [witness_entry "bob"]) ∅ =
      (s', Ok (wrap_response processing 200)) /\
    ShowWill "alice" s' =
      (s', Ok (wrap_response (will_request "alice" [witness_entry "bob"]) 200)) /\
    Py.getitem (will_request "alice" [witness_entry "bob"]) "status" <>
      Ok (JStr "pending").
Proof.
  exists (<["WILL_alice" := will_request "alice" [witness_entry "bob"]]>
            (<["WILL_LIST_bob" := JArr [JStr "alice"]]> ∅)).
  split; [vm_compute; reflexivity|].
  split; [vm_compute; reflexivity|].
  vm_compute. discriminate.
Qed.

(** C3, amended: a [CreateWill] call with a non-empty witness list that
    runs to its end persists the request body as it came, without adding or
    changing a [status] field of the will or of a witness entry; [Show]
    returns that body, so a request that carries no [status] yields a will
    without one. *)
Theorem create_will_with_witnesses_stores_request
    (s s' : gmap string json) (t : string) (d : list (string * json))
    (wn : json) (ws : list json) (r : response) :
  Py.dict_get "public_key" d = Some (JStr t) ->
  Py.dict_get "witnesses" d = Some (JArr (wn :: ws)) ->
  CreateWill (JObj d) s = (s', Ok r) ->
  s' !! (WILL_PREFIX +:+ t) = Some (JObj d) /\
  ShowWill t s' = (s', Ok (wrap_response (JObj d) 200)) /\
  (Py.dict_get "status" d = None ->
   Py.getitem (JObj d) "status" = Raise KeyError).
Proof.
  intros Hpk Hw Hrun.
  destruct (create_will_written d t s s' r Hpk Hrun) as (_ & s1 & ->).
  assert (Hst : stored_will d = JObj d).
  { unfold stored_will. rewrite Hw. reflexivity. }
  rewrite Hst. split; [apply lookup_insert_eq|].
  split; [apply show_will_inserted|].
  intros Hnone. simpl. now rewrite Hnone.
Qed.

Lemma create_will_with_witnesses_stores_request_witness :
  (<["WILL_alice" := will_request "alice" [witness_entry "bob"]]>
     (<["WILL_LIST_bob" := JArr [JStr "alice"]]> ∅) : gmap string json)
    !! "WILL_alice" =
  Some (will_request "alice" [witness_entry "bob"]).
Proof.
  refine (proj1 (create_will_with_witnesses_stores_request
                   ∅ _ "alice"
                   [("public_key", JStr "alice");
                    ("witnesses", JArr [witness_entry "bob"])]
                   (witness_entry "bob") [] (wrap_response processing 200)
                   eq_refl eq_refl _)).
  vm_compute. reflexivity.
Defined.

(** What a raising [create_will] leaves behind: its loop only ever writes
    a list over nothing or over a list. *)
Lemma lists_grown_refl s : lists_grown s s.
Proof. intros key. now left. Qed.

Lemma lists_grown_trans s s1 s2 :
  lists_grown s s1 -> lists_grown s1 s2 -> lists_grown s s2.
Proof.
  intros H1 H2 key. destruct (H2 key) as [E | [Hl Hs1]].
  - rewrite E. apply H1.
  - right. split; [exact Hl|].
    destruct (H1 key) as [E | [_ Hs]]; [now rewrite <- E | exact Hs].
Qed.

Lemma index_witness_grows pubkey wn s :
  lists_grown s (fst (index_witness pubkey tt wn s)).
Proof.
  unfold index_witness.
  unfold bind at 1, lift.
  destruct (Py.getitem wn "public_key") as [pk|]; simpl;
    [|apply lists_grown_refl].
  unfold bind at 1, lift.
  destruct (Py.str_add WILL_LIST_PREFIX pk) as [name|]; simpl;
    [|apply lists_grown_refl].
  unfold bind at 1, try_client, get_value, client_show.
  assert (Htail : forall l,
             (s !! name = None \/ s !! name = Some (JArr l)) ->
             lists_grown s
               (fst ((let* listed := lift (Py.contains pubkey (JArr l)) in
                      if negb listed
                      then let* will_list := lift (Py.append (JArr l) pubkey) in
                           client_set (JStr name) will_list
                      else ret tt) s))).
  { intros l Hl. unfold bind, lift, ret, client_set. simpl.
    destruct (Py.list_contains pubkey l); simpl; [apply lists_grown_refl|].
    intros key. destruct (decide (name = key)) as [<- | Hne].
    - right. rewrite lookup_insert_eq. split; [eauto|].
      destruct Hl as [Hl | Hl]; [now left | right; eauto].
    - left. now apply lookup_insert_ne. }
  destruct (s !! name) as [v|] eqn:Hv.
  - destruct v as [| | | |l|d];
      try (unfold bind, lift; simpl; apply lists_grown_refl).
    + unfold bind at 1, lift.
      destruct (Py.contains pubkey (JStr s0)) as [[|]|]; simpl;
        apply lists_grown_refl.
    + apply Htail. now right.
    + unfold bind at 1, lift.
      destruct (Py.contains pubkey (JObj d)) as [[|]|]; simpl;
        apply lists_grown_refl.
  - simpl. apply (Htail []). now left.
Qed.

Lemma index_loop_grows pubkey ws : forall s,
  lists_grown s (fst (for_each (index_witness pubkey) ws tt s)).
Proof.
  induction ws as [|wn ws IH]; intros s; simpl; [apply lists_grown_refl|].
  unfold bind.
  pose proof (index_witness_grows pubkey wn s) as H1.
  destruct (index_witness pubkey tt wn s) as [s1 [[]|e]]; simpl in *; auto.
  eapply lists_grown_trans; [exact H1 | apply IH].
Qed.

Lemma create_will_raise_grows d t s s' e :
  Py.dict_get "public_key" d = Some (JStr t) ->
  CreateWill (JObj d) s = (s', Raise e) ->
  lists_grown s s'.
Proof.
  intros Hpk. unfold CreateWill, create_will, bind, lift, ret. simpl.
  rewrite (dict_has_get _ _ _ Hpk). simpl. rewrite Hpk.
  unfold Py.dict_has.
  destruct (Py.dict_get "witnesses" d) as [w|] eqn:Hw; simpl; [|discriminate].
  destruct (Py.len w) as [n|e0]; simpl.
  - destruct n as [|n]; simpl; [discriminate|].
    destruct (Py.iter w) as [entries|e1]; simpl.
    + pose proof (index_loop_grows (JStr t) entries s) as Hg.
      destruct (for_each (index_witness (JStr t)) entries tt s)
        as [s1 [[]|e2]]; simpl in *; [discriminate|].
      intros H. inversion H; subst. exact Hg.
    + intros H. inversion H; subst. apply lists_grown_refl.
  - intros H. inversion H; subst. apply lists_grown_refl.
Qed.

(** C10, as stated, fails for a testator key of the form ['LIST_' + w]: the
    will of ['LIST_bob'] is stored at ['WILL_LIST_bob'], which is also the
    key of bob's index.  A new [CreateWill] for ['LIST_bob'] that names bob
    as witness reads the stored will as bob's index, [will_list.append]
    raises [AttributeError] on the dict, and the old will stays. *)
Lemma create_will_on_index_key_counterexample :
  CreateWill (JObj [("public_key", JStr "LIST_bob")]) ∅ =
    (<["WILL_LIST_bob" :=
         JObj [("public_key", JStr "LIST_bob"); ("status", JStr "valid")]]> ∅,
     Ok (wrap_response processing 200)) /\
  CreateWill (will_request "LIST_bob" [witness_entry "bob"])
    (<["WILL_LIST_bob" :=
         JObj [("public_key", JStr "LIST_bob"); ("status", JStr "valid")]]> ∅) =
    (<["WILL_LIST_bob" :=
         JObj [("public_key", JStr "LIST_bob"); ("status", JStr "valid")]]> ∅,
     Raise AttributeError) /\
  ShowWill "LIST_bob"
    (<["WILL_LIST_bob" :=
         JObj [("public_key", JStr "LIST_bob"); ("status", JStr "valid")]]> ∅) =
    (<["WILL_LIST_bob" :=
         JObj [("public_key", JStr "LIST_bob"); ("status", JStr "valid")]]> ∅,
     Ok (wrap_response
           (JObj [("public_key", JStr "LIST_bob"); ("status", JStr "valid")])
           200)).
Proof.
  split; [|split]; vm_compute; reflexivity.
Qed.

(** C10, amended: [create_will] never reads the will already stored for
    the testator.  When the witness entries can be indexed (each a dict
    with a string [public_key] whose index is absent or a list) the call
    runs to its end and the record at [WILL_ + t] is the one built from the
    new request body alone, whatever was there; every call that returns has
    written that record; a call that raises has left a stored will (any
    value but a list) in place. *)
Theorem create_will_overwrites_existing
    (s : gmap string json) (t : string) (d : list (string * json))
    (old : json) :
  s !! (WILL_PREFIX +:+ t) = Some old ->
  Py.dict_get "public_key" d = Some (JStr t) ->
  (witnesses_ready s d ->
   exists s',
     CreateWill (JObj d) s = (s', Ok (wrap_response processing 200)) /\
     s' !! (WILL_PREFIX +:+ t) = Some (stored_will d) /\
     ShowWill t s' = (s', Ok (wrap_response (stored_will d) 200))) /\
  (forall s' r,
      CreateWill (JObj d) s = (s', Ok r) ->
      r = wrap_response processing 200 /\
      s' !! (WILL_PREFIX +:+ t) = Some (stored_will d) /\
      ShowWill t s' = (s', Ok (wrap_response (stored_will d) 200))) /\
  (forall s' e,
      CreateWill (JObj d) s = (s', Raise e) ->
      (forall l, old <> JArr l) ->
      s' !! (WILL_PREFIX +:+ t) = Some old).
Proof.
  intros Hold Hpk. split; [|split].
  - intros Hw. destruct (create_will_completes d t s Hpk Hw) as (s1 & E).
    eexists. split; [exact E|].
    split; [apply lookup_insert_eq | apply show_will_inserted].
  - intros s' r E.
    destruct (create_will_written d t s s' r Hpk E) as (-> & s1 & ->).
    split; [reflexivity|].
    split; [apply lookup_insert_eq | apply show_will_inserted].
  - intros s' e E Hnl.
    destruct (create_will_raise_grows d t s s' e Hpk E (WILL_PREFIX +:+ t))
      as [E' | [_ [Hn | (l0 & Hl0)]]].
    + now rewrite E'.
    + congruence.
    + rewrite Hold in Hl0. inversion Hl0; subst. now destruct (Hnl l0).
Qed.

Lemma create_will_overwrites_existing_witness :
  exists s',
    CreateWill (will_request "alice" [witness_entry "carol"])
      (<["WILL_alice" :=
           JObj [("public_key", JStr "alice");
                 ("witnesses",
                  JArr [JObj [("public_key", JStr "bob");
                              ("status", JStr "signed")]]);
                 ("status", JStr "valid")]]>
         (<["WILL_LIST_bob" := JArr [JStr "alice"]]> ∅)) =
      (s', Ok (wrap_response processing 200)) /\
    s' !! (WILL_PREFIX +:+ "alice") =
      Some (stored_will [("public_key", JStr "alice");
                         ("witnesses", JArr [witness_entry "carol"])]) /\
    ShowWill "alice" s' =
      (s', Ok (wrap_response
                 (stored_will [("public_key", JStr "alice");
                               ("witnesses", JArr [witness_entry "carol"])])
                 200)).
Proof.
  assert (Hold :
            (<["WILL_alice" :=
                 JObj [("public_key", JStr "alice");
                       ("witnesses",
                        JArr [JObj [("public_key", JStr "bob");
                                    ("status", JStr "signed")]]);
                       ("status", JStr "valid")]]>
               (<["WILL_LIST_bob" := JArr [JStr "alice"]]> ∅)
             : gmap string json) !! (WILL_PREFIX +:+ "alice") =
            Some (JObj [("public_key", JStr "alice");
                        ("witnesses",
                         JArr [JObj [("public_key", JStr "bob");
                                     ("status", JStr "signed")]]);
                        ("status", JStr "valid")])).
  { vm_compute. reflexivity. }
  apply (proj1 (create_will_overwrites_existing
                  _ "alice"
                  [("public_key", JStr "alice");
                   ("witnesses", JArr [witness_entry "carol"])]
                  _ Hold eq_refl)).
  right. eexists. split; [reflexivity|].
  constructor; [|constructor].
  exists [("public_key", JStr "carol")], "carol".
  split; [reflexivity|]. split; [reflexivity|].
  left. vm_compute. reflexivity.
Defined.

(** ** [witness_sign] *)

Lemma sign_entry_ok w st wn :
  entry_ok wn ->
  sign_entry w st wn =
    Ok {| found_witness := found_witness st || entry_names w wn;
          sign_count := sign_count st + count_signed [wn] + count_named w [wn];
          visited := visited st ++ [mark_signed w wn] |}.
Proof.
  intros (o & pk & -> & Hpk).
  unfold sign_entry, count_signed, count_named. simpl.
  unfold Py.dict_has. rewrite Hpk.
  destruct (Py.dict_get "status" o) as [v|]; simpl.
  - destruct (Py.eq v (JStr "signed")); destruct (Py.eq pk (JStr w)); simpl;
      rewrite ?orb_true_r, ?orb_false_r; do 2 f_equal; try lia.
  - destruct (Py.eq pk (JStr w)); simpl;
      rewrite ?orb_true_r, ?orb_false_r; do 2 f_equal; try lia.
Qed.

(** The loop of [witness_sign] on well-formed entries: every entry already
    signed counts once, and every entry naming [w] counts once more. *)
Lemma sign_loop_ok w ws : forall st,
  Forall entry_ok ws ->
  sign_loop w ws st =
    Ok {| found_witness := found_witness st || existsb (entry_names w) ws;
          sign_count := sign_count st + count_signed ws + count_named w ws;
          visited := visited st ++ map (mark_signed w) ws |}.
Proof.
  induction ws as [|wn ws IH]; intros st Hall; simpl.
  - destruct st; simpl. unfold count_signed, count_named; simpl.
    rewrite orb_false_r, app_nil_r. do 2 f_equal. lia.
  - inversion Hall as [|? ? Hwn Hws]; subst.
    rewrite (sign_entry_ok w st wn Hwn). rewrite (IH _ Hws). simpl.
    unfold count_signed, count_named. simpl.
    rewrite <- app_assoc. simpl.
    destruct (entry_signed wn); destruct (entry_names w wn); simpl;
      rewrite ?orb_true_r, ?orb_false_r, ?orb_true_l; do 2 f_equal; lia.
Qed.

Lemma sign_on_wellformed_will s t w d ws :
  s !! (WILL_PREFIX +:+ t) = Some (JObj d) ->
  Py.dict_get "witnesses" d = Some (JArr ws) ->
  Forall entry_ok ws ->
  Sign t w s =
    if existsb (entry_names w) ws
    then (<[WILL_PREFIX +:+ t := after_sign w d ws]> s,
          Ok (wrap_response (after_sign w d ws) 200))
    else (s, Ok (wrap_response witness_not_found 400)).
Proof.
  intros Hs Hw Hall.
  unfold Sign, witness_sign, bind, lift, ret, get_value, client_show, client_set.
  simpl. rewrite Hs. simpl. rewrite Hw. simpl.
  rewrite (sign_loop_ok w ws _ Hall). simpl.
  destruct (existsb (entry_names w) ws); simpl; [|reflexivity].
  rewrite dict_get_set_eq. simpl. rewrite length_map.
  unfold after_sign.
  destruct (Nat.eqb _ _); reflexivity.
Qed.

Lemma listed_names w ws : listed w ws <-> existsb (entry_names w) ws = true.
Proof.
  rewrite existsb_exists. split.
  - intros (o & Hin & Hpk). exists (JObj o). split; [exact Hin|].
    simpl. rewrite Hpk. apply py_eq_str_refl.
  - intros (wn & Hin & Hn). destruct wn; simpl in Hn; try discriminate.
    destruct (Py.dict_get "public_key" fields) as [pk|] eqn:Hpk;
      [|discriminate].
    apply py_eq_str_r in Hn. subst pk. now exists fields.
Qed.

(** Whatever the stored will looks like, the only write of [witness_sign]
    is the one that comes with its 200 answer: every other return and every
    exception leaves the ledger as it was. *)
Lemma sign_writes_only_on_success s t w s' r :
  Sign t w s = (s', r) ->
  s' = s \/
  exists body,
    s' = <[WILL_PREFIX +:+ t := body]> s /\ r = Ok (wrap_response body 200).
Proof.
  assert (Hleft : forall (x : result response),
             (s, x) = (s', r) ->
             s' = s \/
             exists body,
               s' = <[WILL_PREFIX +:+ t := body]> s /\
               r = Ok (wrap_response body 200)).
  { intros x H. inversion H. now left. }
  unfold Sign, witness_sign. simpl.
  unfold bind at 1, get_value, client_show.
  destruct (s !! (WILL_PREFIX +:+ t)) as [body|]; [|apply Hleft].
  unfold bind at 1, lift.
  destruct (Py.getitem body "witnesses") as [ws|?]; [|apply Hleft].
  unfold bind at 1.
  destruct (Py.iter ws) as [entries|?]; [|apply Hleft].
  unfold bind at 1.
  destruct (sign_loop w entries _) as [st|?]; [|apply Hleft].
  unfold bind at 1.
  set (m := match ws with JArr _ => _ | _ => _ end).
  assert (Hm : exists x, m s = (s, x)).
  { subst m. destruct ws; unfold lift, ret; eauto. }
  destruct Hm as (x & ->). destruct x as [body1|?]; [|apply Hleft].
  destruct (negb (found_witness st)); [apply Hleft|].
  unfold bind at 1, lift.
  destruct (Py.getitem body1 "witnesses") as [ws1|?]; [|apply Hleft].
  unfold bind at 1.
  destruct (Py.len ws1) as [n|?]; [|apply Hleft].
  unfold bind at 1.
  set (m2 := if Nat.eqb _ _ then _ else _).
  assert (Hm2 : exists x, m2 s = (s, x)).
  { subst m2. destruct (Nat.eqb _ _); unfold lift, ret; eauto. }
  destruct Hm2 as (x & ->). destruct x as [body2|?]; [|apply Hleft].
  unfold bind, client_set, ret. simpl.
  intros H. inversion H; subst. right. now exists body2.
Qed.




(** C9: once the persisted status is ['valid'], a further [Sign] by a
    listed witness returns normally and the will it writes back still has
    status ['valid']. *)
Theorem valid_is_terminal_under_sign
    (s : gmap string json) (t w : string) (d : list (string * json))
    (ws : list json) :
  s !! (WILL_PREFIX +:+ t) = Some (JObj d) ->
  Py.dict_get "status" d = Some (JStr "valid") ->
  Py.dict_get "witnesses" d = Some (JArr ws) ->
  Forall entry_ok ws ->
  listed w ws ->
  exists d',
    Sign t w s =
      (<[WILL_PREFIX +:+ t := JObj d']> s, Ok (wrap_response (JObj d') 200)) /\
    (<[WILL_PREFIX +:+ t := JObj d']> s) !! (WILL_PREFIX +:+ t) = Some (JObj d') /\
    Py.dict_get "status" d' = Some (JStr "valid").
Proof.
  intros Hs Hst Hw Hall Hin.
  rewrite (sign_on_wellformed_will s t w d ws Hs Hw Hall).
  apply listed_names in Hin. rewrite Hin. unfold after_sign.
  destruct (Nat.eqb _ _); eexists; (split; [reflexivity|]);
    (split; [apply lookup_insert_eq|]).
  - apply dict_get_set_eq.
  - rewrite dict_get_set_ne by discriminate. exact Hst.
Qed.

(** ** The registry: [register_pubkey] and [approve_public_key] *)

Lemma distinct_app_new x l :
  distinct l = true -> Py.list_contains x l = false -> distinct (l ++ [x]) = true.
Proof.
  unfold Py.list_contains. induction l as [|e l IH]; simpl; intros Hd Hc.
  - reflexivity.
  - apply andb_true_iff in Hd as [Hd1 Hd2].
    apply orb_false_iff in Hc as [Hc1 Hc2].
    rewrite existsb_app. simpl. rewrite Hc1, orb_false_r.
    rewrite Hd1. simpl. now apply IH.
Qed.

Lemma remove_first_incl x l : forall r,
  Py.remove_first x l = Some r -> forall y, In y r -> In y l.
Proof.
  induction l as [|e l IH]; simpl; intros r Hr y Hy; [discriminate|].
  destruct (Py.eq e x).
  - inversion Hr; subst. now right.
  - destruct (Py.remove_first x l) as [r'|]; [|discriminate].
    inversion Hr; subst. destruct Hy as [-> | Hy]; [now left|].
    right. now apply (IH r').
Qed.

Lemma existsb_false_incl {A} (f : A -> bool) (l r : list A) :
  (forall y, In y r -> In y l) -> existsb f l = false -> existsb f r = false.
Proof.
  intros Hincl Hl. destruct (existsb f r) eqn:E; [|reflexivity].
  apply existsb_exists in E as (y & Hy & Hf).
  assert (existsb f l = true) by (apply existsb_exists; eauto). congruence.
Qed.

Lemma distinct_remove x l : forall r,
  distinct l = true -> Py.remove_first x l = Some r -> distinct r = true.
Proof.
  induction l as [|e l IH]; simpl; intros r Hd Hr; [discriminate|].
  apply andb_true_iff in Hd as [Hd1 Hd2].
  destruct (Py.eq e x).
  - now inversion Hr; subst.
  - destruct (Py.remove_first x l) as [r'|] eqn:E; [|discriminate].
    inversion Hr; subst. simpl. rewrite (IH r' Hd2 eq_refl), andb_true_r.
    apply negb_true_iff. apply negb_true_iff in Hd1.
    eapply existsb_false_incl; [|exact Hd1].
    now apply (remove_first_incl x l r').
Qed.

Lemma distinct_occurrences k l : distinct l = true -> occurrences k l <= 1.
Proof.
  unfold occurrences. induction l as [|e l IH]; simpl; intros Hd; [lia|].
  apply andb_true_iff in Hd as [Hd1 Hd2]. specialize (IH Hd2).
  destruct (Py.eq e (JStr k)) eqn:E; simpl; [|lia].
  apply py_eq_str_r in E. subst e.
  assert (List.filter (fun e => Py.eq e (JStr k)) l = []) as ->; [|simpl; lia].
  apply negb_true_iff in Hd1.
  induction l as [|e l IHl]; simpl in *; [reflexivity|].
  apply orb_false_iff in Hd1 as [H1 H2]. rewrite H1.
  apply andb_true_iff in Hd2 as [_ Hd2]. apply IHl; auto.
  destruct (Py.eq e (JStr k)); simpl in IH; lia.
Qed.

Lemma distinct_removed_absent k l : forall r,
  distinct l = true -> Py.remove_first (JStr k) l = Some r -> ~ In (JStr k) r.
Proof.
  induction l as [|e l IH]; simpl; intros r Hd Hr; [discriminate|].
  apply andb_true_iff in Hd as [Hd1 Hd2].
  destruct (Py.eq e (JStr k)) eqn:E.
  - inversion Hr; subst. apply py_eq_str_r in E. subst e.
    intros Hin. apply negb_true_iff in Hd1.
    assert (existsb (fun y => Py.eq y (JStr k)) r = true); [|congruence].
    apply existsb_exists. exists (JStr k). split; [exact Hin|apply py_eq_str_refl].
  - destruct (Py.remove_first (JStr k) l) as [r'|] eqn:E'; [|discriminate].
    inversion Hr; subst. intros [He | Hin].
    + subst e. rewrite py_eq_str_refl in E. discriminate.
    + now apply (IH r' Hd2 eq_refl).
Qed.

Lemma pending_ok_insert k v s :
  pending_ok s ->
  (k = KEY_NEED_REVIEW -> forall l, v = JArr l -> distinct l = true) ->
  pending_ok (<[k := v]> s).
Proof.
  intros Hs Hv l. destruct (decide (k = KEY_NEED_REVIEW)) as [-> | Hne].
  - rewrite lookup_insert_eq. intros H; inversion H; subst. now apply Hv.
  - rewrite lookup_insert_ne by exact Hne. apply Hs.
Qed.

Lemma register_writes_keep s0 lp pubkey body :
  pending_ok s0 ->
  (forall l, lp = JArr l -> distinct l = true) ->
  (forall l, body <> JArr l) ->
  pending_ok
    (fst ((client_set (JStr KEY_NEED_REVIEW) lp ;;
           client_set pubkey body ;;
           ret (wrap_response processing 200)) s0)).
Proof.
  intros Hs Hlp Hbody. unfold bind, client_set, ret. simpl.
  assert (H1 : pending_ok (<[KEY_NEED_REVIEW := lp]> s0)).
  { apply pending_ok_insert; auto. }
  destruct pubkey; simpl; try exact H1.
  apply pending_ok_insert; [exact H1|].
  intros _ l ->. now destruct (Hbody l).
Qed.

Lemma register_keeps req s :
  pending_ok s -> pending_ok (fst (register_pubkey req s)).
Proof.
  intros Hs. unfold register_pubkey.
  destruct (negb (method req =? "POST")); [exact Hs|].
  unfold bind at 1 2 3 4, lift, ret.
  destruct (Py.contains (JStr "public_key") (json_body req)) as [[|]|?];
    simpl; try exact Hs.
  destruct (Py.contains (JStr "status") (json_body req)) as [has|?];
    simpl; try exact Hs.
  set (m := if negb has then _ else _).
  assert (Hm : exists r, m s = (s, r)).
  { subst m. destruct has; simpl; eauto. }
  destruct Hm as (r & ->). destruct r as [body|?]; simpl; try exact Hs.
  destruct (Py.getitem body "public_key") as [pubkey|?] eqn:Hpk;
    simpl; try exact Hs.
  assert (Hbody : forall l, body <> JArr l).
  { intros l ->. discriminate. }
  assert (Htail : forall s0 lp,
             pending_ok s0 -> (forall l, lp = JArr l -> distinct l = true) ->
             pending_ok
               (fst ((let* listed := lift (Py.contains pubkey lp) in
                      let* list_pending :=
                        (if negb listed then lift (Py.append lp pubkey)
                         else ret lp) in
                      client_set (JStr KEY_NEED_REVIEW) list_pending ;;
                      client_set pubkey body ;;
                      ret (wrap_response processing 200)) s0))).
  { intros s0 lp Hs0 Hlp. unfold bind at 1 2, lift.
    destruct (Py.contains pubkey lp) as [[|]|?] eqn:Hc; simpl; try exact Hs0.
    - now apply register_writes_keep.
    - destruct lp; simpl; try exact Hs0.
      apply register_writes_keep; auto.
      intros l E. inversion E; subst. simpl in Hc. inversion Hc.
      apply distinct_app_new; auto. }
  unfold bind at 1. unfold try_client, get_value, client_show.
  destruct (s !! KEY_NEED_REVIEW) as [v|] eqn:Hv.
  - apply (Htail s (match v with JNull => JArr [] | _ => v end) Hs).
    destruct v; intros l E; try discriminate; inversion E; subst; auto.
  - apply (Htail (<[KEY_NEED_REVIEW := JArr []]> s) (JArr [])).
    + apply pending_ok_insert; auto. intros _ l E. now inversion E.
    + intros l E. now inversion E.
Qed.

Lemma approve_keeps req s :
  pending_ok s -> pending_ok (fst (approve_public_key req s)).
Proof.
  intros Hs. unfold approve_public_key.
  destruct (negb (method req =? "GET")); [exact Hs|].
  destruct (query_get req "public_key") as [pubkey|]; [|exact Hs].
  unfold bind at 1, get_value, client_show.
  destruct (s !! pubkey) as [body|] eqn:Hb; [|exact Hs].
  unfold bind at 1, lift.
  destruct (Py.setitem body "status" (JStr "approved")) as [body'|?] eqn:Hset;
    [|exact Hs].
  assert (Hbody : forall l, body' <> JArr l).
  { intros l ->. destruct body; discriminate. }
  unfold bind at 1, client_set.
  assert (H1 : pending_ok (<[pubkey := body']> s)).
  { apply pending_ok_insert; auto. intros _ l E. now destruct (Hbody l). }
  set (s1 := <[pubkey := body']> s) in *. clearbody s1.
  unfold bind at 1.
  destruct (s1 !! KEY_NEED_REVIEW) as [lp|] eqn:Hlp; [|exact H1].
  unfold bind at 1, lift.
  destruct (Py.contains (JStr pubkey) lp) as [[|]|?] eqn:Hc; try exact H1.
  - unfold bind at 1, lift. destruct lp; simpl; try exact H1.
    destruct (Py.remove_first (JStr pubkey) items) as [r|] eqn:Hr;
      simpl; [|exact H1].
    apply pending_ok_insert; [exact H1|]. intros _ l E. inversion E; subst.
    eapply distinct_remove; [|exact Hr]. now apply H1.
  - unfold bind, ret. simpl.
    apply pending_ok_insert; [exact H1|]. intros _ l ->. now apply H1.
Qed.

Lemma run_keeps cs : forall s, pending_ok s -> pending_ok (run cs s).
Proof.
  induction cs as [|c cs IH]; intros s Hs; simpl; [exact Hs|].
  apply IH. destruct c; simpl; [now apply register_keeps | now apply approve_keeps].
Qed.

Lemma run_app cs1 cs2 s : run (cs1 ++ cs2) s = run cs2 (run cs1 s).
Proof. revert s. induction cs1 as [|c cs1 IH]; intros s; simpl; auto. Qed.

Lemma distinct_strings_NoDup l :
  distinct l = true -> (forall e, In e l -> exists k, e = JStr k) -> NoDup l.
Proof.
  induction l as [|x l IH]; simpl; intros Hd Hstr; [constructor|].
  apply andb_true_iff in Hd as [Hd1 Hd2]. constructor.
  - rewrite list_elem_of_In. intros Hin. destruct (Hstr x) as [k ->]; [now left|].
    apply negb_true_iff in Hd1.
    assert (existsb (fun y => Py.eq y (JStr k)) l = true); [|congruence].
    apply existsb_exists. exists (JStr k). split; [exact Hin | apply py_eq_str_refl].
  - apply IH; auto.
Qed.

Lemma fresh_registry_ok s : fresh_registry s -> pending_ok s.
Proof.
  intros [H | H] l E; rewrite H in E; [discriminate|]. now inversion E.
Qed.

(** C5: starting from an absent or empty pending list, after any sequence
    of register and approve requests the list stored at [KEY_NEED_REVIEW]
    has no duplicates: no entry equals an earlier one, no key occurs twice,
    and a list of string keys is duplicate free. *)
Theorem pending_list_never_has_duplicates
    (cs : list registry_call) (s0 : gmap string json) (l : list json) :
  fresh_registry s0 ->
  run cs s0 !! KEY_NEED_REVIEW = Some (JArr l) ->
  distinct l = true /\
  (forall k, occurrences k l <= 1) /\
  ((forall e, In e l -> exists k, e = JStr k) -> NoDup l).
Proof.
  intros H0 Hl.
  assert (Hd : distinct l = true).
  { apply (run_keeps cs s0 (fresh_registry_ok s0 H0) l Hl). }
  split; [exact Hd|]. split.
  - intros k. now apply distinct_occurrences.
  - now apply distinct_strings_NoDup.
Qed.

Lemma show_user_lookup k v s :
  s !! k = Some v -> ShowUser k s = (s, Ok (wrap_response v 200)).
Proof.
  intros H. unfold ShowUser, show_user, bind, ret, get_value, client_show.
  simpl. now rewrite H.
Qed.

Lemma list_contains_str_false k l :
  Py.list_contains (JStr k) l = false -> ~ In (JStr k) l.
Proof.
  unfold Py.list_contains. intros H Hin.
  assert (existsb (fun e => Py.eq (JStr k) e) l = true); [|congruence].
  apply existsb_exists. exists (JStr k). split; [exact Hin | apply py_eq_str_refl].
Qed.

Lemma approve_result s k s' r :
  pending_ok s ->
  Approve k s = (s', Ok r) ->
  (exists d,
      s' !! k = Some (JObj d) /\
      Py.dict_get "status" d = Some (JStr "approved") /\
      r = wrap_response (JObj d) 200) /\
  ~ in_pending k s'.
Proof.
  intros Hs. unfold Approve, approve_public_key. simpl.
  unfold bind at 1, get_value, client_show.
  destruct (s !! k) as [body|] eqn:Hb; [|discriminate].
  unfold bind at 1, lift.
  destruct body as [| | | | |d0]; simpl; try discriminate.
  set (body' := JObj (Py.dict_set "status" (JStr "approved") d0)).
  unfold bind at 1, client_set.
  assert (H1 : pending_ok (<[k := body']> s)).
  { apply pending_ok_insert; auto. intros _ l E. discriminate. }
  assert (Hk : (<[k := body']> s) !! k = Some body') by apply lookup_insert_eq.
  set (s1 := <[k := body']> s) in *. clearbody s1.
  unfold bind at 1.
  destruct (s1 !! KEY_NEED_REVIEW) as [lp|] eqn:Hlp; [|discriminate].
  unfold bind at 1, lift.
  destruct (Py.contains (JStr k) lp) as [[|]|?] eqn:Hc; try discriminate.
  - unfold bind at 1, lift. destruct lp; simpl; try discriminate.
    destruct (Py.remove_first (JStr k) items) as [r0|] eqn:Hr;
      simpl; [|discriminate].
    unfold bind, ret. simpl. intros H; inversion H; subst; clear H.
    assert (Hne : KEY_NEED_REVIEW <> k).
    { intros <-. rewrite Hlp in Hk. discriminate. }
    split.
    + exists (Py.dict_set "status" (JStr "approved") d0).
      rewrite lookup_insert_ne by exact Hne.
      repeat split; auto. apply dict_get_set_eq.
    + intros (l & Hl & Hin). rewrite lookup_insert_eq in Hl.
      inversion Hl; subst.
      eapply distinct_removed_absent; [|exact Hr|exact Hin]. now apply H1.
  - unfold bind, ret. simpl. intros H; inversion H; subst; clear H.
    rewrite (insert_id s1 KEY_NEED_REVIEW lp Hlp).
    split.
    + exists (Py.dict_set "status" (JStr "approved") d0).
      repeat split; auto. apply dict_get_set_eq.
    + intros (l & Hl & Hin). rewrite Hlp in Hl. inversion Hl; subst.
      simpl in Hc. inversion Hc as [Hc'].
      now apply (list_contains_str_false k l).
Qed.

Lemma pending_list_never_has_duplicates_witness :
  distinct [JStr "alice"] = true /\
  (forall k, occurrences k [JStr "alice"] <= 1) /\
  ((forall e, In e [JStr "alice"] -> exists k, e = JStr k) ->
   NoDup [JStr "alice"]).
Proof.
  apply (pending_list_never_has_duplicates
           [CallRegister (POST (JObj [("public_key", JStr "alice")]));
            CallRegister (POST (JObj [("public_key", JStr "alice")]))]
           ∅).
  - left. vm_compute. reflexivity.
  - vm_compute. reflexivity.
Defined.

Lemma valid_is_terminal_under_sign_witness :
  exists d',
    Sign "alice" "bob"
      (<["WILL_alice" :=
           JObj [("public_key", JStr "alice");
                 ("witnesses",
                  JArr [JObj [("public_key", JStr "bob");
                              ("status", JStr "signed")]]);
                 ("status", JStr "valid")]]> ∅) =
      (<[WILL_PREFIX +:+ "alice" := JObj d']>
         (<["WILL_alice" :=
              JObj [("public_key", JStr "alice");
                    ("witnesses",
                     JArr [JObj [("public_key", JStr "bob");
                                 ("status", JStr "signed")]]);
                    ("status", JStr "valid")]]> ∅),
       Ok (wrap_response (JObj d') 200)) /\
    (<[WILL_PREFIX +:+ "alice" := JObj d']>
       (<["WILL_alice" :=
            JObj [("public_key", JStr "alice");
                  ("witnesses",
                   JArr [JObj [("public_key", JStr "bob");
                               ("status", JStr "signed")]]);
                  ("status", JStr "valid")]]> ∅) : gmap string json)
      !! (WILL_PREFIX +:+ "alice") = Some (JObj d') /\
    Py.dict_get "status" d' = Some (JStr "valid").
Proof.
  eapply valid_is_terminal_under_sign.
  - vm_compute. reflexivity.
  - reflexivity.
  - reflexivity.
  - constructor; [|constructor]. eexists _, _. split; reflexivity.
  - eexists. split; [left; reflexivity | reflexivity].
Defined.

(** ** The signature count on a repeated [Sign] *)

(** C1: the code departs from the claim.  On a will with the two witnesses
    bob and carol, two [Sign] calls by bob alone leave the persisted status
    ['valid'] although carol has not signed. *)
Theorem two_signs_by_one_witness_validate_the_will :
  exists s1 s2 s3 r1 r2 r3,
    CreateWill (will_request "alice" [witness_entry "bob"; witness_entry "carol"])
               ∅ = (s1, Ok r1) /\
    Sign "alice" "bob" s1 = (s2, Ok r2) /\
    Sign "alice" "bob" s2 = (s3, Ok r3) /\
    s2 !! "WILL_alice" =
      Some (JObj [("public_key", JStr "alice");
                  ("witnesses",
                   JArr [JObj [("public_key", JStr "bob");
                               ("status", JStr "signed")];
                         JObj [("public_key", JStr "carol")]])]) /\
    s3 !! "WILL_alice" =
      Some (JObj [("public_key", JStr "alice");
                  ("witnesses",
                   JArr [JObj [("public_key", JStr "bob");
                               ("status", JStr "signed")];
                         JObj [("public_key", JStr "carol")]]);
                  ("status", JStr "valid")]).
Proof.
  do 6 eexists.
  split; [vm_compute; reflexivity|].
  split; [vm_compute; reflexivity|].
  split; [vm_compute; reflexivity|].
  split; vm_compute; reflexivity.
Qed.

(** C2: the code departs from the claim.  When bob has already signed, the
    loop of [witness_sign] run for bob again adds 2 to [sign_count] for
    bob's single entry, and with carol unsigned the count reaches the
    length of the list, so the will is written back as ['valid']. *)
Theorem resign_counts_the_witness_twice :
  sign_loop "bob"
    [JObj [("public_key", JStr "bob"); ("status", JStr "signed")];
     JObj [("public_key", JStr "carol")]]
    {| found_witness := false; sign_count := 0; visited := [] |} =
  Ok {| found_witness := true;
        sign_count := 2;
        visited := [JObj [("public_key", JStr "bob"); ("status", JStr "signed")];
                    JObj [("public_key", JStr "carol")]] |} /\
  snd (Sign "alice" "bob"
         (<["WILL_alice" :=
              JObj [("public_key", JStr "alice");
                    ("witnesses",
                     JArr [JObj [("public_key", JStr "bob");
                                 ("status", JStr "signed")];
                           JObj [("public_key", JStr "carol")]])]]> ∅)) =
  Ok (wrap_response
        (JObj [("public_key", JStr "alice");
               ("witnesses",
                JArr [JObj [("public_key", JStr "bob");
                            ("status", JStr "signed")];
                      JObj [("public_key", JStr "carol")]]);
               ("status", JStr "valid")])
        200).
Proof. split; vm_compute; reflexivity. Qed.

(** ** Listings and dangling entries *)

(** C8: the code departs from the claim.  With a pending list that names a
    key without a record before a key with one, [list_need_approve] raises
    the client's not-found exception instead of returning the record it
    could resolve. *)
Theorem list_pending_aborts_on_dangling_entry :
  ListPending
    (<["KEY_NEED_REVIEW" := JArr [JStr "ghost"; JStr "bob"]]>
       (<["bob" := JObj [("public_key", JStr "bob");
                         ("status", JStr "need_review")]]> ∅)) =
  (<["KEY_NEED_REVIEW" := JArr [JStr "ghost"; JStr "bob"]]>
     (<["bob" := JObj [("public_key", JStr "bob");
                       ("status", JStr "need_review")]]> ∅),
   Raise IntkeyClientException).
Proof. vm_compute. reflexivity. Qed.

(** The sibling listing [show_will_list] does skip an entry it cannot
    resolve. *)
Lemma will_list_skips_dangling_entry :
  snd (ListForWitness "bob"
         (<["WILL_LIST_bob" := JArr [JStr "ghost"; JStr "alice"]]>
            (<["WILL_alice" := will_request "alice" [witness_entry "bob"]]>
               (<["alice" := JObj [("public_key", JStr "alice")]]> ∅)))) =
  Ok (wrap_response
        (JArr [JObj [("public_key", JStr "alice");
                     ("witnesses", JArr [witness_entry "bob"]);
                     ("testator", JObj [("public_key", JStr "alice")])]])
        200).
Proof. vm_compute. reflexivity. Qed.

(** ** Guards of the handlers *)

Lemma for_each_reads {A B : Type} (f : B -> A -> M B) (l : list A) :
  (forall acc x s, fst (f acc x s) = s) ->
  forall acc s, fst (for_each f l acc s) = s.
Proof.
  intros Hf. induction l as [|x l IH]; intros acc s; simpl; [reflexivity|].
  unfold bind. specialize (Hf acc x s).
  destruct (f acc x s) as [s1 [acc'|e]]; simpl in *; subst; auto.
Qed.

(** X1: a request with another method than the one a handler serves (POST for
    [register_pubkey] and [create_will], GET for the six others) is answered
    200 with an empty envelope, and the ledger is not touched. *)
Theorem other_method_gets_empty_answer (req : request) (s : gmap string json) :
  (method req <> "POST" ->
   register_pubkey req s = (s, Ok (wrap_response JNull 200)) /\
   create_will req s = (s, Ok (wrap_response JNull 200))) /\
  (method req <> "GET" ->
   show_user req s = (s, Ok (wrap_response JNull 200)) /\
   list_need_approve req s = (s, Ok (wrap_response JNull 200)) /\
   approve_public_key req s = (s, Ok (wrap_response JNull 200)) /\
   show_will req s = (s, Ok (wrap_response JNull 200)) /\
   show_will_list req s = (s, Ok (wrap_response JNull 200)) /\
   witness_sign req s = (s, Ok (wrap_response JNull 200))) /\
  envelope (wrap_response JNull 200) = JObj [].
Proof.
  split; [|split; [|reflexivity]]; intros Hm; apply String.eqb_neq in Hm;
    unfold register_pubkey, create_will, show_user, list_need_approve,
      approve_public_key, show_will, show_will_list, witness_sign;
    rewrite Hm; simpl; repeat split.
Qed.

Lemma other_method_gets_empty_answer_witness :
  register_pubkey (GET [("public_key", "alice")]) ∅ =
    (∅, Ok (wrap_response JNull 200)) /\
  witness_sign (POST (JObj [("public_key", JStr "alice")])) ∅ =
    (∅, Ok (wrap_response JNull 200)).
Proof.
  split.
  - apply (other_method_gets_empty_answer (GET [("public_key", "alice")]) ∅).
    discriminate.
  - apply (other_method_gets_empty_answer
             (POST (JObj [("public_key", JStr "alice")])) ∅).
    discriminate.
Defined.

Ltac run_reads :=
  intros;
  unfold try_any, try_client, bind, lift, ret, get_value, client_show in *;
  repeat case_match; simplify_eq; simpl; try reflexivity.

(** X2: the four reading handlers ([show_user], [list_need_approve],
    [show_will], [show_will_list]) never change the ledger, whatever the
    request and whether they return or raise. *)
Theorem listing_and_show_never_write (req : request) (s : gmap string json) :
  fst (show_user req s) = s /\
  fst (list_need_approve req s) = s /\
  fst (show_will req s) = s /\
  fst (show_will_list req s) = s.
Proof.
  repeat split.
  - unfold show_user. run_reads.
  - unfold list_need_approve. destruct (negb _); [reflexivity|].
    unfold bind at 1. destruct (get_value _ s) as [s1 [v|e]] eqn:E1;
      assert (s1 = s) as -> by (revert E1; run_reads); [|reflexivity].
    unfold bind at 1, lift. destruct (Py.iter v) as [entries|]; [|reflexivity].
    unfold bind at 1.
    match goal with
    | |- context [for_each ?f entries [] s] =>
        pose proof (for_each_reads f entries) as Hloop
    end.
    match type of Hloop with
    | ?P -> _ => assert (Hp : P) by run_reads
    end.
    specialize (Hloop Hp [] s).
    destruct (for_each _ entries [] s) as [s2 [users|e]]; simpl in *; auto.
  - unfold show_will. run_reads.
  - unfold show_will_list. destruct (negb _); [reflexivity|].
    destruct (query_get req "public_key") as [w|]; [|reflexivity].
    unfold bind at 1.
    destruct (try_client _ _ s) as [s1 [v|e]] eqn:E1;
      assert (s1 = s) as -> by (revert E1; run_reads); [|reflexivity].
    unfold bind at 1, lift. destruct (Py.iter v) as [entries|]; [|reflexivity].
    unfold bind at 1.
    match goal with
    | |- context [for_each ?f entries [] s] =>
        pose proof (for_each_reads f entries) as Hloop
    end.
    match type of Hloop with
    | ?P -> _ => assert (Hp : P) by run_reads
    end.
    specialize (Hloop Hp [] s).
    destruct (for_each _ entries [] s) as [s2 [wills|e]]; simpl in *; auto.
Qed.

(** X3: a POST body that is a dict without [public_key], or a GET without
    the [public_key] query parameter (for [witness_sign]: without
    [public_key] or without [witness]), is answered 400 with the handler's
    missing-parameter message and nothing is written. *)
Theorem missing_parameter_is_answered_400
    (req : request) (s : gmap string json) :
  (method req = "POST" ->
   (exists d, json_body req = JObj d /\ Py.dict_get "public_key" d = None) ->
   register_pubkey req s = (s, Ok (wrap_response missing_public_key 400)) /\
   create_will req s = (s, Ok (wrap_response missing_public_key 400))) /\
  (method req = "GET" -> query_get req "public_key" = None ->
   show_user req s = (s, Ok (wrap_response missing_public_key 400)) /\
   approve_public_key req s = (s, Ok (wrap_response missing_public_key 400)) /\
   show_will req s = (s, Ok (wrap_response missing_public_key 400)) /\
   show_will_list req s = (s, Ok (wrap_response missing_public_key 400)) /\
   witness_sign req s = (s, Ok (wrap_response missing_sign_params 400))) /\
  (method req = "GET" -> query_get req "witness" = None ->
   witness_sign req s = (s, Ok (wrap_response missing_sign_params 400))).
Proof.
  split; [|split].
  - intros Hm (d & Hb & Hk).
    unfold register_pubkey, create_will, bind, lift, ret.
    rewrite Hm, Hb. simpl. unfold Py.dict_has. rewrite Hk. simpl. auto.
  - intros Hm Hq.
    unfold show_user, approve_public_key, show_will, show_will_list,
      witness_sign.
    rewrite Hm, Hq. simpl. repeat split.
  - intros Hm Hq. unfold witness_sign. rewrite Hm, Hq. simpl.
    destruct (query_get req "public_key"); reflexivity.
Qed.

Lemma missing_parameter_is_answered_400_witness :
  register_pubkey (POST (JObj [("name", JStr "Alice")])) ∅ =
    (∅, Ok (wrap_response missing_public_key 400)) /\
  witness_sign (GET [("public_key", "alice")]) ∅ =
    (∅, Ok (wrap_response missing_sign_params 400)).
Proof.
  split.
  - apply (missing_parameter_is_answered_400
             (POST (JObj [("name", JStr "Alice")])) ∅); [reflexivity|].
    eexists. split; reflexivity.
  - apply (missing_parameter_is_answered_400 (GET [("public_key", "alice")]) ∅);
      reflexivity.
Defined.

(** X4: reading a key that was never written raises the client's not-found
    exception out of the handler: [show_user] and [approve_public_key] on a
    missing record, [show_will] and [witness_sign] on a missing will,
    [list_need_approve] when there is no pending list yet.  Nothing is
    written. *)
Theorem absent_key_raises_not_found
    (s : gmap string json) (k w : string) :
  (s !! k = None ->
   ShowUser k s = (s, Raise IntkeyClientException) /\
   Approve k s = (s, Raise IntkeyClientException)) /\
  (s !! (WILL_PREFIX +:+ k) = None ->
   ShowWill k s = (s, Raise IntkeyClientException) /\
   Sign k w s = (s, Raise IntkeyClientException)) /\
  (s !! KEY_NEED_REVIEW = None ->
   ListPending s = (s, Raise IntkeyClientException)).
Proof.
  split; [|split]; intros H.
  - unfold ShowUser, show_user, Approve, approve_public_key, bind, get_value,
      client_show. simpl. rewrite H. auto.
  - unfold ShowWill, show_will, Sign, witness_sign, bind, get_value,
      client_show. simpl. rewrite H. auto.
  - unfold ListPending, list_need_approve, bind, get_value, client_show.
    simpl. rewrite H. reflexivity.
Qed.

Lemma absent_key_raises_not_found_witness :
  Approve "alice" ∅ = (∅, Raise IntkeyClientException) /\
  Sign "alice" "bob" ∅ = (∅, Raise IntkeyClientException) /\
  ListPending ∅ = (∅, Raise IntkeyClientException).
Proof.
  pose proof (absent_key_raises_not_found ∅ "alice" "bob") as (H1 & H2 & H3).
  split; [apply H1; reflexivity|].
  split; [apply H2; reflexivity | apply H3; reflexivity].
Defined.

(** ** More on [register_pubkey] *)

(** What a registration does to a ledger whose pending list is absent or a
    list. *)
Lemma register_run s d k :
  registry_ready s ->
  Py.dict_get "public_key" d = Some (JStr k) ->
  Register (JObj d) s =
    (<[k := JObj (registered_profile d)]>
       (<[KEY_NEED_REVIEW := JArr (enqueue (JStr k) (pending_list_of s))]> s),
     Ok (wrap_response processing 200)).
Proof.
  intros Hr Hk.
  unfold Register, register_pubkey, registered_profile, enqueue,
    pending_list_of, bind, lift, ret, try_client, get_value, client_show,
    client_set.
  simpl. rewrite (dict_has_get _ _ _ Hk). simpl.
  destruct (Py.dict_has "status" d) eqn:Hst; simpl.
  - rewrite Hk. simpl.
    destruct Hr as [Hn | [l Hl]].
    + rewrite Hn. simpl. rewrite insert_insert_eq. reflexivity.
    + rewrite Hl. simpl. destruct (Py.list_contains (JStr k) l); reflexivity.
  - rewrite dict_get_set_ne by discriminate. rewrite Hk. simpl.
    destruct Hr as [Hn | [l Hl]].
    + rewrite Hn. simpl. rewrite insert_insert_eq. reflexivity.
    + rewrite Hl. simpl. destruct (Py.list_contains (JStr k) l); reflexivity.
Qed.

Lemma list_contains_str_true k l :
  Py.list_contains (JStr k) l = true <-> In (JStr k) l.
Proof.
  unfold Py.list_contains. rewrite existsb_exists. split.
  - intros (e & Hin & He). apply py_eq_str_l in He. now subst.
  - intros Hin. exists (JStr k). split; [exact Hin | apply py_eq_str_refl].
Qed.

Lemma enqueue_in k l : In (JStr k) (enqueue (JStr k) l).
Proof.
  unfold enqueue. destruct (Py.list_contains (JStr k) l) eqn:E.
  - now apply list_contains_str_true.
  - apply in_or_app. right. now left.
Qed.

Lemma enqueue_keeps x l e : In e l -> In e (enqueue x l).
Proof.
  unfold enqueue. destruct (Py.list_contains x l); auto.
  intros H. apply in_or_app. now left.
Qed.

(** X5: on a ledger whose pending list is absent or a list, registration
    returns the [processing] acknowledgement and [Show] then returns the
    request body; a body without [status] is stored with
    [status = 'need_review'], a body that carries a [status] is stored
    unchanged, whatever that status is. *)
Theorem register_stores_profile_with_status
    (s : gmap string json) (d : list (string * json)) (k : string) :
  registry_ready s ->
  Py.dict_get "public_key" d = Some (JStr k) ->
  exists s' d',
    Register (JObj d) s = (s', Ok (wrap_response processing 200)) /\
    ShowUser k s' = (s', Ok (wrap_response (JObj d') 200)) /\
    (Py.dict_get "status" d = None ->
     d' = Py.dict_set "status" (JStr "need_review") d /\
     Py.dict_get "status" d' = Some (JStr "need_review")) /\
    (forall v, Py.dict_get "status" d = Some v -> d' = d).
Proof.
  intros Hr Hk. eexists _, (registered_profile d).
  split; [apply (register_run s d k Hr Hk)|].
  split; [apply show_user_lookup, lookup_insert_eq|].
  unfold registered_profile, Py.dict_has. split.
  - intros ->. split; [reflexivity | apply dict_get_set_eq].
  - intros v ->. reflexivity.
Qed.

Lemma register_stores_profile_with_status_witness :
  exists s' d',
    Register (JObj [("public_key", JStr "alice"); ("status", JStr "approved")])
             ∅ = (s', Ok (wrap_response processing 200)) /\
    ShowUser "alice" s' = (s', Ok (wrap_response (JObj d') 200)) /\
    (Py.dict_get "status"
       [("public_key", JStr "alice"); ("status", JStr "approved")] = None ->
     d' = Py.dict_set "status" (JStr "need_review")
            [("public_key", JStr "alice"); ("status", JStr "approved")] /\
     Py.dict_get "status" d' = Some (JStr "need_review")) /\
    (forall v,
        Py.dict_get "status"
          [("public_key", JStr "alice"); ("status", JStr "approved")] = Some v ->
        d' = [("public_key", JStr "alice"); ("status", JStr "approved")]).
Proof.
  apply register_stores_profile_with_status.
  - left. reflexivity.
  - reflexivity.
Defined.

(** X6: on a ledger whose pending list is absent or a list, registration of
    a key other than ['KEY_NEED_REVIEW'] leaves the key in the pending list
    exactly as [if pubkey not in list_pending: append] says: every earlier
    entry stays, a key already listed leaves the list as it was, a new key
    goes last. *)
Theorem register_enqueues_the_key_once
    (s : gmap string json) (d : list (string * json)) (k : string) :
  registry_ready s ->
  Py.dict_get "public_key" d = Some (JStr k) ->
  k <> KEY_NEED_REVIEW ->
  exists l',
    fst (Register (JObj d) s) !! KEY_NEED_REVIEW = Some (JArr l') /\
    In (JStr k) l' /\
    (forall e, In e (pending_list_of s) -> In e l') /\
    (In (JStr k) (pending_list_of s) -> l' = pending_list_of s) /\
    (~ In (JStr k) (pending_list_of s) -> l' = pending_list_of s ++ [JStr k]).
Proof.
  intros Hr Hk Hne. rewrite (register_run s d k Hr Hk). simpl.
  exists (enqueue (JStr k) (pending_list_of s)).
  split; [rewrite lookup_insert_ne by exact Hne; apply lookup_insert_eq|].
  split; [apply enqueue_in|].
  split; [intros e; apply enqueue_keeps|].
  unfold enqueue.
  destruct (Py.list_contains (JStr k) (pending_list_of s)) eqn:E; split; auto.
  - intros Hnot. exfalso. apply Hnot. now apply list_contains_str_true.
  - intros Hin. apply list_contains_str_true in Hin. congruence.
Qed.

Lemma register_enqueues_the_key_once_witness :
  exists l',
    fst (Register (JObj [("public_key", JStr "bob")])
           (<["KEY_NEED_REVIEW" := JArr [JStr "alice"]]> ∅))
      !! KEY_NEED_REVIEW = Some (JArr l') /\
    In (JStr "bob") l' /\
    (forall e,
        In e (pending_list_of (<["KEY_NEED_REVIEW" := JArr [JStr "alice"]]> ∅)) ->
        In e l') /\
    (In (JStr "bob")
        (pending_list_of (<["KEY_NEED_REVIEW" := JArr [JStr "alice"]]> ∅)) ->
     l' = pending_list_of (<["KEY_NEED_REVIEW" := JArr [JStr "alice"]]> ∅)) /\
    (~ In (JStr "bob")
         (pending_list_of (<["KEY_NEED_REVIEW" := JArr [JStr "alice"]]> ∅)) ->
     l' = pending_list_of (<["KEY_NEED_REVIEW" := JArr [JStr "alice"]]> ∅)
          ++ [JStr "bob"]).
Proof.
  apply register_enqueues_the_key_once.
  - right. eexists. vm_compute. reflexivity.
  - reflexivity.
  - discriminate.
Defined.

(** X7: on a ledger whose pending list is absent or a list, registering the
    same body for a key other than ['KEY_NEED_REVIEW'] a second time
    changes nothing: the ledger after two registrations is the ledger after
    one. *)
Theorem register_twice_is_register_once
    (s : gmap string json) (d : list (string * json)) (k : string) :
  registry_ready s ->
  Py.dict_get "public_key" d = Some (JStr k) ->
  k <> KEY_NEED_REVIEW ->
  Register (JObj d) (fst (Register (JObj d) s)) =
    (fst (Register (JObj d) s), Ok (wrap_response processing 200)).
Proof.
  intros Hr Hk Hne. rewrite (register_run s d k Hr Hk). simpl.
  set (l1 := enqueue (JStr k) (pending_list_of s)).
  set (s1 := <[k := _]> (<[KEY_NEED_REVIEW := JArr l1]> s)).
  assert (H1 : s1 !! KEY_NEED_REVIEW = Some (JArr l1)).
  { subst s1. rewrite lookup_insert_ne by exact Hne. apply lookup_insert_eq. }
  rewrite (register_run s1 d k); [|right; eauto|exact Hk].
  unfold pending_list_of. rewrite H1.
  assert (E : enqueue (JStr k) l1 = l1).
  { unfold enqueue.
    assert (Py.list_contains (JStr k) l1 = true) as ->; [|reflexivity].
    apply list_contains_str_true. apply enqueue_in. }
  rewrite E. f_equal.
  rewrite (insert_id s1 KEY_NEED_REVIEW (JArr l1) H1).
  apply insert_id. subst s1. apply lookup_insert_eq.
Qed.

Lemma register_twice_is_register_once_witness :
  Register (JObj [("public_key", JStr "alice")])
    (fst (Register (JObj [("public_key", JStr "alice")]) ∅)) =
  (fst (Register (JObj [("public_key", JStr "alice")]) ∅),
   Ok (wrap_response processing 200)).
Proof.
  apply (register_twice_is_register_once ∅ _ "alice").
  - left. reflexivity.
  - reflexivity.
  - discriminate.
Defined.

(** X8: records, the pending list and the wills live in one key space, and
    [register_pubkey] writes the profile under whatever [public_key] says.
    Registering the key ['KEY_NEED_REVIEW'] replaces the pending list by the
    profile, and a later registration of a key that is not a field name of
    that profile raises [AttributeError] at [list_pending.append] without
    writing; registering ['WILL_' + t] makes [show_will] of [t] return the
    profile. *)
Theorem register_shares_one_key_space
    (s : gmap string json) (d : list (string * json)) (k t : string) :
  registry_ready s ->
  Py.dict_get "public_key" d = Some (JStr k) ->
  (k = KEY_NEED_REVIEW ->
   fst (Register (JObj d) s) !! KEY_NEED_REVIEW =
     Some (JObj (registered_profile d)) /\
   forall d2 k2,
     Py.dict_get "public_key" d2 = Some (JStr k2) ->
     Py.dict_has k2 (registered_profile d) = false ->
     Register (JObj d2) (fst (Register (JObj d) s)) =
       (fst (Register (JObj d) s), Raise AttributeError)) /\
  (k = WILL_PREFIX +:+ t ->
   ShowWill t (fst (Register (JObj d) s)) =
     (fst (Register (JObj d) s),
      Ok (wrap_response (JObj (registered_profile d)) 200))).
Proof.
  intros Hr Hk. rewrite (register_run s d k Hr Hk). simpl. split.
  - intros ->. rewrite lookup_insert_eq. split; [reflexivity|].
    intros d2 k2 Hk2 Hno.
    set (s1 := <[KEY_NEED_REVIEW := _]> _).
    assert (H1 : s1 !! KEY_NEED_REVIEW = Some (JObj (registered_profile d))).
    { subst s1. apply lookup_insert_eq. }
    clearbody s1.
    unfold Register, register_pubkey, bind, lift, ret, try_client, get_value,
      client_show.
    simpl. rewrite (dict_has_get _ _ _ Hk2). simpl.
    destruct (Py.dict_has "status" d2) eqn:Hst; simpl.
    + rewrite Hk2. simpl. rewrite H1. simpl. rewrite Hno. reflexivity.
    + rewrite dict_get_set_ne by discriminate. rewrite Hk2. simpl.
      rewrite H1. simpl. rewrite Hno. reflexivity.
  - intros ->. apply show_will_inserted.
Qed.

Lemma register_shares_one_key_space_witness :
  (fst (Register (JObj [("public_key", JStr "KEY_NEED_REVIEW")])
          (<["KEY_NEED_REVIEW" := JArr [JStr "alice"]]> ∅))
     !! KEY_NEED_REVIEW =
     Some (JObj (registered_profile [("public_key", JStr "KEY_NEED_REVIEW")])) /\
   forall d2 k2,
     Py.dict_get "public_key" d2 = Some (JStr k2) ->
     Py.dict_has k2 (registered_profile [("public_key", JStr "KEY_NEED_REVIEW")])
       = false ->
     Register (JObj d2)
       (fst (Register (JObj [("public_key", JStr "KEY_NEED_REVIEW")])
               (<["KEY_NEED_REVIEW" := JArr [JStr "alice"]]> ∅))) =
       (fst (Register (JObj [("public_key", JStr "KEY_NEED_REVIEW")])
               (<["KEY_NEED_REVIEW" := JArr [JStr "alice"]]> ∅)),
        Raise AttributeError)) /\
  ShowWill "alice"
    (fst (Register (JObj [("public_key", JStr "WILL_alice")]) ∅)) =
    (fst (Register (JObj [("public_key", JStr "WILL_alice")]) ∅),
     Ok (wrap_response
           (JObj (registered_profile [("public_key", JStr "WILL_alice")]))
           200)).
Proof.
  split.
  - apply (register_shares_one_key_space
             (<["KEY_NEED_REVIEW" := JArr [JStr "alice"]]> ∅)
             [("public_key", JStr "KEY_NEED_REVIEW")] "KEY_NEED_REVIEW" "");
      [right; eexists; vm_compute; reflexivity | reflexivity | reflexivity].
  - apply (register_shares_one_key_space
             ∅ [("public_key", JStr "WILL_alice")] "WILL_alice" "alice");
      [left; reflexivity | reflexivity | reflexivity].
Defined.

(** ** More on [list_need_approve] *)

Lemma pending_loop_resolves s l vs : forall acc,
  Forall2 (resolves s) l vs ->
  for_each (fun users pubkey =>
              let* user := get_value pubkey in ret (users ++ [user]))
           l acc s = (s, Ok (acc ++ vs)).
Proof.
  intros acc H. revert acc.
  induction H as [|e v l vs (k & -> & Hk) _ IH]; intros acc; simpl.
  - now rewrite app_nil_r.
  - unfold bind at 1. unfold bind at 1, get_value, client_show, ret.
    rewrite Hk. rewrite IH. now rewrite <- app_assoc.
Qed.

(** X9: when every entry of the pending list is a key with a record,
    [list_need_approve] answers 200 with the records in the order of the
    list. *)
Theorem list_pending_returns_records_in_list_order
    (s : gmap string json) (l vs : list json) :
  s !! KEY_NEED_REVIEW = Some (JArr l) ->
  Forall2 (resolves s) l vs ->
  ListPending s = (s, Ok (wrap_response (JArr vs) 200)).
Proof.
  intros Hl Hres.
  unfold ListPending, list_need_approve. simpl.
  unfold bind at 1, get_value at 1, client_show. rewrite Hl.
  unfold bind at 1, lift. simpl. unfold bind at 1.
  rewrite (pending_loop_resolves s l vs [] Hres). reflexivity.
Qed.

Lemma list_pending_returns_records_in_list_order_witness :
  ListPending
    (<["KEY_NEED_REVIEW" := JArr [JStr "bob"; JStr "alice"]]>
       (<["alice" := JObj [("public_key", JStr "alice")]]>
          (<["bob" := JObj [("public_key", JStr "bob")]]> ∅))) =
  (<["KEY_NEED_REVIEW" := JArr [JStr "bob"; JStr "alice"]]>
     (<["alice" := JObj [("public_key", JStr "alice")]]>
        (<["bob" := JObj [("public_key", JStr "bob")]]> ∅)),
   Ok (wrap_response
         (JArr [JObj [("public_key", JStr "bob")];
                JObj [("public_key", JStr "alice")]]) 200)).
Proof.
  apply (list_pending_returns_records_in_list_order _
           [JStr "bob"; JStr "alice"]).
  - vm_compute. reflexivity.
  - repeat constructor; eexists; (split; [reflexivity | vm_compute; reflexivity]).
Defined.

(** X10: [list_need_approve] stops at the first listed key without a record:
    the not-found exception leaves the handler, whatever records come
    before or after it in the list. *)
Theorem list_pending_stops_at_first_missing_record
    (s : gmap string json) (l1 l2 vs : list json) (k : string) :
  s !! KEY_NEED_REVIEW = Some (JArr (l1 ++ JStr k :: l2)) ->
  Forall2 (resolves s) l1 vs ->
  s !! k = None ->
  ListPending s = (s, Raise IntkeyClientException).
Proof.
  intros Hl Hres Hk.
  unfold ListPending, list_need_approve. simpl.
  unfold bind at 1, get_value at 1, client_show. rewrite Hl.
  unfold bind at 1, lift. simpl. unfold bind at 1.
  assert (E : forall acc,
             for_each (fun users pubkey =>
                         let* user := get_value pubkey in ret (users ++ [user]))
                      (l1 ++ JStr k :: l2) acc s =
             (s, Raise IntkeyClientException)).
  { clear Hl. induction Hres as [|e v l vs' (k0 & -> & Hk0) _ IH];
      intros acc; simpl.
    - unfold bind at 1. unfold bind at 1, get_value, client_show.
      rewrite Hk. reflexivity.
    - unfold bind at 1. unfold bind at 1, get_value, client_show, ret.
      rewrite Hk0. apply IH. }
  rewrite E. reflexivity.
Qed.

Lemma list_pending_stops_at_first_missing_record_witness :
  ListPending
    (<["KEY_NEED_REVIEW" := JArr [JStr "bob"; JStr "ghost"; JStr "alice"]]>
       (<["alice" := JObj [("public_key", JStr "alice")]]>
          (<["bob" := JObj [("public_key", JStr "bob")]]> ∅))) =
  (<["KEY_NEED_REVIEW" := JArr [JStr "bob"; JStr "ghost"; JStr "alice"]]>
     (<["alice" := JObj [("public_key", JStr "alice")]]>
        (<["bob" := JObj [("public_key", JStr "bob")]]> ∅)),
   Raise IntkeyClientException).
Proof.
  apply (list_pending_stops_at_first_missing_record _
           [JStr "bob"] [JStr "alice"] [JObj [("public_key", JStr "bob")]]
           "ghost").
  - vm_compute. reflexivity.
  - repeat constructor. eexists. split; [reflexivity | vm_compute; reflexivity].
  - vm_compute. reflexivity.
Defined.

(** ** More on [approve_public_key] *)

Lemma remove_first_listed k l :
  Py.list_contains (JStr k) l = true ->
  exists r, Py.remove_first (JStr k) l = Some r.
Proof.
  intros H. apply list_contains_str_true in H.
  induction l as [|e l IH]; simpl in *; [contradiction|].
  destruct (Py.eq e (JStr k)) eqn:E; [eauto|].
  destruct H as [-> | H]; [rewrite py_eq_str_refl in E; discriminate|].
  destruct (IH H) as (r & ->). eauto.
Qed.

Lemma remove_first_unlisted k l :
  Py.list_contains (JStr k) l = false -> Py.remove_first (JStr k) l = None.
Proof.
  intros H. pose proof (list_contains_str_false k l H) as Hnot.
  clear H. induction l as [|e l IH]; simpl in *; [reflexivity|].
  destruct (Py.eq e (JStr k)) eqn:E.
  - apply py_eq_str_r in E. subst. exfalso. apply Hnot. now left.
  - rewrite IH; [reflexivity|]. intros Hin. apply Hnot. now right.
Qed.

(** What an approval does when the record is a dict and the pending list a
    list. *)
Lemma approve_run s k d l :
  s !! k = Some (JObj d) ->
  s !! KEY_NEED_REVIEW = Some (JArr l) ->
  Approve k s =
    (<[KEY_NEED_REVIEW := JArr (dequeue k l)]>
       (<[k := JObj (Py.dict_set "status" (JStr "approved") d)]> s),
     Ok (wrap_response (JObj (Py.dict_set "status" (JStr "approved") d)) 200)).
Proof.
  intros Hk Hl.
  assert (Hne : k <> KEY_NEED_REVIEW).
  { intros ->. rewrite Hk in Hl. discriminate. }
  unfold Approve, approve_public_key. simpl.
  unfold bind at 1, get_value at 1, client_show. rewrite Hk.
  unfold bind at 1, lift. simpl.
  unfold bind at 1, client_set.
  unfold bind at 1, get_value, client_show.
  rewrite lookup_insert_ne by exact Hne. rewrite Hl.
  unfold bind at 1, lift. simpl. unfold dequeue.
  destruct (Py.list_contains (JStr k) l) eqn:Hc.
  - destruct (remove_first_listed k l Hc) as (r & Hr).
    unfold bind, lift, ret. simpl. rewrite Hr. reflexivity.
  - rewrite (remove_first_unlisted k l Hc). reflexivity.
Qed.

Lemma remove_first_others x l : forall r,
  Py.remove_first (JStr x) l = Some r ->
  S (length r) = length l /\
  forall e, e <> JStr x -> (In e r <-> In e l).
Proof.
  induction l as [|a l IH]; simpl; intros r Hr; [discriminate|].
  destruct (Py.eq a (JStr x)) eqn:E.
  - inversion Hr; subst. apply py_eq_str_r in E. subst a.
    split; [reflexivity|]. intros e He. split; [now right|].
    intros [Ha | Hin]; [congruence | exact Hin].
  - destruct (Py.remove_first (JStr x) l) as [r'|]; [|discriminate].
    inversion Hr; subst. destruct (IH r' eq_refl) as (Hlen & Hin).
    split; [simpl; now rewrite Hlen|].
    intros e He. simpl. now rewrite (Hin e He).
Qed.

Lemma dict_set_twice {A : Type} (k : string) (v : A) (d : list (string * A)) :
  Py.dict_set k v (Py.dict_set k v d) = Py.dict_set k v d.
Proof.
  induction d as [|[k' v'] d IH]; simpl.
  - now rewrite String.eqb_refl.
  - destruct (String.eqb k k') eqn:E; simpl; rewrite E; [reflexivity|].
    now rewrite IH.
Qed.

(** X11: approving [k] takes nothing but [k] out of the pending list: every
    other entry is pending afterwards exactly when it was before, the list
    does not grow, and a list that did not contain [k] is written back as
    it was. *)
Theorem approve_keeps_the_other_pending_keys
    (s : gmap string json) (k : string) (d : list (string * json))
    (l : list json) :
  s !! k = Some (JObj d) ->
  s !! KEY_NEED_REVIEW = Some (JArr l) ->
  exists l',
    fst (Approve k s) !! KEY_NEED_REVIEW = Some (JArr l') /\
    (forall e, e <> JStr k -> (In e l' <-> In e l)) /\
    length l' <= length l /\
    (~ In (JStr k) l -> l' = l).
Proof.
  intros Hk Hl. rewrite (approve_run s k d l Hk Hl). simpl.
  exists (dequeue k l). rewrite lookup_insert_eq. split; [reflexivity|].
  unfold dequeue.
  destruct (Py.remove_first (JStr k) l) as [r|] eqn:Hr.
  - destruct (remove_first_others k l r Hr) as (Hlen & Hin).
    split; [exact Hin|]. split; [lia|].
    intros Hnot. exfalso. apply Hnot.
    destruct (Py.list_contains (JStr k) l) eqn:Hc.
    + now apply list_contains_str_true.
    + rewrite (remove_first_unlisted k l Hc) in Hr. discriminate.
  - repeat split; auto.
Qed.

Lemma approve_keeps_the_other_pending_keys_witness :
  exists l',
    fst (Approve "alice"
           (<["KEY_NEED_REVIEW" := JArr [JStr "alice"; JStr "bob"]]>
              (<["alice" := JObj [("public_key", JStr "alice")]]> ∅)))
      !! KEY_NEED_REVIEW = Some (JArr l') /\
    (forall e, e <> JStr "alice" ->
       (In e l' <-> In e [JStr "alice"; JStr "bob"])) /\
    length l' <= length [JStr "alice"; JStr "bob"] /\
    (~ In (JStr "alice") [JStr "alice"; JStr "bob"] ->
     l' = [JStr "alice"; JStr "bob"]).
Proof.
  apply (approve_keeps_the_other_pending_keys _ "alice"
           [("public_key", JStr "alice")]).
  - vm_compute. reflexivity.
  - vm_compute. reflexivity.
Defined.

(** X12: approving [k] changes the [status] field of the record at [k] and
    nothing else: every other field of the record keeps its value, the
    answer carries the updated record, and every ledger key other than [k]
    and the pending list keeps its value. *)
Theorem approve_changes_only_the_status
    (s : gmap string json) (k : string) (d : list (string * json))
    (l : list json) :
  s !! k = Some (JObj d) ->
  s !! KEY_NEED_REVIEW = Some (JArr l) ->
  exists d',
    snd (Approve k s) = Ok (wrap_response (JObj d') 200) /\
    fst (Approve k s) !! k = Some (JObj d') /\
    Py.dict_get "status" d' = Some (JStr "approved") /\
    (forall f, f <> "status" -> Py.dict_get f d' = Py.dict_get f d) /\
    (forall j, j <> k -> j <> KEY_NEED_REVIEW ->
               fst (Approve k s) !! j = s !! j).
Proof.
  intros Hk Hl.
  assert (Hne : KEY_NEED_REVIEW <> k).
  { intros <-. rewrite Hk in Hl. discriminate. }
  rewrite (approve_run s k d l Hk Hl). simpl.
  exists (Py.dict_set "status" (JStr "approved") d).
  split; [reflexivity|].
  split; [rewrite lookup_insert_ne by exact Hne; apply lookup_insert_eq|].
  split; [apply dict_get_set_eq|].
  split; [intros f Hf; now apply dict_get_set_ne|].
  intros j Hj1 Hj2.
  rewrite lookup_insert_ne by congruence.
  now rewrite lookup_insert_ne by congruence.
Qed.

Lemma approve_changes_only_the_status_witness :
  exists d',
    snd (Approve "alice"
           (<["KEY_NEED_REVIEW" := JArr [JStr "alice"]]>
              (<["alice" := JObj [("public_key", JStr "alice");
                                  ("status", JStr "need_review");
                                  ("name", JStr "Alice")]]> ∅))) =
      Ok (wrap_response (JObj d') 200) /\
    fst (Approve "alice"
           (<["KEY_NEED_REVIEW" := JArr [JStr "alice"]]>
              (<["alice" := JObj [("public_key", JStr "alice");
                                  ("status", JStr "need_review");
                                  ("name", JStr "Alice")]]> ∅)))
      !! "alice" = Some (JObj d') /\
    Py.dict_get "status" d' = Some (JStr "approved") /\
    (forall f, f <> "status" ->
       Py.dict_get f d' =
       Py.dict_get f [("public_key", JStr "alice");
                      ("status", JStr "need_review");
                      ("name", JStr "Alice")]) /\
    (forall j, j <> "alice" -> j <> KEY_NEED_REVIEW ->
       fst (Approve "alice"
              (<["KEY_NEED_REVIEW" := JArr [JStr "alice"]]>
                 (<["alice" := JObj [("public_key", JStr "alice");
                                     ("status", JStr "need_review");
                                     ("name", JStr "Alice")]]> ∅)))
         !! j =
       (<["KEY_NEED_REVIEW" := JArr [JStr "alice"]]>
          (<["alice" := JObj [("public_key", JStr "alice");
                              ("status", JStr "need_review");
                              ("name", JStr "Alice")]]> ∅)
        : gmap string json) !! j).
Proof.
  apply (approve_changes_only_the_status _ "alice" _ [JStr "alice"]).
  - vm_compute. reflexivity.
  - vm_compute. reflexivity.
Defined.

(** X13: on a duplicate-free pending list, approving the same key a second
    time gives the same answer and leaves the ledger as the first approval
    left it. *)
Theorem approve_twice_is_approve_once
    (s : gmap string json) (k : string) (d : list (string * json))
    (l : list json) :
  s !! k = Some (JObj d) ->
  s !! KEY_NEED_REVIEW = Some (JArr l) ->
  distinct l = true ->
  Approve k (fst (Approve k s)) = Approve k s.
Proof.
  intros Hk Hl Hd.
  assert (Hne : KEY_NEED_REVIEW <> k).
  { intros <-. rewrite Hk in Hl. discriminate. }
  rewrite (approve_run s k d l Hk Hl). simpl.
  set (d' := Py.dict_set "status" (JStr "approved") d).
  set (s1 := <[KEY_NEED_REVIEW := JArr (dequeue k l)]> (<[k := JObj d']> s)).
  assert (H1 : s1 !! k = Some (JObj d')).
  { subst s1. rewrite lookup_insert_ne by exact Hne. apply lookup_insert_eq. }
  assert (H2 : s1 !! KEY_NEED_REVIEW = Some (JArr (dequeue k l))).
  { subst s1. apply lookup_insert_eq. }
  rewrite (approve_run s1 k d' (dequeue k l) H1 H2).
  subst d'. rewrite dict_set_twice.
  assert (E : dequeue k (dequeue k l) = dequeue k l).
  { unfold dequeue.
    destruct (Py.remove_first (JStr k) l) as [r|] eqn:Hr; [|now rewrite Hr].
    destruct (Py.remove_first (JStr k) r) as [r'|] eqn:Hr'; [|reflexivity].
    exfalso. apply (distinct_removed_absent k l r Hd Hr).
    destruct (Py.list_contains (JStr k) r) eqn:Hc.
    - now apply list_contains_str_true.
    - rewrite (remove_first_unlisted k r Hc) in Hr'. discriminate. }
  rewrite E. f_equal.
  rewrite (insert_id s1 k _ H1). now rewrite (insert_id s1 _ _ H2).
Qed.

Lemma approve_twice_is_approve_once_witness :
  Approve "alice"
    (fst (Approve "alice"
            (<["KEY_NEED_REVIEW" := JArr [JStr "alice"; JStr "bob"]]>
               (<["alice" := JObj [("public_key", JStr "alice")]]> ∅)))) =
  Approve "alice"
    (<["KEY_NEED_REVIEW" := JArr [JStr "alice"; JStr "bob"]]>
       (<["alice" := JObj [("public_key", JStr "alice")]]> ∅)).
Proof.
  apply (approve_twice_is_approve_once _ "alice"
           [("public_key", JStr "alice")] [JStr "alice"; JStr "bob"]).
  - vm_compute. reflexivity.
  - vm_compute. reflexivity.
  - reflexivity.
Defined.

(** X14: the two writes of [approve_public_key] are not atomic.  When the
    value at [k] is a dict but there is no pending list, the handler raises
    the client's not-found exception after it has already written the
    record with [status = 'approved']; [Show] returns the approved record.
    This holds for any dict, a will stored under ['WILL_' + t] included. *)
Theorem approve_fails_after_its_first_write
    (s : gmap string json) (k : string) (d : list (string * json)) :
  s !! k = Some (JObj d) ->
  s !! KEY_NEED_REVIEW = None ->
  Approve k s =
    (<[k := JObj (Py.dict_set "status" (JStr "approved") d)]> s,
     Raise IntkeyClientException) /\
  ShowUser k (fst (Approve k s)) =
    (fst (Approve k s),
     Ok (wrap_response (JObj (Py.dict_set "status" (JStr "approved") d)) 200)).
Proof.
  intros Hk Hl.
  assert (Hne : k <> KEY_NEED_REVIEW).
  { intros ->. rewrite Hk in Hl. discriminate. }
  assert (E : Approve k s =
              (<[k := JObj (Py.dict_set "status" (JStr "approved") d)]> s,
               Raise IntkeyClientException)).
  { unfold Approve, approve_public_key. simpl.
    unfold bind at 1, get_value at 1, client_show. rewrite Hk.
    unfold bind at 1, lift. simpl.
    unfold bind at 1, client_set.
    unfold bind at 1, get_value, client_show.
    rewrite lookup_insert_ne by exact Hne. rewrite Hl. reflexivity. }
  split; [exact E|]. rewrite E. simpl.
  apply show_user_lookup, lookup_insert_eq.
Qed.

Lemma approve_fails_after_its_first_write_witness :
  Approve "WILL_alice"
    (<["WILL_alice" := will_request "alice" [witness_entry "bob"]]> ∅) =
  (<["WILL_alice" :=
       JObj (Py.dict_set "status" (JStr "approved")
               [("public_key", JStr "alice");
                ("witnesses", JArr [witness_entry "bob"])])]>
     (<["WILL_alice" := will_request "alice" [witness_entry "bob"]]> ∅),
   Raise IntkeyClientException).
Proof.
  apply (approve_fails_after_its_first_write
           (<["WILL_alice" := will_request "alice" [witness_entry "bob"]]> ∅)
           "WILL_alice").
  - vm_compute. reflexivity.
  - vm_compute. reflexivity.
Defined.

(** ** Approving a registered key *)

Lemma registry_step_ready s s1 :
  registry_step s s1 -> registry_ready s -> registry_ready s1.
Proof.
  intros H Hr. destruct (H KEY_NEED_REVIEW) as [E | [[_ (l & E)] | [Hne _]]].
  - unfold registry_ready. rewrite E. exact Hr.
  - right. eauto.
  - now destruct Hne.
Qed.

Lemma registry_step_registered s s1 k :
  registry_step s s1 -> registered k s -> registered k s1.
Proof.
  intros H ((d & Hd) & (l & Hl)).
  assert (Hne : k <> KEY_NEED_REVIEW).
  { intros ->. rewrite Hd in Hl. discriminate. }
  split.
  - destruct (H k) as [E | [[Hk _] | [_ (d' & E)]]].
    + rewrite E. eauto.
    + now destruct Hne.
    + eauto.
  - destruct (H KEY_NEED_REVIEW) as [E | [[_ (l' & E)] | [Hk _]]].
    + rewrite E. eauto.
    + eauto.
    + now destruct Hk.
Qed.

Lemma registry_step_insert_list s s1 l :
  registry_step s s1 -> registry_step s (<[KEY_NEED_REVIEW := JArr l]> s1).
Proof.
  intros H j. destruct (decide (j = KEY_NEED_REVIEW)) as [-> | Hne].
  - right. left. split; [reflexivity|]. rewrite lookup_insert_eq. eauto.
  - rewrite lookup_insert_ne by congruence. apply H.
Qed.

Lemma registry_step_insert_dict s s1 k d :
  k <> KEY_NEED_REVIEW ->
  registry_step s s1 -> registry_step s (<[k := JObj d]> s1).
Proof.
  intros Hk H j. destruct (decide (j = k)) as [-> | Hne].
  - right. right. split; [exact Hk|]. rewrite lookup_insert_eq. eauto.
  - rewrite lookup_insert_ne by congruence. apply H.
Qed.

Lemma registry_step_refl s : registry_step s s.
Proof. intros j. now left. Qed.

Lemma register_step req s :
  registry_ready s ->
  ~ registers KEY_NEED_REVIEW (CallRegister req) ->
  registry_step s (fst (register_pubkey req s)).
Proof.
  intros Hr Hno. unfold register_pubkey.
  destruct (method req =? "POST") eqn:Hm; simpl; [|apply registry_step_refl].
  apply String.eqb_eq in Hm.
  unfold bind at 1 2 3 4, lift, ret.
  destruct (Py.contains (JStr "public_key") (json_body req)) as [[|]|?];
    simpl; try apply registry_step_refl.
  destruct (Py.contains (JStr "status") (json_body req)) as [has|?] eqn:Hhas;
    simpl; try apply registry_step_refl.
  set (m := if negb has then _ else _).
  assert (Hm2 : exists r, m s = (s, r) /\
            forall body, r = Ok body ->
              forall pubkey, Py.getitem body "public_key" = Ok pubkey ->
              exists d0 d1, json_body req = JObj d0 /\ body = JObj d1 /\
                         Py.dict_get "public_key" d0 = Some pubkey).
  { subst m. destruct has; simpl.
    - eexists. split; [reflexivity|]. intros body E pubkey Hpk.
      inversion E; subst. destruct (json_body req); try discriminate.
      simpl in Hpk. destruct (Py.dict_get "public_key" fields) eqn:Hd;
        [|discriminate].
      inversion Hpk; subst. eauto.
    - eexists. split; [reflexivity|]. intros body E pubkey Hpk.
      destruct (json_body req); try discriminate. simpl in E.
      inversion E; subst. simpl in Hpk.
      rewrite dict_get_set_ne in Hpk by discriminate.
      destruct (Py.dict_get "public_key" fields) eqn:Hd; [|discriminate].
      inversion Hpk; subst. eauto. }
  destruct Hm2 as (r & -> & Hshape).
  destruct r as [body|?]; simpl; try apply registry_step_refl.
  destruct (Py.getitem body "public_key") as [pubkey|?] eqn:Hpk;
    simpl; try apply registry_step_refl.
  destruct (Hshape body eq_refl pubkey Hpk) as (d0 & d1 & Hb0 & -> & Hd0).
  assert (Hkey : pubkey <> JStr KEY_NEED_REVIEW).
  { intros ->. apply Hno. simpl. split; [exact Hm|]. eauto. }
  assert (Htail : forall s0 l0,
             registry_step s s0 ->
             registry_step s
               (fst ((let* listed := lift (Py.contains pubkey (JArr l0)) in
                      let* list_pending :=
                        (if negb listed then lift (Py.append (JArr l0) pubkey)
                         else ret (JArr l0)) in
                      client_set (JStr KEY_NEED_REVIEW) list_pending ;;
                      client_set pubkey (JObj d1) ;;
                      ret (wrap_response processing 200)) s0))).
  { intros s0 l0 Hs0. unfold bind at 1 2, lift. simpl.
    assert (Hw : forall l',
               registry_step s
                 (fst ((client_set (JStr KEY_NEED_REVIEW) (JArr l') ;;
                        client_set pubkey (JObj d1) ;;
                        ret (wrap_response processing 200)) s0))).
    { intros l'. unfold bind, client_set, ret. simpl.
      destruct pubkey as [| | |k'| |]; simpl;
        try (now apply registry_step_insert_list).
      apply registry_step_insert_dict; [congruence|].
      now apply registry_step_insert_list. }
    destruct (Py.list_contains pubkey l0); simpl; apply Hw. }
  unfold bind at 1. unfold try_client, get_value, client_show.
  destruct Hr as [Hn | [l Hl]].
  - rewrite Hn. simpl. apply (Htail _ []).
    apply registry_step_insert_list, registry_step_refl.
  - rewrite Hl. apply (Htail s l), registry_step_refl.
Qed.

Lemma approve_step req s :
  registry_ready s -> registry_step s (fst (approve_public_key req s)).
Proof.
  intros Hr. unfold approve_public_key.
  destruct (negb (method req =? "GET")); [apply registry_step_refl|].
  destruct (query_get req "public_key") as [pubkey|];
    [|apply registry_step_refl].
  unfold bind at 1, get_value, client_show.
  destruct (s !! pubkey) as [body|] eqn:Hb; [|apply registry_step_refl].
  unfold bind at 1, lift.
  destruct body as [| | | | |d]; simpl; try apply registry_step_refl.
  assert (Hne : pubkey <> KEY_NEED_REVIEW).
  { intros ->. destruct Hr as [Hn | [l Hl]]; congruence. }
  unfold bind at 1, client_set.
  set (body' := JObj (Py.dict_set "status" (JStr "approved") d)).
  assert (H1 : registry_step s (<[pubkey := body']> s)).
  { apply registry_step_insert_dict; [exact Hne | apply registry_step_refl]. }
  assert (Hk : (<[pubkey := body']> s) !! KEY_NEED_REVIEW = s !! KEY_NEED_REVIEW).
  { apply lookup_insert_ne. exact Hne. }
  set (s1 := <[pubkey := body']> s) in *. clearbody s1.
  unfold bind at 1. rewrite Hk.
  destruct Hr as [Hn | [l Hl]].
  - rewrite Hn. exact H1.
  - rewrite Hl. unfold bind at 1, lift. simpl.
    destruct (Py.list_contains (JStr pubkey) l).
    + unfold bind at 1, lift. simpl.
      destruct (Py.remove_first (JStr pubkey) l) as [r|]; simpl; [|exact H1].
      now apply registry_step_insert_list.
    + unfold bind, ret. simpl. now apply registry_step_insert_list.
Qed.

Lemma register_pubkey_run req s d :
  method req = "POST" ->
  json_body req = JObj d ->
  register_pubkey req s = Register (JObj d) s.
Proof.
  intros Hm Hb. unfold Register, register_pubkey. simpl.
  rewrite Hm, Hb. reflexivity.
Qed.

Lemma register_registers c s k :
  registry_ready s ->
  ~ registers KEY_NEED_REVIEW c ->
  registers k c ->
  registered k (fst (call c s)).
Proof.
  intros Hr Hno Hk. destruct c as [req|req]; [|contradiction].
  destruct Hk as (Hm & d & Hb & Hd). simpl.
  assert (Hne : k <> KEY_NEED_REVIEW).
  { intros ->. apply Hno. simpl. eauto. }
  rewrite (register_pubkey_run req s d Hm Hb).
  rewrite (register_run s d k Hr Hd). simpl. split.
  - rewrite lookup_insert_eq. eauto.
  - rewrite lookup_insert_ne by exact Hne. rewrite lookup_insert_eq. eauto.
Qed.

Lemma call_step c s :
  registry_ready s ->
  ~ registers KEY_NEED_REVIEW c ->
  registry_step s (fst (call c s)).
Proof.
  intros Hr Hno. destruct c; simpl;
    [now apply register_step | now apply approve_step].
Qed.

Lemma run_registered cs : forall s k,
  registry_ready s ->
  Forall (fun c => ~ registers KEY_NEED_REVIEW c) cs ->
  (registered k s -> registered k (run cs s)) /\
  (Exists (registers k) cs -> registered k (run cs s)).
Proof.
  induction cs as [|c cs IH]; intros s k Hr Hall; simpl.
  - split; [auto|]. intros H. inversion H.
  - inversion Hall as [|? ? Hc Hcs]; subst.
    pose proof (call_step c s Hr Hc) as Hstep.
    pose proof (registry_step_ready _ _ Hstep Hr) as Hr1.
    destruct (IH (fst (call c s)) k Hr1 Hcs) as [IH1 IH2].
    split.
    + intros Hk. apply IH1. now apply (registry_step_registered s).
    + intros H. inversion H; subst.
      * apply IH1. now apply register_registers.
      * now apply IH2.
Qed.

Lemma list_contains_absent k l :
  ~ In (JStr k) l -> Py.list_contains (JStr k) l = false.
Proof.
  intros Hnot. destruct (Py.list_contains (JStr k) l) eqn:E; [|reflexivity].
  apply list_contains_str_true in E. contradiction.
Qed.

Lemma approve_result_absent s k s' r :
  pending_ok s ->
  Approve k s = (s', Ok r) ->
  exists v, s' !! KEY_NEED_REVIEW = Some v /\ Py.contains (JStr k) v = Ok false.
Proof.
  intros Hs. unfold Approve, approve_public_key. simpl.
  unfold bind at 1, get_value, client_show.
  destruct (s !! k) as [body|] eqn:Hb; [|discriminate].
  unfold bind at 1, lift.
  destruct body as [| | | | |d0]; simpl; try discriminate.
  set (body' := JObj (Py.dict_set "status" (JStr "approved") d0)).
  unfold bind at 1, client_set.
  assert (H1 : pending_ok (<[k := body']> s)).
  { apply pending_ok_insert; auto. intros _ l E. discriminate. }
  set (s1 := <[k := body']> s) in *. clearbody s1.
  unfold bind at 1.
  destruct (s1 !! KEY_NEED_REVIEW) as [lp|] eqn:Hlp; [|discriminate].
  unfold bind at 1, lift.
  destruct (Py.contains (JStr k) lp) as [[|]|?] eqn:Hc; try discriminate.
  - unfold bind at 1, lift. destruct lp; simpl; try discriminate.
    destruct (Py.remove_first (JStr k) items) as [r0|] eqn:Hr;
      simpl; [|discriminate].
    unfold bind, ret. simpl. intros H; inversion H; subst; clear H.
    eexists. split; [apply lookup_insert_eq|]. simpl. f_equal.
    apply list_contains_absent.
    eapply distinct_removed_absent; [|exact Hr]. now apply H1.
  - unfold bind, ret. simpl. intros H; inversion H; subst; clear H.
    eexists. split; [apply lookup_insert_eq | exact Hc].
Qed.

(** C6: start from an absent or empty pending list and serve any sequence
    of register and approve requests.  When one of them registered [k] and
    none registered the key ['KEY_NEED_REVIEW'] itself, [Approve(k)] returns
    200 with the record, the record stored at [k] has status ['approved'],
    [Show(k)] returns it, and the list stored at [KEY_NEED_REVIEW] does not
    contain [k].  Without these conditions the same holds whenever
    [Approve(k)] returns: the record at [k] is approved and shown, and
    [k in] the value stored at [KEY_NEED_REVIEW] is false. *)
Theorem approve_marks_approved_and_dequeues
    (cs : list registry_call) (s0 : gmap string json) (k : string) :
  fresh_registry s0 ->
  (Exists (registers k) cs ->
   Forall (fun c => ~ registers KEY_NEED_REVIEW c) cs ->
   exists s' d l,
     Approve k (run cs s0) = (s', Ok (wrap_response (JObj d) 200)) /\
     s' !! k = Some (JObj d) /\
     Py.dict_get "status" d = Some (JStr "approved") /\
     ShowUser k s' = (s', Ok (wrap_response (JObj d) 200)) /\
     s' !! KEY_NEED_REVIEW = Some (JArr l) /\
     ~ In (JStr k) l) /\
  (forall s' r,
      Approve k (run cs s0) = (s', Ok r) ->
      (exists d,
          s' !! k = Some (JObj d) /\
          Py.dict_get "status" d = Some (JStr "approved") /\
          ShowUser k s' = (s', Ok (wrap_response (JObj d) 200))) /\
      ~ in_pending k s' /\
      exists v,
        s' !! KEY_NEED_REVIEW = Some v /\ Py.contains (JStr k) v = Ok false).
Proof.
  intros H0.
  assert (Hok : pending_ok (run cs s0)).
  { apply run_keeps. now apply fresh_registry_ok. }
  assert (Hcond : forall s' r,
      Approve k (run cs s0) = (s', Ok r) ->
      (exists d,
          s' !! k = Some (JObj d) /\
          Py.dict_get "status" d = Some (JStr "approved") /\
          ShowUser k s' = (s', Ok (wrap_response (JObj d) 200))) /\
      ~ in_pending k s' /\
      exists v,
        s' !! KEY_NEED_REVIEW = Some v /\ Py.contains (JStr k) v = Ok false).
  { intros s' r Hrun.
    destruct (approve_result (run cs s0) k s' r Hok Hrun)
      as ((d & Hd & Hst & _) & Hnot).
    split; [|split; [exact Hnot|]].
    - exists d. repeat split; auto. now apply show_user_lookup.
    - eapply approve_result_absent; eauto. }
  split; [|exact Hcond].
  intros Hreg Hall.
  assert (Hr0 : registry_ready s0).
  { destruct H0 as [H | H]; [now left | right; eauto]. }
  destruct (run_registered cs s0 k Hr0 Hall) as [_ Hk].
  destruct (Hk Hreg) as ((d & Hd) & (l & Hl)).
  pose proof (approve_run (run cs s0) k d l Hd Hl) as Hrun.
  destruct (Hcond _ _ Hrun) as ((d' & Hd' & Hst & Hshow) & Hnot & _).
  assert (Hne : k <> KEY_NEED_REVIEW).
  { intros ->. rewrite Hd in Hl. discriminate. }
  rewrite lookup_insert_ne in Hd' by congruence.
  rewrite lookup_insert_eq in Hd'. inversion Hd'; subst d'.
  eexists _, _, _. split; [exact Hrun|].
  split; [rewrite lookup_insert_ne by congruence; apply lookup_insert_eq|].
  split; [exact Hst|]. split; [exact Hshow|].
  split; [apply lookup_insert_eq|].
  intros Hin. apply Hnot. eexists. split; [apply lookup_insert_eq | exact Hin].
Qed.

Lemma approve_marks_approved_and_dequeues_witness :
  exists s' d l,
    Approve "alice"
      (run [CallRegister (POST (JObj [("public_key", JStr "alice")]));
            CallRegister (POST (JObj [("public_key", JStr "bob")]))] ∅) =
      (s', Ok (wrap_response (JObj d) 200)) /\
    s' !! "alice" = Some (JObj d) /\
    Py.dict_get "status" d = Some (JStr "approved") /\
    ShowUser "alice" s' = (s', Ok (wrap_response (JObj d) 200)) /\
    s' !! KEY_NEED_REVIEW = Some (JArr l) /\
    ~ In (JStr "alice") l.
Proof.
  destruct (approve_marks_approved_and_dequeues
              [CallRegister (POST (JObj [("public_key", JStr "alice")]));
               CallRegister (POST (JObj [("public_key", JStr "bob")]))]
              ∅ "alice") as [H _].
  - left. vm_compute. reflexivity.
  - apply H.
    + apply Exists_cons_hd. simpl. split; [reflexivity|].
      eexists. split; reflexivity.
    + repeat constructor; intros (_ & d & Hb & Hd); simpl in Hb;
        inversion Hb; subst; simpl in Hd; discriminate.
Defined.

(** ** More on [create_will] *)

Lemma index_writes_only_refl s : index_writes_only s s.
Proof. intros key. now left. Qed.

Lemma index_writes_only_trans s s1 s2 :
  index_writes_only s s1 -> index_writes_only s1 s2 -> index_writes_only s s2.
Proof.
  intros H1 H2 key. destruct (H2 key) as [E | E]; [|now right].
  rewrite E. apply H1.
Qed.

Lemma index_witness_step t s wn :
  index_ready s wn ->
  exists s1,
    index_witness (JStr t) tt wn s = (s1, Ok tt) /\
    indexed t s1 wn /\
    (forall t' wn', indexed t' s wn' -> indexed t' s1 wn') /\
    lists_kept s s1 /\
    index_writes_only s s1.
Proof.
  intros (o & w & -> & Hpk & Hs).
  unfold index_witness, bind, lift, ret, try_client, get_value, client_show,
    client_set. simpl. rewrite Hpk. simpl.
  assert (Hnew : forall l,
             (s !! (WILL_LIST_PREFIX +:+ w) = None /\ l = [] \/
              s !! (WILL_LIST_PREFIX +:+ w) = Some (JArr l)) ->
             let s1 := <[WILL_LIST_PREFIX +:+ w := JArr (l ++ [JStr t])]> s in
             indexed t s1 (JObj o) /\
             (forall t' wn', indexed t' s wn' -> indexed t' s1 wn') /\
             lists_kept s s1 /\ index_writes_only s s1).
  { intros l Hl s1. subst s1. split; [|split; [|split]].
    - exists o, w, (l ++ [JStr t]). repeat split; auto.
      + apply lookup_insert_eq.
      + apply in_or_app. right. now left.
    - intros t' wn' (o' & w' & l' & -> & Hpk' & Hl' & Hin).
      destruct (decide (w' = w)) as [-> | Hne].
      + exists o', w, (l ++ [JStr t]). repeat split; auto.
        * apply lookup_insert_eq.
        * apply in_or_app. left.
          destruct Hl as [[Hl _] | Hl]; rewrite Hl in Hl'; [discriminate|].
          now inversion Hl'.
      + exists o', w', l'. repeat split; auto.
        rewrite lookup_insert_ne; [exact Hl'|].
        intros E. apply Hne. unfold WILL_LIST_PREFIX in E. simpl in E.
        now inversion E.
    - apply lists_kept_insert.
    - intros key. destruct (decide (WILL_LIST_PREFIX +:+ w = key)) as [<- | Hne].
      + right. eauto.
      + left. now apply lookup_insert_ne. }
  destruct Hs as [Hs | [l Hs]]; rewrite Hs; simpl.
  - eexists. split; [reflexivity|]. apply (Hnew []). now left.
  - destruct (Py.list_contains (JStr t) l) eqn:Hc; simpl.
    + exists s. split; [reflexivity|]. split; [|split; [|split]]; auto.
      * exists o, w, l. repeat split; auto. now apply list_contains_str_true.
      * apply lists_kept_refl.
      * apply index_writes_only_refl.
    + eexists. split; [reflexivity|]. apply (Hnew l). now right.
Qed.

Lemma index_loop_run t ws : forall s,
  Forall (index_ready s) ws ->
  exists s1,
    for_each (index_witness (JStr t)) ws tt s = (s1, Ok tt) /\
    Forall (indexed t s1) ws /\
    (forall t' wn', indexed t' s wn' -> indexed t' s1 wn') /\
    lists_kept s s1 /\
    index_writes_only s s1.
Proof.
  induction ws as [|wn ws IH]; intros s Hall; simpl.
  - exists s. repeat split; auto.
    + apply lists_kept_refl.
    + apply index_writes_only_refl.
  - inversion Hall as [|? ? Hwn Hws]; subst.
    destruct (index_witness_step t s wn Hwn) as (s1 & E & Hi & Hmono & Hk & Hw).
    unfold bind. rewrite E.
    destruct (IH s1) as (s2 & E2 & Hall2 & Hmono2 & Hk2 & Hw2).
    { eapply Forall_impl; [exact Hws|]. intros a. now apply index_ready_kept. }
    exists s2. split; [exact E2|]. split; [|split; [|split]].
    + constructor; auto.
    + auto.
    + intros key. destruct (Hk2 key) as [E' | E']; [|now right].
      rewrite E'. apply Hk.
    + eapply index_writes_only_trans; eauto.
Qed.

Lemma index_loop_noop t ws s :
  Forall (indexed t s) ws ->
  for_each (index_witness (JStr t)) ws tt s = (s, Ok tt).
Proof.
  induction 1 as [|wn ws (o & w & l & -> & Hpk & Hl & Hin) _ IH]; simpl;
    [reflexivity|].
  unfold bind at 1.
  assert (E : index_witness (JStr t) tt (JObj o) s = (s, Ok tt)).
  { unfold index_witness, bind, lift, ret, try_client, get_value, client_show.
    simpl. rewrite Hpk. simpl. rewrite Hl. simpl.
    apply list_contains_str_true in Hin. now rewrite Hin. }
  rewrite E. exact IH.
Qed.

(** [create_will] on a request with a non-empty witness list, in terms of
    its indexing loop. *)
Lemma create_will_with_witnesses_run s d t wn ws :
  Py.dict_get "public_key" d = Some (JStr t) ->
  Py.dict_get "witnesses" d = Some (JArr (wn :: ws)) ->
  CreateWill (JObj d) s =
    match for_each (index_witness (JStr t)) (wn :: ws) tt s with
    | (s1, Ok _) =>
        (<[WILL_PREFIX +:+ t := JObj d]> s1, Ok (wrap_response processing 200))
    | (s1, Raise e) => (s1, Raise e)
    end.
Proof.
  intros Hpk Hw. unfold CreateWill, create_will, bind, lift, ret. simpl.
  rewrite (dict_has_get _ _ _ Hpk). simpl. rewrite Hpk.
  unfold Py.dict_has. rewrite Hw. simpl.
  destruct (bind _ _ s) as [s1 [[]|e]]; reflexivity.
Qed.


Lemma indexed_after_will_write t t' s wn body :
  (forall w, WILL_PREFIX +:+ t <> WILL_LIST_PREFIX +:+ w) ->
  indexed t' s wn -> indexed t' (<[WILL_PREFIX +:+ t := body]> s) wn.
Proof.
  intros Hclash (o & w & l & -> & Hpk & Hl & Hin).
  exists o, w, l. repeat split; auto.
  rewrite lookup_insert_ne; auto.
Qed.

(** X15: when every witness entry can be indexed and the will key is not an
    index key, [create_will] returns the [processing] acknowledgement and
    afterwards the index of every named witness is a list that contains the
    testator; whatever an index listed before, it still lists. *)
Theorem create_will_indexes_every_witness
    (s : gmap string json) (d : list (string * json)) (t : string)
    (wn : json) (ws : list json) :
  Py.dict_get "public_key" d = Some (JStr t) ->
  Py.dict_get "witnesses" d = Some (JArr (wn :: ws)) ->
  Forall (index_ready s) (wn :: ws) ->
  (forall w, WILL_PREFIX +:+ t <> WILL_LIST_PREFIX +:+ w) ->
  snd (CreateWill (JObj d) s) = Ok (wrap_response processing 200) /\
  Forall (indexed t (fst (CreateWill (JObj d) s))) (wn :: ws) /\
  (forall t' wn', indexed t' s wn' ->
                  indexed t' (fst (CreateWill (JObj d) s)) wn').
Proof.
  intros Hpk Hw Hall Hclash.
  rewrite (create_will_with_witnesses_run s d t wn ws Hpk Hw).
  destruct (index_loop_run t (wn :: ws) s Hall)
    as (s1 & E & Hind & Hmono & Hk & Hwr).
  rewrite E. simpl. split; [reflexivity|]. split.
  - eapply Forall_impl; [exact Hind|].
    intros a. now apply indexed_after_will_write.
  - intros t' wn' Hi. apply indexed_after_will_write; auto.
Qed.

Lemma create_will_indexes_every_witness_witness :
  snd (CreateWill (will_request "alice" [witness_entry "bob"; witness_entry "carol"])
         (<["WILL_LIST_bob" := JArr [JStr "dave"]]> ∅)) =
    Ok (wrap_response processing 200) /\
  Forall (indexed "alice"
            (fst (CreateWill
                    (will_request "alice"
                       [witness_entry "bob"; witness_entry "carol"])
                    (<["WILL_LIST_bob" := JArr [JStr "dave"]]> ∅))))
         [witness_entry "bob"; witness_entry "carol"].
Proof.
  pose proof (create_will_indexes_every_witness
                (<["WILL_LIST_bob" := JArr [JStr "dave"]]> ∅)
                [("public_key", JStr "alice");
                 ("witnesses", JArr [witness_entry "bob"; witness_entry "carol"])]
                "alice" (witness_entry "bob") [witness_entry "carol"]
                eq_refl eq_refl) as H.
  destruct H as (H1 & H2 & _).
  - constructor; [|constructor; [|constructor]].
    + exists [("public_key", JStr "bob")], "bob".
      split; [reflexivity|]. split; [reflexivity|].
      right. eexists. vm_compute. reflexivity.
    + exists [("public_key", JStr "carol")], "carol".
      split; [reflexivity|]. split; [reflexivity|].
      left. vm_compute. reflexivity.
  - intros w H. simpl in H. discriminate.
  - split; [exact H1 | exact H2].
Defined.

Lemma create_will_no_witness_run s d t :
  Py.dict_get "public_key" d = Some (JStr t) ->
  Py.dict_get "witnesses" d = None \/
  Py.dict_get "witnesses" d = Some (JArr []) ->
  CreateWill (JObj d) s =
    (<[WILL_PREFIX +:+ t := JObj (Py.dict_set "status" (JStr "valid") d)]> s,
     Ok (wrap_response processing 200)).
Proof.
  intros Hpk Hw. unfold CreateWill, create_will, bind, lift, ret. simpl.
  rewrite (dict_has_get _ _ _ Hpk). simpl. rewrite Hpk.
  unfold Py.dict_has. destruct Hw as [Hw | Hw]; rewrite Hw; reflexivity.
Qed.

(** X16: creating the same will a second time changes nothing: the witness
    indexes already list the testator, so the loop writes nothing, and the
    will is written back as it is. *)
Theorem create_will_twice_is_create_will_once
    (s : gmap string json) (d : list (string * json)) (t : string) :
  Py.dict_get "public_key" d = Some (JStr t) ->
  witnesses_ready s d ->
  (forall w, WILL_PREFIX +:+ t <> WILL_LIST_PREFIX +:+ w) ->
  CreateWill (JObj d) (fst (CreateWill (JObj d) s)) =
    (fst (CreateWill (JObj d) s), Ok (wrap_response processing 200)).
Proof.
  intros Hpk Hready Hclash.
  assert (Hnone : Py.dict_get "witnesses" d = None \/
                  Py.dict_get "witnesses" d = Some (JArr []) ->
                  CreateWill (JObj d) (fst (CreateWill (JObj d) s)) =
                  (fst (CreateWill (JObj d) s),
                   Ok (wrap_response processing 200))).
  { intros Hw. rewrite !(create_will_no_witness_run _ d t Hpk Hw). simpl.
    now rewrite insert_insert_eq. }
  destruct Hready as [Hw | (ws & Hw & Hall)]; [now apply Hnone; left|].
  destruct ws as [|wn ws]; [now apply Hnone; right|].
  rewrite (create_will_with_witnesses_run s d t wn ws Hpk Hw).
  destruct (index_loop_run t (wn :: ws) s Hall)
    as (s1 & E & Hind & _ & _ & _).
  rewrite E. cbn [fst].
  rewrite (create_will_with_witnesses_run _ d t wn ws Hpk Hw).
  rewrite index_loop_noop.
  - now rewrite insert_insert_eq.
  - eapply Forall_impl; [exact Hind|].
    intros a. now apply indexed_after_will_write.
Qed.

Lemma create_will_twice_is_create_will_once_witness :
  CreateWill (will_request "alice" [witness_entry "bob"])
    (fst (CreateWill (will_request "alice" [witness_entry "bob"]) ∅)) =
  (fst (CreateWill (will_request "alice" [witness_entry "bob"]) ∅),
   Ok (wrap_response processing 200)).
Proof.
  apply (create_will_twice_is_create_will_once ∅ _ "alice").
  - reflexivity.
  - right. eexists. split; [reflexivity|].
    constructor; [|constructor].
    exists [("public_key", JStr "bob")], "bob".
    split; [reflexivity|]. split; [reflexivity|].
    left. vm_compute. reflexivity.
  - intros w H. simpl in H. discriminate.
Defined.

Lemma index_loop_stops t o l2 l1 : forall s,
  Forall (index_ready s) l1 ->
  Py.dict_get "public_key" o = None ->
  exists s1,
    for_each (index_witness (JStr t)) (l1 ++ JObj o :: l2) tt s =
      (s1, Raise KeyError) /\
    Forall (indexed t s1) l1 /\
    (forall t' wn', indexed t' s wn' -> indexed t' s1 wn') /\
    index_writes_only s s1.
Proof.
  induction l1 as [|wn l1 IH]; intros s Hall Ho; simpl.
  - exists s. split; [|split; [constructor | split; auto]].
    + unfold bind at 1. unfold index_witness, bind, lift. simpl.
      now rewrite Ho.
    + apply index_writes_only_refl.
  - inversion Hall as [|? ? Hwn Hl1]; subst.
    destruct (index_witness_step t s wn Hwn) as (s1 & E & Hi & Hmono & Hk & Hw).
    unfold bind at 1. rewrite E.
    destruct (IH s1) as (s2 & E2 & Hall2 & Hmono2 & Hw2); auto.
    { eapply Forall_impl; [exact Hl1|]. intros a. now apply index_ready_kept. }
    exists s2. split; [exact E2|]. split; [|split].
    + constructor; auto.
    + auto.
    + eapply index_writes_only_trans; eauto.
Qed.

(** X17: the index writes and the will write of [create_will] are not
    atomic.  When a witness entry without [public_key] follows entries that
    can be indexed, and the will key ['WILL_' + t] is not itself an index
    key, the handler raises [KeyError] at that entry: the will is not
    written, while the indexes of the earlier witnesses already list the
    testator. *)
Theorem create_will_stops_at_a_bad_witness_entry
    (s : gmap string json) (d o : list (string * json)) (t : string)
    (l1 l2 : list json) :
  Py.dict_get "public_key" d = Some (JStr t) ->
  Py.dict_get "witnesses" d = Some (JArr (l1 ++ JObj o :: l2)) ->
  Py.dict_get "public_key" o = None ->
  Forall (index_ready s) l1 ->
  (forall w, WILL_PREFIX +:+ t <> WILL_LIST_PREFIX +:+ w) ->
  snd (CreateWill (JObj d) s) = Raise KeyError /\
  fst (CreateWill (JObj d) s) !! (WILL_PREFIX +:+ t) =
    s !! (WILL_PREFIX +:+ t) /\
  Forall (indexed t (fst (CreateWill (JObj d) s))) l1.
Proof.
  intros Hpk Hw Ho Hall Hclash.
  destruct (index_loop_stops t o l2 l1 s Hall Ho) as (s1 & E & Hind & _ & Hwr).
  assert (Hrun : CreateWill (JObj d) s = (s1, Raise KeyError)).
  { destruct l1 as [|wn l1]; simpl in Hw, E.
    - rewrite (create_will_with_witnesses_run s d t (JObj o) l2 Hpk Hw).
      simpl. now rewrite E.
    - rewrite (create_will_with_witnesses_run s d t wn (l1 ++ JObj o :: l2)
                 Hpk Hw).
      simpl. now rewrite E. }
  rewrite Hrun. simpl. split; [reflexivity|]. split; [|exact Hind].
  destruct (Hwr (WILL_PREFIX +:+ t)) as [E' | [w E']]; [exact E'|].
  now destruct (Hclash w).
Qed.

Lemma create_will_stops_at_a_bad_witness_entry_witness :
  snd (CreateWill
         (will_request "alice" [witness_entry "bob"; JObj [("name", JStr "x")]])
         ∅) = Raise KeyError /\
  fst (CreateWill
         (will_request "alice" [witness_entry "bob"; JObj [("name", JStr "x")]])
         ∅) !! (WILL_PREFIX +:+ "alice") =
    (∅ : gmap string json) !! (WILL_PREFIX +:+ "alice") /\
  Forall (indexed "alice"
            (fst (CreateWill
                    (will_request "alice"
                       [witness_entry "bob"; JObj [("name", JStr "x")]])
                    ∅)))
         [witness_entry "bob"].
Proof.
  apply (create_will_stops_at_a_bad_witness_entry
           ∅ _ [("name", JStr "x")] "alice" [witness_entry "bob"] []).
  - reflexivity.
  - reflexivity.
  - reflexivity.
  - constructor; [|constructor].
    exists [("public_key", JStr "bob")], "bob".
    split; [reflexivity|]. split; [reflexivity|].
    left. vm_compute. reflexivity.
  - intros w H. simpl in H. discriminate.
Defined.

(** ** More on [witness_sign] *)

Lemma counts_when_only_signer_unsigned w ws :
  Forall (fun wn => entry_signed wn = negb (entry_names w wn)) ws ->
  count_signed ws + count_named w ws = length ws.
Proof.
  unfold count_signed, count_named.
  induction 1 as [|wn ws Hwn _ IH]; simpl; [reflexivity|].
  rewrite Hwn. destruct (entry_names w wn); simpl; lia.
Qed.

(** X18: when the entries naming [w] are exactly the unsigned ones (every
    other witness has signed, [w] has not), [Sign] by [w] answers 200 and
    writes the will back with [status = 'valid']. *)
Theorem last_missing_signature_makes_the_will_valid
    (s : gmap string json) (t w : string) (d : list (string * json))
    (ws : list json) :
  s !! (WILL_PREFIX +:+ t) = Some (JObj d) ->
  Py.dict_get "witnesses" d = Some (JArr ws) ->
  Forall entry_ok ws ->
  listed w ws ->
  Forall (fun wn => entry_signed wn = negb (entry_names w wn)) ws ->
  exists d',
    Sign t w s =
      (<[WILL_PREFIX +:+ t := JObj d']> s, Ok (wrap_response (JObj d') 200)) /\
    Py.dict_get "status" d' = Some (JStr "valid").
Proof.
  intros Hs Hw Hall Hin Hlast.
  rewrite (sign_on_wellformed_will s t w d ws Hs Hw Hall).
  apply listed_names in Hin. rewrite Hin. unfold after_sign.
  rewrite (counts_when_only_signer_unsigned w ws Hlast), Nat.eqb_refl.
  eexists. split; [reflexivity | apply dict_get_set_eq].
Qed.

Lemma last_missing_signature_makes_the_will_valid_witness :
  exists d',
    Sign "alice" "carol"
      (<["WILL_alice" :=
           JObj [("public_key", JStr "alice");
                 ("witnesses",
                  JArr [JObj [("public_key", JStr "bob");
                              ("status", JStr "signed")];
                        witness_entry "carol"])]]> ∅) =
      (<[WILL_PREFIX +:+ "alice" := JObj d']>
         (<["WILL_alice" :=
              JObj [("public_key", JStr "alice");
                    ("witnesses",
                     JArr [JObj [("public_key", JStr "bob");
                                 ("status", JStr "signed")];
                           witness_entry "carol"])]]> ∅),
       Ok (wrap_response (JObj d') 200)) /\
    Py.dict_get "status" d' = Some (JStr "valid").
Proof.
  eapply last_missing_signature_makes_the_will_valid.
  - vm_compute. reflexivity.
  - reflexivity.
  - repeat constructor; eexists _, _; split; reflexivity.
  - eexists. split; [right; left; reflexivity | reflexivity].
  - repeat constructor.
Defined.

Lemma counts_below_length w ws :
  Forall (fun wn => entry_names w wn = true -> entry_signed wn = false) ws ->
  Exists (fun wn => entry_names w wn = false /\ entry_signed wn = false) ws ->
  count_signed ws + count_named w ws < length ws.
Proof.
  unfold count_signed, count_named. intros Hall Hex.
  assert (Hle : forall l,
             Forall (fun wn => entry_names w wn = true ->
                               entry_signed wn = false) l ->
             length (List.filter entry_signed l) +
             length (List.filter (entry_names w) l) <= length l).
  { induction 1 as [|wn l Hwn _ IH]; simpl; [lia|].
    destruct (entry_names w wn) eqn:En.
    - rewrite (Hwn eq_refl). simpl. lia.
    - destruct (entry_signed wn); simpl; lia. }
  induction Hex as [wn l (Hn & Hsg) | wn l _ IH]; simpl;
    inversion Hall as [|? ? Hwn Hl]; subst.
  - rewrite Hn, Hsg. specialize (Hle l Hl). lia.
  - specialize (IH Hl). destruct (entry_names w wn) eqn:En.
    + rewrite (Hwn eq_refl). simpl. lia.
    + destruct (entry_signed wn); simpl; lia.
Qed.

(** X19: a first signature does not validate the will while someone else is
    missing: when no entry naming [w] is signed yet and some other entry is
    unsigned, [Sign] by [w] answers 200 and writes the will back with the
    [status] it had (none, if it had none). *)
Theorem first_signature_does_not_validate_early
    (s : gmap string json) (t w : string) (d : list (string * json))
    (ws : list json) :
  s !! (WILL_PREFIX +:+ t) = Some (JObj d) ->
  Py.dict_get "witnesses" d = Some (JArr ws) ->
  Forall entry_ok ws ->
  listed w ws ->
  Forall (fun wn => entry_names w wn = true -> entry_signed wn = false) ws ->
  Exists (fun wn => entry_names w wn = false /\ entry_signed wn = false) ws ->
  exists d',
    Sign t w s =
      (<[WILL_PREFIX +:+ t := JObj d']> s, Ok (wrap_response (JObj d') 200)) /\
    Py.dict_get "status" d' = Py.dict_get "status" d.
Proof.
  intros Hs Hw Hall Hin Hfirst Hmissing.
  rewrite (sign_on_wellformed_will s t w d ws Hs Hw Hall).
  apply listed_names in Hin. rewrite Hin. unfold after_sign.
  pose proof (counts_below_length w ws Hfirst Hmissing) as Hlt.
  destruct (Nat.eqb_spec (count_signed ws + count_named w ws) (length ws));
    [lia|].
  eexists. split; [reflexivity|]. now apply dict_get_set_ne.
Qed.

Lemma first_signature_does_not_validate_early_witness :
  exists d',
    Sign "alice" "bob"
      (<["WILL_alice" :=
           will_request "alice" [witness_entry "bob"; witness_entry "carol"]]>
         ∅) =
      (<[WILL_PREFIX +:+ "alice" := JObj d']>
         (<["WILL_alice" :=
              will_request "alice"
                [witness_entry "bob"; witness_entry "carol"]]> ∅),
       Ok (wrap_response (JObj d') 200)) /\
    Py.dict_get "status" d' =
    Py.dict_get "status"
      [("public_key", JStr "alice");
       ("witnesses", JArr [witness_entry "bob"; witness_entry "carol"])].
Proof.
  eapply first_signature_does_not_validate_early.
  - vm_compute. reflexivity.
  - reflexivity.
  - repeat constructor; eexists _, _; split; reflexivity.
  - eexists. split; [left; reflexivity | reflexivity].
  - repeat constructor; simpl; discriminate.
  - right. left. split; reflexivity.
Defined.

Lemma mark_signed_spec w wn :
  entry_ok wn ->
  (entry_names w wn = true ->
   entry_signed (mark_signed w wn) = true /\
   entry_names w (mark_signed w wn) = true) /\
  (entry_names w wn = false -> mark_signed w wn = wn).
Proof.
  intros (o & pk & -> & Hpk). unfold mark_signed. split; intros Hn; rewrite Hn.
  - split; simpl.
    + now rewrite dict_get_set_eq.
    + rewrite dict_get_set_ne by discriminate.
      simpl in Hn. exact Hn.
  - reflexivity.
Qed.

(** X20: a successful [Sign] by [w] marks the entries naming [w] as signed
    and changes nothing else: the written witness list has the same entries
    in the same order, those naming [w] now signed, the others identical,
    and every field of the will other than [witnesses] and [status] keeps
    its value. *)
Theorem sign_marks_the_signer_and_nothing_else
    (s : gmap string json) (t w : string) (d : list (string * json))
    (ws : list json) :
  s !! (WILL_PREFIX +:+ t) = Some (JObj d) ->
  Py.dict_get "witnesses" d = Some (JArr ws) ->
  Forall entry_ok ws ->
  listed w ws ->
  exists d' ws',
    fst (Sign t w s) !! (WILL_PREFIX +:+ t) = Some (JObj d') /\
    Py.dict_get "witnesses" d' = Some (JArr ws') /\
    Forall2 (fun wn wn' =>
               (entry_names w wn = true ->
                entry_signed wn' = true /\ entry_names w wn' = true) /\
               (entry_names w wn = false -> wn' = wn)) ws ws' /\
    (forall f, f <> "witnesses" -> f <> "status" ->
               Py.dict_get f d' = Py.dict_get f d).
Proof.
  intros Hs Hw Hall Hin.
  rewrite (sign_on_wellformed_will s t w d ws Hs Hw Hall).
  apply listed_names in Hin. rewrite Hin. simpl. rewrite lookup_insert_eq.
  assert (Hmarks :
            Forall2 (fun wn wn' =>
                       (entry_names w wn = true ->
                        entry_signed wn' = true /\ entry_names w wn' = true) /\
                       (entry_names w wn = false -> wn' = wn))
                    ws (map (mark_signed w) ws)).
  { clear Hs Hw Hin. induction Hall as [|wn ws Hwn _ IH]; simpl; constructor.
    - now apply mark_signed_spec.
    - exact IH. }
  unfold after_sign.
  destruct (Nat.eqb _ _); eexists _, (map (mark_signed w) ws);
    (split; [reflexivity|]).
  - split; [|split; [exact Hmarks|]].
    + rewrite dict_get_set_ne by discriminate. apply dict_get_set_eq.
    + intros f Hf1 Hf2. rewrite dict_get_set_ne by exact Hf2.
      now apply dict_get_set_ne.
  - split; [|split; [exact Hmarks|]].
    + apply dict_get_set_eq.
    + intros f Hf1 Hf2. now apply dict_get_set_ne.
Qed.

Lemma sign_marks_the_signer_and_nothing_else_witness :
  exists d' ws',
    fst (Sign "alice" "bob"
           (<["WILL_alice" :=
                will_request "alice"
                  [witness_entry "bob"; witness_entry "carol"]]> ∅))
      !! (WILL_PREFIX +:+ "alice") = Some (JObj d') /\
    Py.dict_get "witnesses" d' = Some (JArr ws') /\
    Forall2 (fun wn wn' =>
               (entry_names "bob" wn = true ->
                entry_signed wn' = true /\ entry_names "bob" wn' = true) /\
               (entry_names "bob" wn = false -> wn' = wn))
            [witness_entry "bob"; witness_entry "carol"] ws' /\
    (forall f, f <> "witnesses" -> f <> "status" ->
               Py.dict_get f d' =
               Py.dict_get f
                 [("public_key", JStr "alice");
                  ("witnesses",
                   JArr [witness_entry "bob"; witness_entry "carol"])]).
Proof.
  eapply sign_marks_the_signer_and_nothing_else.
  - vm_compute. reflexivity.
  - reflexivity.
  - repeat constructor; eexists _, _; split; reflexivity.
  - eexists. split; [left; reflexivity | reflexivity].
Defined.

(** X21: [witness_sign] writes at most the will key: every other key of the
    ledger, the witness indexes included, keeps its value, and unless the
    answer is a 200 with the will the ledger is exactly as before. *)
Theorem sign_touches_only_the_will
    (s s' : gmap string json) (t w : string) (r : result response) :
  Sign t w s = (s', r) ->
  (forall j, j <> WILL_PREFIX +:+ t -> s' !! j = s !! j) /\
  ((forall body, r <> Ok (wrap_response body 200)) -> s' = s).
Proof.
  intros Hrun.
  destruct (sign_writes_only_on_success s t w s' r Hrun)
    as [-> | (body & -> & ->)].
  - split; auto.
  - split.
    + intros j Hj. now apply lookup_insert_ne.
    + intros Hno. now destruct (Hno body).
Qed.

Lemma sign_touches_only_the_will_witness :
  fst (Sign "alice" "bob"
         (<["WILL_LIST_bob" := JArr [JStr "alice"]]>
            (<["WILL_alice" := will_request "alice" [witness_entry "bob"]]> ∅)))
    !! "WILL_LIST_bob" =
  (<["WILL_LIST_bob" := JArr [JStr "alice"]]>
     (<["WILL_alice" := will_request "alice" [witness_entry "bob"]]> ∅)
   : gmap string json) !! "WILL_LIST_bob".
Proof.
  apply (proj1 (sign_touches_only_the_will
                  (<["WILL_LIST_bob" := JArr [JStr "alice"]]>
                     (<["WILL_alice" :=
                          will_request "alice" [witness_entry "bob"]]> ∅))
                  _ "alice" "bob" _ (surjective_pairing _))).
  discriminate.
Defined.

(** ** More on [show_will_list] *)

Lemma will_list_entry s acc e :
  try_any
    (let* name := lift (Py.str_add WILL_PREFIX e) in
     let* will := get_value (JStr name) in
     let* testator_key := lift (Py.getitem will "public_key") in
     let* testator := get_value testator_key in
     let* will := lift (Py.setitem will "testator" testator) in
     ret (acc ++ [will]))
    (ret acc) s =
  (s, Ok (acc ++ match will_view s e with Some v => [v] | None => [] end)).
Proof.
  unfold try_any, bind, lift, ret, get_value, client_show, will_view.
  destruct e as [| | |k| |]; simpl; try (now rewrite app_nil_r).
  destruct (s !! (WILL_PREFIX +:+ k)) as [will|]; [|now rewrite app_nil_r].
  destruct will as [| | | | |dw]; simpl; try (now rewrite app_nil_r).
  destruct (Py.dict_get "public_key" dw) as [pk|]; [|now rewrite app_nil_r].
  destruct pk as [| | |p| |]; simpl; try (now rewrite app_nil_r).
  destruct (s !! p); simpl; [reflexivity | now rewrite app_nil_r].
Qed.

Lemma will_list_loop s l : forall acc,
  for_each (fun will_list will_pubkey =>
              try_any
                (let* name := lift (Py.str_add WILL_PREFIX will_pubkey) in
                 let* will := get_value (JStr name) in
                 let* testator_key := lift (Py.getitem will "public_key") in
                 let* testator := get_value testator_key in
                 let* will := lift (Py.setitem will "testator" testator) in
                 ret (will_list ++ [will]))
                (ret will_list))
           l acc s =
  (s, Ok (acc ++ will_views s l)).
Proof.
  induction l as [|e l IH]; intros acc; simpl.
  - now rewrite app_nil_r.
  - unfold bind at 1. rewrite will_list_entry. rewrite IH.
    destruct (will_view s e); simpl; rewrite <- app_assoc; reflexivity.
Qed.

Lemma will_list_run s w :
  (s !! (WILL_LIST_PREFIX +:+ w) = None ->
   ListForWitness w s = (s, Ok (wrap_response (JArr []) 200))) /\
  (forall l, s !! (WILL_LIST_PREFIX +:+ w) = Some (JArr l) ->
   ListForWitness w s = (s, Ok (wrap_response (JArr (will_views s l)) 200))).
Proof.
  split.
  - intros Hn. unfold ListForWitness, show_will_list. simpl.
    unfold bind at 1, try_client, get_value at 1, client_show. rewrite Hn.
    reflexivity.
  - intros l Hl. unfold ListForWitness, show_will_list. simpl.
    unfold bind at 1, try_client, get_value at 1, client_show. rewrite Hl.
    unfold bind at 1, lift. simpl. unfold bind at 1.
    rewrite will_list_loop. reflexivity.
Qed.

Lemma will_views_spec s l :
  length (will_views s l) <= length l /\
  Forall (fun v => exists will te,
              v = JObj will /\ Py.dict_get "testator" will = Some te)
         (will_views s l) /\
  forall e v, In e l -> will_view s e = Some v -> In v (will_views s l).
Proof.
  induction l as [|e l (IH1 & IH2 & IH3)]; simpl.
  - split; [lia|]. split; [constructor|]. intros e v [].
  - destruct (will_view s e) as [v|] eqn:Ev; simpl.
    + split; [lia|]. split.
      * constructor; [|exact IH2].
        unfold will_view in Ev. repeat case_match; try discriminate.
        inversion Ev; subst. eexists _, _. split; [reflexivity|].
        apply dict_get_set_eq.
      * intros e' v' [-> | Hin] Hv.
        -- rewrite Ev in Hv. inversion Hv. now left.
        -- right. eapply IH3; eauto.
    + split; [lia|]. split; [exact IH2|].
      intros e' v' [-> | Hin] Hv; [congruence|]. eapply IH3; eauto.
Qed.

Lemma will_views_in s l v :
  In v (will_views s l) <-> exists e, In e l /\ will_view s e = Some v.
Proof.
  induction l as [|e l IH]; simpl.
  - split; [intros [] | intros (e & [] & _)].
  - destruct (will_view s e) as [v0|] eqn:Ev; simpl; rewrite IH; split.
    + intros [<- | (e' & Hin & Hv)]; [exists e; auto | exists e'; auto].
    + intros (e' & [<- | Hin] & Hv); [left; congruence | right; eauto].
    + intros (e' & Hin & Hv). exists e'; auto.
    + intros (e' & [<- | Hin] & Hv); [congruence | eauto].
Qed.

(** X22: on a witness index that is absent or a list, [show_will_list]
    never fails: it answers 200 with exactly the wills of the index entries
    that resolve, in index order.  An entry resolves when it is a string
    [t], ['WILL_' + t] holds a dict and the [public_key] of that dict names
    a stored record; it then contributes the will with that record attached
    as [testator].  Every other entry is left out.  An absent index gives
    the empty list. *)
Theorem will_list_skips_and_never_fails
    (s : gmap string json) (w : string) (l : list json) :
  s !! (WILL_LIST_PREFIX +:+ w) = None /\ l = [] \/
  s !! (WILL_LIST_PREFIX +:+ w) = Some (JArr l) ->
  ListForWitness w s = (s, Ok (wrap_response (JArr (will_views s l)) 200)) /\
  (forall v, In v (will_views s l) <->
             exists e, In e l /\ will_view s e = Some v) /\
  length (will_views s l) <= length l /\
  Forall (fun v => exists will te,
              v = JObj will /\ Py.dict_get "testator" will = Some te)
         (will_views s l) /\
  (s !! (WILL_LIST_PREFIX +:+ w) = None -> will_views s l = []).
Proof.
  intros H.
  split.
  { destruct H as [[Hn ->] | Hl]; [simpl|]; now apply will_list_run. }
  split; [intros v; apply will_views_in|].
  destruct (will_views_spec s l) as (H1 & H2 & _).
  split; [exact H1|]. split; [exact H2|].
  intros Hn. destruct H as [[_ ->] | Hl]; [reflexivity | congruence].
Qed.

Lemma will_list_skips_and_never_fails_witness :
  ListForWitness "bob"
    (<["WILL_LIST_bob" := JArr [JStr "ghost"; JNum 7; JStr "alice"]]>
       (<["WILL_alice" := will_request "alice" [witness_entry "bob"]]>
          (<["alice" := JObj [("public_key", JStr "alice")]]> ∅))) =
    (<["WILL_LIST_bob" := JArr [JStr "ghost"; JNum 7; JStr "alice"]]>
       (<["WILL_alice" := will_request "alice" [witness_entry "bob"]]>
          (<["alice" := JObj [("public_key", JStr "alice")]]> ∅)),
     Ok (wrap_response
           (JArr [JObj [("public_key", JStr "alice");
                        ("witnesses", JArr [witness_entry "bob"]);
                        ("testator", JObj [("public_key", JStr "alice")])]])
           200)).
Proof.
  refine (eq_trans
            (proj1 (will_list_skips_and_never_fails
                      _ "bob" [JStr "ghost"; JNum 7; JStr "alice"] _)) _).
  - right. vm_compute. reflexivity.
  - vm_compute. reflexivity.
Defined.

(** X23: when the witness index lists testator [t], [t]'s will is a dict
    whose [public_key] names a stored record, [show_will_list] returns that
    will with the record attached under [testator]. *)
Theorem will_list_shows_the_will_with_its_testator
    (s : gmap string json) (w t pk : string) (l : list json)
    (will : list (string * json)) (te : json) :
  s !! (WILL_LIST_PREFIX +:+ w) = Some (JArr l) ->
  In (JStr t) l ->
  s !! (WILL_PREFIX +:+ t) = Some (JObj will) ->
  Py.dict_get "public_key" will = Some (JStr pk) ->
  s !! pk = Some te ->
  exists wills,
    ListForWitness w s = (s, Ok (wrap_response (JArr wills) 200)) /\
    In (JObj (Py.dict_set "testator" te will)) wills.
Proof.
  intros Hl Hin Hw Hpk Hte. exists (will_views s l).
  split; [now apply will_list_run|].
  destruct (will_views_spec s l) as (_ & _ & H3).
  apply (H3 (JStr t)); [exact Hin|].
  unfold will_view. now rewrite Hw, Hpk, Hte.
Qed.

Lemma will_list_shows_the_will_with_its_testator_witness :
  exists wills,
    ListForWitness "bob"
      (<["WILL_LIST_bob" := JArr [JStr "ghost"; JStr "alice"]]>
         (<["WILL_alice" := will_request "alice" [witness_entry "bob"]]>
            (<["alice" := JObj [("public_key", JStr "alice")]]> ∅))) =
      (<["WILL_LIST_bob" := JArr [JStr "ghost"; JStr "alice"]]>
         (<["WILL_alice" := will_request "alice" [witness_entry "bob"]]>
            (<["alice" := JObj [("public_key", JStr "alice")]]> ∅)),
       Ok (wrap_response (JArr wills) 200)) /\
    In (JObj (Py.dict_set "testator" (JObj [("public_key", JStr "alice")])
                [("public_key", JStr "alice");
                 ("witnesses", JArr [witness_entry "bob"])]))
       wills.
Proof.
  eapply (will_list_shows_the_will_with_its_testator _ "bob" "alice" "alice").
  - vm_compute. reflexivity.
  - right. left. reflexivity.
  - vm_compute. reflexivity.
  - reflexivity.
  - vm_compute. reflexivity.
Defined.

(** ** What the will handlers leave alone *)

Lemma will_keys_only_refl s : will_keys_only s s.
Proof. intros j _. reflexivity. Qed.

Lemma will_keys_only_trans s s1 s2 :
  will_keys_only s s1 -> will_keys_only s1 s2 -> will_keys_only s s2.
Proof. intros H1 H2 j Hj. rewrite (H2 j Hj). now apply H1. Qed.

Lemma will_keys_only_insert s x v :
  will_keys_only s (<[WILL_PREFIX +:+ x := v]> s).
Proof. intros j Hj. apply lookup_insert_ne. intros E. now apply (Hj x). Qed.

Lemma index_witness_frame pubkey wn s :
  will_keys_only s (fst (index_witness pubkey tt wn s)).
Proof.
  unfold index_witness, bind, lift, ret, try_client, get_value, client_show,
    client_set.
  destruct (Py.getitem wn "public_key") as [k|]; simpl;
    [|apply will_keys_only_refl].
  destruct k as [| | |w| |]; simpl; try apply will_keys_only_refl.
  assert (Hw : forall v,
             will_keys_only s (<[WILL_LIST_PREFIX +:+ w := v]> s)).
  { intros v. apply (will_keys_only_insert s ("LIST_" +:+ w)). }
  destruct (s !! (WILL_LIST_PREFIX +:+ w)) as [l|]; simpl.
  - destruct (Py.contains pubkey l) as [[|]|]; simpl;
      try apply will_keys_only_refl.
    destruct (Py.append l pubkey); simpl; [apply Hw | apply will_keys_only_refl].
  - apply Hw.
Qed.

Lemma index_loop_frame pubkey ws : forall s,
  will_keys_only s (fst (for_each (index_witness pubkey) ws tt s)).
Proof.
  induction ws as [|wn ws IH]; intros s; simpl; [apply will_keys_only_refl|].
  unfold bind. pose proof (index_witness_frame pubkey wn s) as H1.
  destruct (index_witness pubkey tt wn s) as [s1 [[]|e]]; simpl in *; auto.
  eapply will_keys_only_trans; [exact H1 | apply IH].
Qed.

Lemma create_will_frame req s : will_keys_only s (fst (create_will req s)).
Proof.
  unfold create_will.
  destruct (negb _); [apply will_keys_only_refl|].
  unfold bind at 1, lift.
  destruct (Py.contains _ _) as [[|]|]; simpl; try apply will_keys_only_refl.
  unfold bind at 1, lift.
  destruct (Py.getitem (json_body req) "public_key") as [pubkey|]; simpl;
    [|apply will_keys_only_refl].
  unfold bind at 1, lift.
  destruct (Py.contains _ _) as [has|]; simpl; [|apply will_keys_only_refl].
  unfold bind at 1.
  set (m := if negb has then _ else _).
  assert (Hm : exists r, m s = (s, r)).
  { subst m. destruct has; unfold bind, lift, ret; simpl; eauto.
    destruct (Py.getitem _ _) as [wv|]; simpl; eauto.
    destruct (Py.len wv); simpl; eauto. }
  destruct Hm as (r & ->). destruct r as [nw|]; [|apply will_keys_only_refl].
  unfold bind at 1.
  set (m2 := if nw then _ else _).
  assert (Hm2 : will_keys_only s (fst (m2 s))).
  { subst m2. destruct nw; unfold bind, lift, ret; simpl;
      [apply will_keys_only_refl|].
    destruct (Py.getitem _ _) as [wv|]; simpl; [|apply will_keys_only_refl].
    destruct (Py.iter wv) as [entries|]; simpl; [|apply will_keys_only_refl].
    pose proof (index_loop_frame pubkey entries s) as Hl.
    destruct (for_each _ entries tt s) as [s1 [[]|e]]; simpl in *; auto. }
  destruct (m2 s) as [s1 [body|e]]; simpl in Hm2; [|exact Hm2].
  unfold bind, lift, client_set, ret.
  destruct (Py.str_add WILL_PREFIX pubkey) as [name|] eqn:En; simpl;
    [|exact Hm2].
  destruct pubkey; simpl in En; try discriminate. inversion En; subst.
  eapply will_keys_only_trans; [exact Hm2 | apply will_keys_only_insert].
Qed.

Lemma witness_sign_frame req s : will_keys_only s (fst (witness_sign req s)).
Proof.
  intros j Hj. unfold witness_sign.
  destruct (negb _); [reflexivity|].
  destruct (query_get req "public_key") as [t|] eqn:Ht;
    destruct (query_get req "witness") as [w|] eqn:Hw; try reflexivity.
  pose proof (sign_writes_only_on_success s t w) as H.
  unfold Sign, witness_sign in H. simpl in H.
  match goal with
  | |- fst ?run !! j = _ => destruct run as [s' r] eqn:Erun
  end.
  simpl. destruct (H s' r eq_refl) as [-> | (body & -> & _)]; [reflexivity|].
  now apply lookup_insert_ne.
Qed.

(** X24: [create_will] and [witness_sign] write keys of the form
    ['WILL_' + x] only (wills and witness indexes): for every request,
    every ledger key that does not start with ['WILL_'] keeps its value,
    whether the handler returns or raises.  User records under such keys
    and the pending list are out of their reach. *)
Theorem will_handlers_write_will_keys_only
    (req : request) (s : gmap string json) (j : string) :
  (forall x, j <> WILL_PREFIX +:+ x) ->
  fst (create_will req s) !! j = s !! j /\
  fst (witness_sign req s) !! j = s !! j.
Proof.
  intros Hj. split.
  - now apply create_will_frame.
  - now apply witness_sign_frame.
Qed.

Lemma will_handlers_write_will_keys_only_witness :
  fst (create_will (POST (will_request "alice" [witness_entry "bob"]))
         (<["KEY_NEED_REVIEW" := JArr [JStr "alice"]]> ∅))
    !! "KEY_NEED_REVIEW" =
    (<["KEY_NEED_REVIEW" := JArr [JStr "alice"]]> ∅ : gmap string json)
      !! "KEY_NEED_REVIEW" /\
  fst (witness_sign (GET [("public_key", "alice"); ("witness", "bob")])
         (<["KEY_NEED_REVIEW" := JArr [JStr "alice"]]> ∅))
    !! "KEY_NEED_REVIEW" =
    (<["KEY_NEED_REVIEW" := JArr [JStr "alice"]]> ∅ : gmap string json)
      !! "KEY_NEED_REVIEW".
Proof.
  split.
  - apply (will_handlers_write_will_keys_only
             (POST (will_request "alice" [witness_entry "bob"]))).
    intros x H. simpl in H. discriminate.
  - apply (will_handlers_write_will_keys_only
             (GET [("public_key", "alice"); ("witness", "bob")])).
    intros x H. simpl in H. discriminate.
Defined.

(** ** The pending list under every route *)

Lemma readers_leave_the_ledger h req s :
  h = H_show_user \/ h = H_list_need_approve \/
  h = H_show_will \/ h = H_show_will_list ->
  ledger_after h req s = s.
Proof.
  intros [-> | [-> | [-> | ->]]]; simpl.
  - unfold show_user. run_reads.
  - unfold list_need_approve. destruct (negb _); [reflexivity|].
    unfold bind at 1. destruct (get_value _ s) as [s1 [v|e]] eqn:E1;
      assert (s1 = s) as -> by (revert E1; run_reads); [|reflexivity].
    unfold bind at 1, lift. destruct (Py.iter v) as [entries|]; [|reflexivity].
    unfold bind at 1.
    match goal with
    | |- context [for_each ?f entries [] s] =>
        pose proof (for_each_reads f entries) as Hloop
    end.
    match type of Hloop with
    | ?P -> _ => assert (Hp : P) by run_reads
    end.
    specialize (Hloop Hp [] s).
    destruct (for_each _ entries [] s) as [s2 [users|e]]; simpl in *; auto.
  - unfold show_will. run_reads.
  - unfold show_will_list. destruct (negb _); [reflexivity|].
    destruct (query_get req "public_key") as [w|]; [|reflexivity].
    unfold bind at 1.
    destruct (try_client _ _ s) as [s1 [v|e]] eqn:E1;
      assert (s1 = s) as -> by (revert E1; run_reads); [|reflexivity].
    unfold bind at 1, lift. destruct (Py.iter v) as [entries|]; [|reflexivity].
    unfold bind at 1.
    match goal with
    | |- context [for_each ?f entries [] s] =>
        pose proof (for_each_reads f entries) as Hloop
    end.
    match type of Hloop with
    | ?P -> _ => assert (Hp : P) by run_reads
    end.
    specialize (Hloop Hp [] s).
    destruct (for_each _ entries [] s) as [s2 [wills|e]]; simpl in *; auto.
Qed.

Lemma pending_key_is_no_will_key x : KEY_NEED_REVIEW <> WILL_PREFIX +:+ x.
Proof. intros H. unfold KEY_NEED_REVIEW, WILL_PREFIX in H. simpl in H. discriminate. Qed.

Lemma ledger_after_keeps h req s :
  pending_ok s -> pending_ok (ledger_after h req s).
Proof.
  intros Hs.
  assert (Hframe : forall s1, will_keys_only s s1 -> pending_ok s1).
  { intros s1 H l Hl. apply Hs. rewrite <- Hl. symmetry. apply H.
    apply pending_key_is_no_will_key. }
  destruct h; simpl; try exact Hs.
  - now apply register_keeps.
  - change (pending_ok (ledger_after H_show_user req s)).
    rewrite readers_leave_the_ledger; auto.
  - change (pending_ok (ledger_after H_list_need_approve req s)).
    rewrite readers_leave_the_ledger; auto.
  - now apply approve_keeps.
  - apply Hframe, create_will_frame.
  - change (pending_ok (ledger_after H_show_will req s)).
    rewrite readers_leave_the_ledger; auto.
  - change (pending_ok (ledger_after H_show_will_list req s)).
    rewrite readers_leave_the_ledger; auto 6.
  - apply Hframe, witness_sign_frame.
Qed.

Lemma serve_all_keeps calls : forall s,
  pending_ok s -> pending_ok (serve_all calls s).
Proof.
  induction calls as [|[path req] calls IH]; intros s Hs; [exact Hs|].
  cbn [serve_all].
  destruct (Py.dict_get path routes) as [h|]; apply IH; auto.
  now apply ledger_after_keeps.
Qed.

(** X25: the pending list stays duplicate free under every route of
    [start_rest_api]: starting from an absent or empty list, after any
    sequence of requests to any paths, the list stored at
    [KEY_NEED_REVIEW] has no entry equal to an earlier one and no key
    twice. *)
Theorem pending_list_has_no_duplicates_under_every_route
    (calls : list (string * request)) (s0 : gmap string json)
    (l : list json) :
  fresh_registry s0 ->
  serve_all calls s0 !! KEY_NEED_REVIEW = Some (JArr l) ->
  distinct l = true /\ forall k, occurrences k l <= 1.
Proof.
  intros H0 Hl.
  assert (Hd : distinct l = true).
  { apply (serve_all_keeps calls s0 (fresh_registry_ok s0 H0) l Hl). }
  split; [exact Hd|]. intros k. now apply distinct_occurrences.
Qed.

Lemma pending_list_has_no_duplicates_under_every_route_witness :
  distinct [JStr "alice"; JStr "bob"] = true /\
  forall k, occurrences k [JStr "alice"; JStr "bob"] <= 1.
Proof.
  apply (pending_list_has_no_duplicates_under_every_route
           [("/register", POST (JObj [("public_key", JStr "alice")]));
            ("/will/create", POST (will_request "alice" [witness_entry "bob"]));
            ("/register", POST (JObj [("public_key", JStr "bob")]));
            ("/will/witness_sign",
             GET [("public_key", "alice"); ("witness", "bob")]);
            ("/register", POST (JObj [("public_key", JStr "alice")]));
            ("/nowhere", GET [])]
           ∅).
  - left. vm_compute. reflexivity.
  - vm_compute. reflexivity.
Defined.

(** ** Every witness signing once *)

Lemma entry_names_one w w' wn :
  entry_names w wn = true -> entry_names w' wn = true -> w = w'.
Proof.
  destruct wn; simpl; try discriminate.
  destruct (Py.dict_get "public_key" fields) as [pk|]; [|discriminate].
  intros H1 H2. apply py_eq_str_r in H1. apply py_eq_str_r in H2. congruence.
Qed.

Lemma key_in_not_named S w wn :
  ~ In w S -> entry_names w wn = true -> key_in S wn = false.
Proof.
  intros Hnot Hn. unfold key_in. destruct (existsb _ S) eqn:E; [|reflexivity].
  apply existsb_exists in E as (w' & Hin & Hn').
  rewrite (entry_names_one w w' wn Hn Hn') in Hnot. contradiction.
Qed.

Lemma key_in_same S S' wn :
  (forall w, In w S <-> In w S') -> key_in S wn = key_in S' wn.
Proof.
  intros H. unfold key_in.
  destruct (existsb _ S) eqn:E; destruct (existsb _ S') eqn:E'; auto.
  - apply existsb_exists in E as (w & Hin & Hn).
    assert (existsb (fun w => entry_names w wn) S' = true); [|congruence].
    apply existsb_exists. exists w. split; [now apply H | exact Hn].
  - apply existsb_exists in E' as (w & Hin & Hn).
    assert (existsb (fun w => entry_names w wn) S = true); [|congruence].
    apply existsb_exists. exists w. split; [now apply H | exact Hn].
Qed.

Lemma filter_all_or_less {A : Type} (f : A -> bool) (l : list A) :
  (forallb f l = true /\ length (List.filter f l) = length l) \/
  (forallb f l = false /\ length (List.filter f l) < length l).
Proof.
  induction l as [|x l IH]; simpl; [left; auto|].
  assert (Hle : length (List.filter f l) <= length l).
  { clear. induction l as [|y l IH]; simpl; [lia|].
    destruct (f y); simpl; lia. }
  destruct (f x); simpl.
  - destruct IH as [[H1 H2] | [H1 H2]]; [left | right]; split; auto; lia.
  - right. split; [reflexivity | lia].
Qed.

Lemma counts_after_signers S w ws ws' :
  ~ In w S ->
  Forall2 (signed_by S) ws ws' ->
  count_signed ws' + count_named w ws' =
  length (List.filter (key_in (w :: S)) ws).
Proof.
  intros Hnot. unfold count_signed, count_named.
  induction 1 as [|wn wn' ws ws' (Hn & Hsg) _ IH]; simpl; [reflexivity|].
  rewrite Hsg, (Hn w).
  destruct (entry_names w wn) eqn:En; simpl.
  - rewrite (key_in_not_named S w wn Hnot En). simpl. lia.
  - destruct (key_in S wn); simpl; lia.
Qed.

Lemma marks_after_signer S w ws ws' :
  Forall entry_ok ws' ->
  Forall2 (signed_by S) ws ws' ->
  Forall entry_ok (map (mark_signed w) ws') /\
  Forall2 (signed_by (w :: S)) ws (map (mark_signed w) ws').
Proof.
  intros Hok H. induction H as [|wn wn' ws ws' (Hn & Hsg) _ IH]; simpl.
  - split; constructor.
  - inversion Hok as [|? ? Hwn' Hok']; subst.
    destruct (IH Hok') as (IH1 & IH2).
    destruct (mark_signed_spec w wn' Hwn') as (Hyes & Hno).
    split; constructor; auto.
    + destruct Hwn' as (o & pk & -> & Hpk). unfold mark_signed.
      destruct (entry_names w (JObj o)); [|now exists o, pk].
      eexists _, pk. split; [reflexivity|].
      now rewrite dict_get_set_ne by discriminate.
    + unfold signed_by, key_in. simpl.
      destruct (entry_names w wn') eqn:En.
      * destruct (Hyes eq_refl) as (Hs1 & Hn1). split.
        -- intros w0. destruct Hwn' as (o & pk & -> & Hpk).
           unfold mark_signed. rewrite En. simpl.
           rewrite dict_get_set_ne by discriminate. simpl in Hn.
           specialize (Hn w0). simpl in Hn. rewrite Hpk in Hn. rewrite <- Hn.
           now rewrite Hpk.
        -- rewrite Hs1. rewrite <- (Hn w), En. reflexivity.
      * rewrite (Hno eq_refl). split; [exact Hn|].
        rewrite Hsg. rewrite <- (Hn w), En. reflexivity.
Qed.

Lemma names_carried S w ws ws' :
  Forall2 (signed_by S) ws ws' ->
  existsb (entry_names w) ws' = existsb (entry_names w) ws.
Proof.
  induction 1 as [|wn wn' ws ws' (Hn & _) _ IH]; simpl; [reflexivity|].
  now rewrite (Hn w), IH.
Qed.

Lemma key_in_grows S w wn : key_in S wn = true -> key_in (w :: S) wn = true.
Proof. unfold key_in. simpl. intros ->. apply orb_true_r. Qed.

Lemma covered_grows S w ws :
  forallb (key_in S) ws = true -> forallb (key_in (w :: S)) ws = true.
Proof.
  rewrite !forallb_forall. intros H x Hx. apply key_in_grows. now apply H.
Qed.

Lemma sign_step t d ws S w s :
  will_after t d ws S s ->
  ~ In w S ->
  listed w ws ->
  will_after t d ws (w :: S) (fst (Sign t w s)).
Proof.
  intros (d' & ws' & Hs & Hw & Hok & Hrel & Hvalid & Hkeep) Hnot Hlisted.
  rewrite (sign_on_wellformed_will s t w d' ws' Hs Hw Hok).
  rewrite (names_carried S w ws ws' Hrel).
  apply listed_names in Hlisted. rewrite Hlisted. simpl.
  destruct (marks_after_signer S w ws ws' Hok Hrel) as (Hok1 & Hrel1).
  unfold after_sign.
  rewrite (counts_after_signers S w ws ws' Hnot Hrel).
  rewrite <- (Forall2_length _ _ _ Hrel).
  destruct (filter_all_or_less (key_in (w :: S)) ws) as [[Hc Hlen] | [Hc Hlen]].
  - rewrite Hlen, Nat.eqb_refl.
    eexists _, _. split; [apply lookup_insert_eq|].
    split; [rewrite dict_get_set_ne by discriminate; apply dict_get_set_eq|].
    split; [exact Hok1|]. split; [exact Hrel1|]. split.
    + intros _ _. apply dict_get_set_eq.
    + intros Hf. congruence.
  - destruct (Nat.eqb_spec (length (List.filter (key_in (w :: S)) ws))
                           (length ws)); [lia|].
    eexists _, _. split; [apply lookup_insert_eq|].
    split; [apply dict_get_set_eq|].
    split; [exact Hok1|]. split; [exact Hrel1|]. split.
    + intros _ Ht. congruence.
    + intros _. rewrite dict_get_set_ne by discriminate.
      apply Hkeep.
      destruct (forallb (key_in S) ws) eqn:E; [|reflexivity].
      rewrite (covered_grows S w ws E) in Hc. discriminate.
Qed.

Lemma sign_seq_steps t d ws sigs : forall S s,
  will_after t d ws S s ->
  NoDup sigs ->
  (forall w, In w sigs -> ~ In w S) ->
  Forall (fun w => listed w ws) sigs ->
  will_after t d ws (rev sigs ++ S) (sign_seq t sigs s).
Proof.
  induction sigs as [|w sigs IH]; intros S s Hinv Hnd Hdisj Hl; simpl.
  - exact Hinv.
  - inversion Hl as [|? ? Hw Hl']; subst.
    apply NoDup_cons in Hnd as (Hw_new & Hnd').
    rewrite <- app_assoc. simpl. apply IH; auto.
    + apply sign_step; auto. apply Hdisj. now left.
    + intros w' Hin [-> | Hin'].
      * apply Hw_new. now apply list_elem_of_In.
      * apply (Hdisj w'); [now right | exact Hin'].
Qed.

Lemma covered_same S S' ws :
  (forall w, In w S <-> In w S') ->
  forallb (key_in S) ws = forallb (key_in S') ws.
Proof.
  intros H. induction ws as [|wn ws IH]; simpl; [reflexivity|].
  now rewrite (key_in_same S S' wn H), IH.
Qed.

(** X26: when nobody signs twice, the will turns valid exactly at the last
    signature.  For a stored will with well-formed, unsigned witness
    entries and a sequence of distinct listed witnesses signing one after
    the other: once every entry is named by a signer the persisted status
    is ['valid'], and as long as some entry is not, the status is what it
    was before the first signature. *)
Theorem witnesses_signing_once_validate_at_the_last
    (s : gmap string json) (t : string) (d : list (string * json))
    (ws : list json) (sigs : list string) :
  s !! (WILL_PREFIX +:+ t) = Some (JObj d) ->
  Py.dict_get "witnesses" d = Some (JArr ws) ->
  Forall entry_ok ws ->
  Forall (fun wn => entry_signed wn = false) ws ->
  NoDup sigs ->
  Forall (fun w => listed w ws) sigs ->
  exists d',
    sign_seq t sigs s !! (WILL_PREFIX +:+ t) = Some (JObj d') /\
    (sigs <> [] -> forallb (key_in sigs) ws = true ->
     Py.dict_get "status" d' = Some (JStr "valid")) /\
    (forallb (key_in sigs) ws = false ->
     Py.dict_get "status" d' = Py.dict_get "status" d).
Proof.
  intros Hs Hw Hok Hunsigned Hnd Hl.
  assert (H0 : will_after t d ws [] s).
  { exists d, ws. repeat split; auto.
    - clear Hs Hw Hl. induction Hunsigned as [|wn ws Hwn _ IH]; constructor.
      + split; [reflexivity | exact Hwn].
      + apply IH. now inversion Hok.
    - intros H. now destruct H. }
  destruct (sign_seq_steps t d ws sigs [] s H0 Hnd) as
    (d' & ws' & Hs' & _ & _ & _ & Hvalid & Hkeep); auto.
  assert (Hsame : forall w, In w (rev sigs ++ []) <-> In w sigs).
  { intros w. rewrite app_nil_r. symmetry. apply in_rev. }
  rewrite (covered_same _ _ ws Hsame) in Hvalid, Hkeep.
  exists d'. split; [exact Hs'|]. split; [|exact Hkeep].
  intros Hne. apply Hvalid. rewrite app_nil_r.
  intros E. apply Hne. destruct sigs; [reflexivity|].
  simpl in E. now destruct (rev sigs); discriminate.
Qed.

Lemma witnesses_signing_once_validate_at_the_last_witness :
  exists d',
    sign_seq "alice" ["carol"; "bob"]
      (<["WILL_alice" :=
           will_request "alice" [witness_entry "bob"; witness_entry "carol"]]>
         ∅)
      !! (WILL_PREFIX +:+ "alice") = Some (JObj d') /\
    (["carol"; "bob"] <> [] ->
     forallb (key_in ["carol"; "bob"])
       [witness_entry "bob"; witness_entry "carol"] = true ->
     Py.dict_get "status" d' = Some (JStr "valid")) /\
    (forallb (key_in ["carol"; "bob"])
       [witness_entry "bob"; witness_entry "carol"] = false ->
     Py.dict_get "status" d' =
     Py.dict_get "status"
       [("public_key", JStr "alice");
        ("witnesses", JArr [witness_entry "bob"; witness_entry "carol"])]).
Proof.
  eapply witnesses_signing_once_validate_at_the_last.
  - vm_compute. reflexivity.
  - reflexivity.
  - repeat constructor; eexists _, _; split; reflexivity.
  - repeat constructor.
  - apply NoDup_cons. split; [|apply NoDup_cons; split; [|apply NoDup_nil; exact I]].
    + intros H. apply list_elem_of_In in H. destruct H as [H | []]. discriminate.
    + intros H. apply list_elem_of_In in H. destruct H.
  - constructor; [|constructor; [|constructor]].
    + exists [("public_key", JStr "carol")]. split; [right; left|]; reflexivity.
    + exists [("public_key", JStr "bob")]. split; [left|]; reflexivity.
Defined.

Lemma index_ready_entry_ok s wn : index_ready s wn -> entry_ok wn.
Proof. intros (o & w & -> & Hpk & _). now exists o, (JStr w). Qed.

(** X27: [create_will] followed by each witness signing once: for a request
    whose witness entries can be indexed and carry no signature, after the
    will is created and distinct listed witnesses sign one after the other,
    the persisted will is ['valid'] when they cover every entry, and still
    has the status of the request when they do not. *)
Theorem created_will_is_valid_once_every_witness_signed
    (s : gmap string json) (d : list (string * json)) (t : string)
    (wn : json) (ws : list json) (sigs : list string) :
  Py.dict_get "public_key" d = Some (JStr t) ->
  Py.dict_get "witnesses" d = Some (JArr (wn :: ws)) ->
  Forall (index_ready s) (wn :: ws) ->
  Forall (fun e => entry_signed e = false) (wn :: ws) ->
  NoDup sigs ->
  Forall (fun w => listed w (wn :: ws)) sigs ->
  exists d',
    sign_seq t sigs (fst (CreateWill (JObj d) s)) !! (WILL_PREFIX +:+ t) =
      Some (JObj d') /\
    (forallb (key_in sigs) (wn :: ws) = true ->
     Py.dict_get "status" d' = Some (JStr "valid")) /\
    (forallb (key_in sigs) (wn :: ws) = false ->
     Py.dict_get "status" d' = Py.dict_get "status" d).
Proof.
  intros Hpk Hw Hready Hunsigned Hnd Hl.
  rewrite (create_will_with_witnesses_run s d t wn ws Hpk Hw).
  destruct (index_loop_run t (wn :: ws) s Hready) as (s1 & E & _).
  rewrite E. cbn [fst].
  assert (Hok : Forall entry_ok (wn :: ws)).
  { eapply Forall_impl; [exact Hready|]. apply index_ready_entry_ok. }
  assert (H0 : will_after t d (wn :: ws) []
                 (<[WILL_PREFIX +:+ t := JObj d]> s1)).
  { exists d, (wn :: ws). split; [apply lookup_insert_eq|].
    repeat split; auto.
    - clear Hw Hl Hready E. revert Hok.
      induction Hunsigned as [|e l He _ IH]; intros Hok; constructor.
      + split; [reflexivity | exact He].
      + apply IH. now inversion Hok.
    - intros H. now destruct H. }
  destruct (sign_seq_steps t d (wn :: ws) sigs [] _ H0 Hnd) as
    (d' & ws' & Hs' & _ & _ & _ & Hvalid & Hkeep); auto.
  assert (Hsame : forall w, In w (rev sigs ++ []) <-> In w sigs).
  { intros w. rewrite app_nil_r. symmetry. apply in_rev. }
  rewrite (covered_same _ _ (wn :: ws) Hsame) in Hvalid, Hkeep.
  exists d'. split; [exact Hs'|]. split; [|exact Hkeep].
  intros Hcov. apply Hvalid; [|exact Hcov]. rewrite app_nil_r.
  intros E'. destruct sigs; [simpl in Hcov; discriminate|].
  simpl in E'. now destruct (rev sigs); discriminate.
Qed.

Lemma created_will_is_valid_once_every_witness_signed_witness :
  exists d',
    sign_seq "alice" ["bob"]
      (fst (CreateWill (will_request "alice" [witness_entry "bob"]) ∅))
      !! (WILL_PREFIX +:+ "alice") = Some (JObj d') /\
    (forallb (key_in ["bob"]) [witness_entry "bob"] = true ->
     Py.dict_get "status" d' = Some (JStr "valid")) /\
    (forallb (key_in ["bob"]) [witness_entry "bob"] = false ->
     Py.dict_get "status" d' =
     Py.dict_get "status"
       [("public_key", JStr "alice");
        ("witnesses", JArr [witness_entry "bob"])]).
Proof.
  eapply created_will_is_valid_once_every_witness_signed.
  - reflexivity.
  - reflexivity.
  - constructor; [|constructor].
    exists [("public_key", JStr "bob")], "bob".
    split; [reflexivity|]. split; [reflexivity|].
    left. vm_compute. reflexivity.
  - repeat constructor.
  - apply NoDup_cons. split; [|apply NoDup_nil; exact I].
    intros H. apply list_elem_of_In in H. destruct H.
  - constructor; [|constructor].
    exists [("public_key", JStr "bob")]. split; [left|]; reflexivity.
Defined.
